(** * Feature-encoding pipeline and attention core: a shallow embedding

    The development follows the Python sources

    - [models/iTransformer/attention.py]   (FullAttention, TriangularCausalMask)
    - [data_provider/data_encoder.py]      (encoders, DataProcessor)
    - [data_provider/data_provider.py]     (DataProvider.load_database)

    Python exceptions are values of [pyexc]; a computation that may raise
    has type [result A].  Floating-point numbers are idealised as real
    numbers ([R]); where the code produces infinities or NaN (attention
    scores) they are reals extended with [PInf], [NInf] and [NaN].  Rounding
    and overflow are outside the model. *)

From Stdlib Require Import Reals Lra Lia ZArith String Ascii List.
From stdpp Require Import gmap strings list fin_maps fin_sets sorting pretty.

(** ** Exceptions and the error monad *)

Inductive pyexc : Type :=
  | TypeError (msg : string)
  | KeyError (msg : string)
  | ValueError (msg : string)
  | AttributeError (msg : string)
  | IndexError (msg : string)
  | InvalidArgumentError (msg : string)
  | FileNotFoundError (path : string)
  | Exception (msg : string).

Inductive result (A : Type) : Type :=
  | Raise (e : pyexc)
  | Ok (a : A).
Arguments Raise {A} e.
Arguments Ok {A} a.

Definition rbind {A B} (m : result A) (k : A -> result B) : result B :=
  match m with
  | Raise e => Raise e
  | Ok a => k a
  end.

#[global] Instance result_bind : MBind result := fun A B k m => rbind m k.
#[global] Instance result_ret : MRet result := fun A a => Ok a.

Definition is_ok {A} (m : result A) : bool :=
  match m with Ok _ => true | Raise _ => false end.

(** [try: ... except FileNotFoundError as e: raise Exception(msg) from e] *)
Definition except_FileNotFoundError {A} (m : result A) (msg : string) : result A :=
  match m with
  | Raise (FileNotFoundError _) => Raise (Exception msg)
  | other => other
  end.

(** ** Python call protocol

    Binding of positional and keyword arguments to the parameters of a
    function [def f(self, p1, ..., pn)] without defaults, [*args] or
    [**kwargs]. *)

Inductive pyval : Type :=
  | PyInt (z : Z)
  | PyStr (s : string).

Fixpoint bind_positional (fname : string) (params : list string) (args : list pyval)
  : result (list (string * pyval) * list string) :=
  match args, params with
  | [], _ => Ok ([], params)
  | _ :: _, [] =>
      Raise (TypeError (fname +:+ "() takes too many positional arguments"))
  | a :: args', p :: params' =>
      '(bound, rest) ← bind_positional fname params' args';
      Ok ((p, a) :: bound, rest)
  end.

Fixpoint bind_keywords (fname : string) (all_params unbound : list string)
    (kwargs : list (string * pyval)) : result (list (string * pyval) * list string) :=
  match kwargs with
  | [] => Ok ([], unbound)
  | (kw, v) :: kwargs' =>
      if bool_decide (kw ∈ unbound) then
        ('(bound, rest) ←
           bind_keywords fname all_params (filter (fun p => p ≠ kw) unbound) kwargs';
         Ok ((kw, v) :: bound, rest))
      else if bool_decide (kw ∈ all_params) then
        Raise (TypeError (fname +:+ "() got multiple values for argument '" +:+ kw +:+ "'"))
      else
        Raise (TypeError (fname +:+ "() got an unexpected keyword argument '" +:+ kw +:+ "'"))
  end.

Definition bind_args (fname : string) (params : list string) (args : list pyval)
    (kwargs : list (string * pyval)) : result (list (string * pyval)) :=
  '(pos, unbound) ← bind_positional fname params args;
  '(kws, missing) ← bind_keywords fname params unbound kwargs;
  match missing with
  | [] => Ok (pos ++ kws)
  | m :: _ =>
      Raise (TypeError (fname +:+ "() missing required positional argument: '" +:+ m +:+ "'"))
  end.

Definition get_int (name : string) (env : list (string * pyval)) : result Z :=
  match list_find (fun p => p.1 = name) env with
  | Some (_, (_, PyInt z)) => Ok z
  | _ => Raise (TypeError ("'" +:+ name +:+ "' must be an integer"))
  end.

(** ** Extended reals: the values of float tensors *)

Inductive xreal : Type :=
  | Fin (r : R)
  | PInf
  | NInf
  | NaN.

(** [r * inf] for a finite [r]. *)
Definition Rtimes_inf (r : R) : xreal :=
  if Rlt_dec 0 r then PInf else if Rlt_dec r 0 then NInf else NaN.

Definition xneg (a : xreal) : xreal :=
  match a with
  | Fin r => Fin (- r)
  | PInf => NInf
  | NInf => PInf
  | NaN => NaN
  end.

Definition xadd (a b : xreal) : xreal :=
  match a, b with
  | NaN, _ | _, NaN => NaN
  | Fin x, Fin y => Fin (x + y)
  | PInf, NInf | NInf, PInf => NaN
  | PInf, _ | _, PInf => PInf
  | NInf, _ | _, NInf => NInf
  end.

Definition xsub (a b : xreal) : xreal := xadd a (xneg b).

Definition xmul (a b : xreal) : xreal :=
  match a, b with
  | NaN, _ | _, NaN => NaN
  | Fin x, Fin y => Fin (x * y)
  | Fin x, PInf | PInf, Fin x => Rtimes_inf x
  | Fin x, NInf | NInf, Fin x => xneg (Rtimes_inf x)
  | PInf, PInf | NInf, NInf => PInf
  | PInf, NInf | NInf, PInf => NInf
  end.

Definition xdiv (a b : xreal) : xreal :=
  match a, b with
  | NaN, _ | _, NaN => NaN
  | Fin x, Fin y => if Req_dec_T y 0 then Rtimes_inf x else Fin (x / y)
  | Fin _, (PInf | NInf) => Fin 0
  | (PInf | NInf), (PInf | NInf) => NaN
  | PInf, Fin y => if Rlt_dec y 0 then NInf else PInf
  | NInf, Fin y => if Rlt_dec y 0 then PInf else NInf
  end.

Definition xexp (a : xreal) : xreal :=
  match a with
  | Fin r => Fin (exp r)
  | PInf => PInf
  | NInf => Fin 0
  | NaN => NaN
  end.

Definition xmax (a b : xreal) : xreal :=
  match a, b with
  | NaN, _ | _, NaN => NaN
  | PInf, _ | _, PInf => PInf
  | NInf, x | x, NInf => x
  | Fin x, Fin y => Fin (Rmax x y)
  end.

Definition Rsum (n : nat) (f : nat -> R) : R :=
  foldr (fun i acc => (f i + acc)%R) 0%R (seq 0 n).

Definition xsum (n : nat) (f : nat -> xreal) : xreal :=
  foldr (fun i acc => xadd (f i) acc) (Fin 0) (seq 0 n).

Definition reduce_max (n : nat) (f : nat -> xreal) : xreal :=
  foldr (fun i acc => xmax (f i) acc) NInf (seq 0 n).

(** ** Rank-4 tensors *)

Record tensor (A : Type) : Type := Tensor {
  dims : nat * nat * nat * nat;
  device : string;
  at4 : nat -> nat -> nat -> nat -> A
}.
Arguments Tensor {A} dims device at4.
Arguments dims {A} t.
Arguments device {A} t.
Arguments at4 {A} t b i j k.

Definition tensor_map {A B} (f : A -> B) (t : tensor A) : tensor B :=
  Tensor (dims t) (device t) (fun b i j k => f (at4 t b i j k)).

(** Broadcasting of one dimension, and the index read through it. *)
Definition broadcast_dim (a b : nat) : option nat :=
  if a =? b then Some a
  else if a =? 1 then Some b
  else if b =? 1 then Some a
  else None.

Definition broadcast_dims (s t : nat * nat * nat * nat) : option (nat * nat * nat * nat) :=
  let '(s0, s1, s2, s3) := s in
  let '(t0, t1, t2, t3) := t in
  match broadcast_dim s0 t0, broadcast_dim s1 t1, broadcast_dim s2 t2, broadcast_dim s3 t3 with
  | Some d0, Some d1, Some d2, Some d3 => Some (d0, d1, d2, d3)
  | _, _, _, _ => None
  end.

Definition bidx (n i : nat) : nat := if n =? 1 then 0 else i.

Definition at_broadcast {A} (t : tensor A) (b i j k : nat) : A :=
  let '(d0, d1, d2, d3) := dims t in
  at4 t (bidx d0 b) (bidx d1 i) (bidx d2 j) (bidx d3 k).

(** [tf.ones(shape, dtype=tf.bool)] *)
Definition ones (shape : nat * nat * nat * nat) : tensor bool :=
  Tensor shape "" (fun _ _ _ _ => true).

(** [tf.linalg.band_part(input, num_lower, num_upper)]: entry [(m, n)] of
    the two inner dimensions is kept when
    [(num_lower < 0 || m - n <= num_lower) && (num_upper < 0 || n - m <= num_upper)]
    and zeroed ([False]) otherwise. *)
Definition in_band (num_lower num_upper : Z) (m n : nat) : bool :=
  ((num_lower <? 0) || (Z.of_nat m - Z.of_nat n <=? num_lower))%Z
  && ((num_upper <? 0) || (Z.of_nat n - Z.of_nat m <=? num_upper))%Z.

Definition band_part (input : tensor bool) (num_lower num_upper : Z) : tensor bool :=
  Tensor (dims input) (device input)
    (fun b h m n => in_band num_lower num_upper m n && at4 input b h m n).

(** [tf.einsum("blhe,bshe->bhls", queries, keys)] *)
Definition einsum_blhe_bshe (queries keys : tensor R) : result (tensor R) :=
  let '(B, L, H, E) := dims queries in
  let '(B', S_, H', E') := dims keys in
  if (B =? B') && (H =? H') && (E =? E') then
    Ok (Tensor (B, H, L, S_) (device queries)
          (fun b h l s => Rsum E (fun e => (at4 queries b l h e * at4 keys b s h e)%R)))
  else Raise (InvalidArgumentError "einsum: blhe,bshe->bhls: incompatible shapes").

(** [tf.einsum("bhls,bshd->blhd", A, values)] *)
Definition einsum_bhls_bshd (A : tensor xreal) (values : tensor R) : result (tensor xreal) :=
  let '(B, H, L, S_) := dims A in
  let '(B', S', H', D) := dims values in
  if (B =? B') && (H =? H') && (S_ =? S') then
    Ok (Tensor (B, L, H, D) (device A)
          (fun b l h d => xsum S_ (fun s => xmul (at4 A b h l s) (Fin (at4 values b s h d)))))
  else Raise (InvalidArgumentError "einsum: bhls,bshd->blhd: incompatible shapes").

(** [tf.where(condition, -np.inf, scores)] with broadcasting. *)
Definition where_neg_inf (condition : tensor bool) (scores : tensor R) : result (tensor xreal) :=
  match broadcast_dims (dims condition) (dims scores) with
  | Some shape =>
      Ok (Tensor shape (device scores)
            (fun b h l s =>
               if at_broadcast condition b h l s then NInf
               else Fin (at_broadcast scores b h l s)))
  | None => Raise (InvalidArgumentError "where: shapes cannot be broadcast")
  end.

(** [tf.nn.softmax(logits, axis=-1)]: [exp(x - max x) / sum (exp(x - max x))]
    along the last axis. *)
Definition softmax (logits : tensor xreal) : tensor xreal :=
  let '(_, _, _, S_) := dims logits in
  Tensor (dims logits) (device logits)
    (fun b h l s =>
       let row := at4 logits b h l in
       let m := reduce_max S_ row in
       let e := fun i => xexp (xsub (row i) m) in
       xdiv (e s) (xsum S_ e)).

(** ** models/iTransformer/attention.py *)

Record TriangularCausalMask : Type := { _mask : tensor bool }.

Definition mask (self : TriangularCausalMask) : tensor bool := _mask self.

(** [TriangularCausalMask.__init__(self, B, L)] *)
Definition TriangularCausalMask_init (args : list pyval) (kwargs : list (string * pyval))
  : result TriangularCausalMask :=
  env ← bind_args "__init__" ["B"; "L"] args kwargs;
  B ← get_int "B" env;
  L ← get_int "L" env;
  let mask_shape := (Z.to_nat B, 1, Z.to_nat L, Z.to_nat L) in
  Ok {| _mask := band_part (ones mask_shape) (-1) 0 |}.

Record FullAttention : Type := {
  scale : option R;
  mask_flag : bool;
  output_attention : bool;
  attention_dropout : R
}.

(** [FullAttention.__init__(mask_flag=True, factor=5, scale=None,
     attention_dropout=0.1, output_attention=False)] *)
Definition FullAttention_init (mask_flag : option bool) (scale : option R)
    (attention_dropout : option R) (output_attention : option bool) : FullAttention :=
  {| scale := scale;
     mask_flag := default true mask_flag;
     output_attention := default false output_attention;
     attention_dropout := default (1 / 10)%R attention_dropout |}.

(** [self.scale or 1. / np.sqrt(E)]: [None] and [0.0] are falsy; NumPy
    evaluates [1. / np.sqrt(0)] to [inf]. *)
Definition effective_scale (self : FullAttention) (E : nat) : xreal :=
  let default_scale := if E =? 0 then PInf else Fin (1 / sqrt (INR E)) in
  match scale self with
  | Some r => if Req_dec_T r 0 then default_scale else Fin r
  | None => default_scale
  end.

(** The Keras [Dropout] layer: the identity at inference ([training = None]);
    in training the sampled keep mask is an input, kept entries are scaled
    by [1 / (1 - rate)]. *)
Definition dropout (rate : R) (training : option (nat -> nat -> nat -> nat -> bool))
    (x : tensor xreal) : tensor xreal :=
  match training with
  | None => x
  | Some keep =>
      Tensor (dims x) (device x)
        (fun b h l s =>
           if keep b h l s then xmul (at4 x b h l s) (Fin (1 / (1 - rate))) else Fin 0)
  end.

(** [FullAttention.call(queries, keys, values, attn_mask, tau=None, delta=None)] *)
Definition FullAttention_call (self : FullAttention) (queries keys values : tensor R)
    (attn_mask : option TriangularCausalMask)
    (training : option (nat -> nat -> nat -> nat -> bool))
  : result (tensor xreal * option (tensor xreal)) :=
  let '(B, L, H, E) := dims queries in
  let '(_, S_, _, D) := dims values in
  let scale := effective_scale self E in
  scores ← einsum_blhe_bshe queries keys;
  scores ← (if mask_flag self then
              attn_mask ← match attn_mask with
                          | None =>
                              TriangularCausalMask_init
                                [PyInt (Z.of_nat B); PyInt (Z.of_nat L)]
                                [("device", PyStr (device queries))]
                          | Some m => Ok m
                          end;
              where_neg_inf (mask attn_mask) scores
            else Ok (tensor_map Fin scores));
  let A := dropout (attention_dropout self) training
             (softmax (tensor_map (xmul scale) scores)) in
  V ← einsum_bhls_bshd A values;
  if output_attention self then Ok (V, Some A) else Ok (V, None).

(** A tensor filled with zeros, as [tf.zeros(shape)]. *)
Definition zeros (shape : nat * nat * nat * nat) : tensor R :=
  Tensor shape "CPU:0" (fun _ _ _ _ => 0%R).

(** ** Time-indexed tables

    A timestamp is a number of seconds since 1970-01-01 00:00.  A pandas
    [Series] indexed by time is a finite map from timestamps to values; a
    missing value (NaN) is an absent key.  A [DataFrame] is its index
    together with its named columns in order; the index is a set, so every
    timestamp labels one row. *)

Abbreviation Timestamp := Z (only parsing).
Abbreviation Series := (gmap Z R) (only parsing).

Record DataFrame : Type := {
  index : gset Z;
  columns : list (string * Series)
}.

Definition column_names (df : DataFrame) : list string := (columns df).*1.

(** The value of column number [i] at timestamp [t]; [None] is NaN. *)
Definition cell (df : DataFrame) (t : Timestamp) (i : nat) : option R :=
  c ← columns df !! i; c.2 !! t.

(** The row at timestamp [t], as [df.loc[t]]. *)
Definition row (df : DataFrame) (t : Timestamp) : list (option R) :=
  (fun c => c.2 !! t) <$> columns df.

(** [pd.Timedelta(days=d)] *)
Definition Timedelta_days (d : Z) : Z := (d * 86400)%Z.

(** Apply [f] to the series of every column, keeping the names. *)
Definition map_series (f : Series -> Series) (cols : list (string * Series))
  : list (string * Series) :=
  (fun c => (c.1, f c.2)) <$> cols.

(** [df.index = df.index + delta] *)
Definition shift_series (delta : Z) (s : Series) : Series :=
  kmap (fun t => t + delta)%Z s.

Definition shift_index (delta : Z) (df : DataFrame) : DataFrame :=
  {| index := set_map (fun t => t + delta)%Z (index df);
     columns := map_series (shift_series delta) (columns df) |}.

(** [df.add_prefix(prefix)] *)
Definition add_prefix (prefix : string) (df : DataFrame) : DataFrame :=
  {| index := index df;
     columns := (fun c : string * Series => (prefix +:+ c.1, c.2)) <$> columns df |}.

(** [df[name]]: the column called [name]. *)
Definition getitem (df : DataFrame) (name : string) : result Series :=
  match filter (fun c => c.1 = name) (columns df) with
  | [] => Raise (KeyError name)
  | [c] => Ok c.2
  | _ :: _ :: _ => Raise (ValueError ("column '" +:+ name +:+ "' is not unique"))
  end.

(** [df[[n1, ..., nk]]]: the columns called [n1], ..., [nk] in that order;
    a name that labels no column is a [KeyError]. *)
Fixpoint getitem_list (df : DataFrame) (names : list string)
  : result (list (string * Series)) :=
  match names with
  | [] => Ok []
  | name :: names' =>
      match filter (fun c => c.1 = name) (columns df) with
      | [] => Raise (KeyError ("['" +:+ name +:+ "'] not in index"))
      | cs => rest ← getitem_list df names'; Ok (cs ++ rest)
      end
  end.

Definition getitem_columns (df : DataFrame) (names : list string) : result DataFrame :=
  cols ← getitem_list df names;
  Ok {| index := index df; columns := cols |}.

(** [df.drop([name], axis=1)] *)
Definition drop_column (df : DataFrame) (name : string) : result DataFrame :=
  if bool_decide (name ∈ column_names df) then
    Ok {| index := index df;
          columns := filter (fun c => c.1 ≠ name) (columns df) |}
  else Raise (KeyError ("['" +:+ name +:+ "'] not found in axis")).

(** [pd.concat(frames, axis=1)]: outer join on the index, columns side by
    side. *)
Definition concat_columns (frames : list DataFrame) : DataFrame :=
  {| index := ⋃ (index <$> frames);
     columns := frames ≫= columns |}.

(** [df.dropna()]: keep the rows without a missing value. *)
Definition complete_at (df : DataFrame) (t : Timestamp) : Prop :=
  Forall (fun c : string * Series => is_Some (c.2 !! t)) (columns df).

#[global] Instance complete_at_dec df t : Decision (complete_at df t).
Proof. unfold complete_at. apply _. Defined.

Definition restrict_rows (keep : gset Z) (df : DataFrame) : DataFrame :=
  {| index := keep;
     columns := map_series (filter (fun kv : Z * R => kv.1 ∈ keep)) (columns df) |}.

Definition dropna (df : DataFrame) : DataFrame :=
  restrict_rows (filter (complete_at df) (index df)) df.

(** [df.fillna(value)] *)
Definition fillna (value : R) (df : DataFrame) : DataFrame :=
  {| index := index df;
     columns := map_series (fun s => s ∪ gset_to_gmap value (index df)) (columns df) |}.

(** ** Calendar fields of a timestamp (proleptic Gregorian calendar) *)

Definition days_since_epoch (t : Timestamp) : Z := (t `div` 86400)%Z.
Definition seconds_of_day (t : Timestamp) : Z := (t `mod` 86400)%Z.

(** Year, month and day of the civil date [days] days after 1970-01-01. *)
Definition civil_from_days (days : Z) : Z * Z * Z :=
  let z := (days + 719468)%Z in
  let era := (z `div` 146097)%Z in
  let doe := (z - era * 146097)%Z in
  let yoe := ((doe - doe `div` 1460 + doe `div` 36524 - doe `div` 146096) `div` 365)%Z in
  let doy := (doe - (365 * yoe + yoe `div` 4 - yoe `div` 100))%Z in
  let mp := ((5 * doy + 2) `div` 153)%Z in
  let d := (doy - (153 * mp + 2) `div` 5 + 1)%Z in
  let m := (if mp <? 10 then mp + 3 else mp - 9)%Z in
  let y := (yoe + era * 400 + (if m <=? 2 then 1 else 0))%Z in
  (y, m, d).

Definition year (t : Timestamp) : Z := (civil_from_days (days_since_epoch t)).1.1.
Definition month (t : Timestamp) : Z := (civil_from_days (days_since_epoch t)).1.2.
Definition day (t : Timestamp) : Z := (civil_from_days (days_since_epoch t)).2.
(** Monday is 0; 1970-01-01 was a Thursday. *)
Definition dayofweek (t : Timestamp) : Z := ((days_since_epoch t + 3) `mod` 7)%Z.
Definition hour (t : Timestamp) : Z := (seconds_of_day t `div` 3600)%Z.

(** A field of a [DatetimeIndex], as the series of its values by row. *)
Definition index_field (f : Timestamp -> Z) (idx : gset Z) : Series :=
  set_to_map (fun t => (t, IZR (f t))) idx.

(** ** data_provider/data_encoder.py: SineCosineEncoder *)

Module SineCosineEncoder.

Definition radians (value : R) (parameter_range : Z) : R :=
  (value / IZR parameter_range * 2 * PI)%R.

Definition sine_encoding (value : R) (parameter_range : Z) : R :=
  (0.5 * (sin (radians value parameter_range) + 1) - 0.5)%R.

Definition cosine_encoding (value : R) (parameter_range : Z) : R :=
  (0.5 * (cos (radians value parameter_range) + 1) - 0.5)%R.

(** [create_encoding(data, name, parameter_range)]; the two columns keep
    the row labels of [data]. *)
Definition create_encoding (data : Series) (name : string) (parameter_range : Z)
  : list (string * Series) :=
  [ (name +:+ "_sine_encoding", (fun v => sine_encoding v parameter_range) <$> data);
    (name +:+ "_cosine_encoding", (fun v => cosine_encoding v parameter_range) <$> data) ].

End SineCosineEncoder.

(** ** sklearn.preprocessing.StandardScaler

    The fitted state holds, per feature, the mean and the scale (standard
    deviation, [1] for a constant feature) over the values present; NaN is
    disregarded in [fit] and kept in [transform].  A feature without any
    value has NaN parameters ([None]).  The column names seen during
    [fit] are recorded in [feature_names_in_]; a scaler fitted on an array
    without column names has none, written [[]] (a fit on a table without
    columns fails, so no fitted scaler records an empty list of names).
    [transform] validates the names first, as scikit-learn does from
    release 1.2 on: names that differ from the recorded ones are a
    [ValueError]. *)

Record StandardScaler : Type := {
  n_features_in_ : nat;
  feature_names_in_ : list string;
  mean_ : list (option R);
  scale_ : list (option R)
}.

Definition series_sum (s : Series) : R :=
  map_fold (fun _ v acc => (v + acc)%R) 0%R s.

Definition nanmean (s : Series) : option R :=
  if size s =? 0 then None else Some (series_sum s / INR (size s))%R.

Definition nanvar (s : Series) : option R :=
  m ← nanmean s;
  Some (series_sum ((fun v => (v - m) * (v - m))%R <$> s) / INR (size s))%R.

Definition handle_zeros_in_scale (scale : R) : R :=
  if Req_dec_T scale 0 then 1%R else scale.

Definition nanstd_scale (s : Series) : option R :=
  v ← nanvar s; Some (handle_zeros_in_scale (sqrt v)).

(** [check_array]: at least one sample and one feature. *)
Definition check_array (X : DataFrame) : result unit :=
  if size (index X) =? 0 then
    Raise (ValueError "Found array with 0 sample(s) while a minimum of 1 is required")
  else if length (columns X) =? 0 then
    Raise (ValueError "Found array with 0 feature(s) while a minimum of 1 is required")
  else Ok ().

Definition StandardScaler_fit (X : DataFrame) : result StandardScaler :=
  _ ← check_array X;
  Ok {| n_features_in_ := length (columns X);
        feature_names_in_ := column_names X;
        mean_ := (fun c : string * Series => nanmean c.2) <$> columns X;
        scale_ := (fun c : string * Series => nanstd_scale c.2) <$> columns X |}.

Definition standardize (mean scale : option R) (s : Series) : Series :=
  match mean, scale with
  | Some m, Some sc => (fun v => (v - m) / sc)%R <$> s
  | _, _ => ∅
  end.

(** The first line of the message of the feature-name check; the lines
    listing the unexpected and the missing names are left out. *)
Definition feature_names_message : string :=
  "The feature names should match those that were passed during fit.".

(** [_check_feature_names(X, reset=False)]: when the scaler recorded names
    and [X] has names, they must be the same names in the same order; when
    either side has none there is only a warning. *)
Definition check_feature_names (self : StandardScaler) (X : DataFrame) : result unit :=
  match feature_names_in_ self, column_names X with
  | [], _ | _, [] => Ok ()
  | fitted_feature_names, X_feature_names =>
      if bool_decide (fitted_feature_names = X_feature_names) then Ok ()
      else Raise (ValueError feature_names_message)
  end.

(** [scaler.transform(X)]: the columns of the resulting array.  The names
    are validated first, then the array, then the number of features. *)
Definition StandardScaler_transform (self : StandardScaler) (X : DataFrame)
  : result (list Series) :=
  _ ← check_feature_names self X;
  _ ← check_array X;
  if length (columns X) =? n_features_in_ self then
    Ok (zip_with (fun (c : string * Series) (p : option R * option R) =>
                    standardize p.1 p.2 c.2)
          (columns X) (zip (mean_ self) (scale_ self)))
  else Raise (ValueError "X has a different number of features than StandardScaler is expecting").

(** [pd.DataFrame(array, index=index, columns=names)] *)
Definition DataFrame_of_array (array : list Series) (idx : gset Z) (names : list string)
  : result DataFrame :=
  if length array =? length names then
    Ok {| index := idx; columns := zip names array |}
  else Raise (ValueError "Shape of passed values does not match the columns").

(** ** Strings *)

Definition is_digit (c : ascii) : bool :=
  (48 <=? nat_of_ascii c) && (nat_of_ascii c <=? 57).

(** The characters of a column name are code points below 256 (Latin-1).
    [c.isnumeric()] holds for the code points whose Unicode numeric type
    is decimal, digit or numeric: the decimal digits, the superscripts
    U+00B2, U+00B3 and U+00B9, and the fractions U+00BC, U+00BD and
    U+00BE. *)
Definition is_numeric_char (c : ascii) : bool :=
  is_digit c
  || bool_decide (nat_of_ascii c ∈ [178; 179; 185; 188; 189; 190]).

(** [s.isnumeric()]: not empty and numeric characters only. *)
Definition isnumeric (s : string) : bool :=
  negb (String.eqb s "") && forallb is_numeric_char (list_ascii_of_string s).

(** [s.split(sep)[-1]] for a one-character separator. *)
Fixpoint split_last (sep : ascii) (s : string) : string :=
  match s with
  | EmptyString => EmptyString
  | String c s' =>
      if bool_decide (sep ∈ list_ascii_of_string s') then split_last sep s'
      else if Ascii.eqb c sep then s'
      else s
  end.

(** [s.split(pat)[0]] *)
Definition split_first (pat s : string) : string :=
  match String.index 0 pat s with
  | Some n => String.substring 0 n s
  | None => s
  end.

(** ** data_provider/data_encoder.py: the encoder classes *)

Inductive encoder_class : Type :=
  | TemporalEncoder
  | WeatherEncoder
  | LabelEncoder
  | AutoEncoder
  | FerienEncoder
  | FahrtenEncoder.

(** The default [encoder_filename] of each class. *)
Definition default_filename (cls : encoder_class) : option string :=
  match cls with
  | TemporalEncoder => None
  | WeatherEncoder => Some "saved_models/weather_encoding.save"
  | LabelEncoder => Some "saved_models/label_encoding.save"
  | AutoEncoder => Some "saved_models/autoencoder.h5"
  | FerienEncoder => Some "saved_models/ferien_encoding.h5"
  | FahrtenEncoder => Some "saved_models/fahrten_encoding.h5"
  end.

(** The classes deriving from [AutoEncoder]. *)
Definition is_autoencoder (cls : encoder_class) : bool :=
  match cls with
  | AutoEncoder | FerienEncoder | FahrtenEncoder => true
  | _ => false
  end.

Record BaseEncoder : Type := {
  class_ : encoder_class;
  encoder_filename : option string
}.

(** [cls()] and [cls(encoder_filename)] *)
Definition new_encoder (cls : encoder_class) : BaseEncoder :=
  {| class_ := cls; encoder_filename := default_filename cls |}.

(** [if self.encoder_filename:], the name when it is neither [None] nor
    empty. *)
Definition truthy_filename (self : BaseEncoder) : option string :=
  match encoder_filename self with
  | Some f => if String.eqb f "" then None else Some f
  | None => None
  end.

Definition not_fitted_message : string :=
  "Error while loading encoder. Try running BaseEncoder.fit_encoder() or BaseEncoder.fit_and_encode() first to create a new encoder".

(** The argument of an encoder: a [DatetimeIndex] or a [DataFrame]. *)
Inductive pydata : Type :=
  | IndexData (idx : gset Z)
  | FrameData (df : DataFrame).

(** [pd.get_dummies(data.year, prefix='year', dtype=float)] *)
Definition get_dummies_year (idx : gset Z) : list (string * Series) :=
  (fun y : Z =>
     ("year_" +:+ pretty y,
      set_to_map (fun t : Z => (t, if bool_decide (year t = y) then 1%R else 0%R)) idx))
  <$> merge_sort Z.le (elements (set_map (C := gset Z) (D := gset Z) year idx)).

Section Encoders.

(** The Keras model type and the functions of
    [models.autoencoder.training] are not among the sources; they are
    parameters.  [train_model data encoder filename] stands for one
    training run together with its random choices: it gives the trained
    model that stays in memory and the model written under [filename]. *)
Context {model layer : Type}.
Variable build_autoencoder : nat -> model.
Variable train_model : DataFrame -> model -> option string -> model * model.
(** [model.get_layer('encoder')] *)
Variable get_layer_encoder : model -> layer.
(** [encoder.predict(data)]: the columns of the embedding. *)
Variable predict : layer -> DataFrame -> result (list Series).

(** What a file of the artifact store holds. *)
Inductive artifact : Type :=
  | ScalerFile (s : StandardScaler)
  | ModelFile (m : model).

(** What [fit_encoder] and [load_encoder] hand to [_encode_data]. *)
Inductive encoder_obj : Type :=
  | PyNone
  | Scaler (s : StandardScaler)
  | Layer (l : layer).

(** [joblib.load(filename)] *)
Definition joblib_load (store : gmap string artifact) (filename : string)
  : result encoder_obj :=
  match store !! filename with
  | None => Raise (FileNotFoundError filename)
  | Some (ScalerFile s) => Ok (Scaler s)
  | Some (ModelFile _) => Raise (ValueError "joblib.load: not a joblib file")
  end.

(** [tf.keras.models.load_model(filename)] *)
Definition load_model (store : gmap string artifact) (filename : string) : result model :=
  match store !! filename with
  | None => Raise (FileNotFoundError filename)
  | Some (ModelFile m) => Ok m
  | Some (ScalerFile _) => Raise (ValueError "load_model: not a Keras model file")
  end.

(** [BaseEncoder.fit_encoder], overridden by [AutoEncoder.fit_encoder]. *)
Definition fit_encoder (self : BaseEncoder) (data : pydata) (store : gmap string artifact)
  : result (encoder_obj * gmap string artifact) :=
  if is_autoencoder (class_ self) then
    match data with
    | FrameData df =>
        let encoder := build_autoencoder (length (columns df)) in
        let '(trained, saved) := train_model df encoder (encoder_filename self) in
        let store' := match encoder_filename self with
                      | Some f => <[f := ModelFile saved]> store
                      | None => store
                      end in
        Ok (Layer (get_layer_encoder trained), store')
    | IndexData _ => Raise (IndexError "tuple index out of range")
    end
  else
    match truthy_filename self with
    | Some f =>
        match data with
        | FrameData df =>
            encoder ← StandardScaler_fit df;
            Ok (Scaler encoder, <[f := ScalerFile encoder]> store)
        | IndexData _ => Raise (ValueError "Expected 2D array, got 1D array instead")
        end
    | None => Ok (PyNone, store)
    end.

(** [BaseEncoder.load_encoder], overridden by [AutoEncoder.load_encoder]. *)
Definition load_encoder (self : BaseEncoder) (store : gmap string artifact)
  : result encoder_obj :=
  if is_autoencoder (class_ self) then
    except_FileNotFoundError
      (match truthy_filename self with
       | Some f => m ← load_model store f; Ok (Layer (get_layer_encoder m))
       | None => Ok PyNone
       end)
      not_fitted_message
  else
    match truthy_filename self with
    | Some f => except_FileNotFoundError (joblib_load store f) not_fitted_message
    | None => Ok PyNone
    end.

Definition as_frame (data : pydata) : result DataFrame :=
  match data with
  | FrameData df => Ok df
  | IndexData _ => Raise (AttributeError "'DatetimeIndex' object is not a DataFrame")
  end.

Definition as_scaler (encoder : encoder_obj) : result StandardScaler :=
  match encoder with
  | Scaler s => Ok s
  | PyNone => Raise (AttributeError "'NoneType' object has no attribute 'transform'")
  | Layer _ => Raise (AttributeError "object has no attribute 'transform'")
  end.

Definition as_layer (encoder : encoder_obj) : result layer :=
  match encoder with
  | Layer l => Ok l
  | PyNone => Raise (AttributeError "'NoneType' object has no attribute 'predict'")
  | Scaler _ => Raise (AttributeError "'StandardScaler' object has no attribute 'predict'")
  end.

Definition TemporalEncoder_encode_data (data : pydata) : result DataFrame :=
  match data with
  | IndexData idx =>
      Ok {| index := idx;
            columns :=
              get_dummies_year idx
              ++ SineCosineEncoder.create_encoding (index_field month idx) "month" 12
              ++ SineCosineEncoder.create_encoding (index_field day idx) "day" 31
              ++ SineCosineEncoder.create_encoding (index_field dayofweek idx) "weekday" 7
              ++ SineCosineEncoder.create_encoding (index_field hour idx) "hour" 24 |}
  | FrameData _ => Raise (AttributeError "'DataFrame' object has no attribute 'year'")
  end.

Definition WeatherEncoder_encode_data (data : pydata) (encoder : encoder_obj)
  : result DataFrame :=
  data ← as_frame data;
  wind_direction ← getitem data "wind_direction";
  let sin_cos_coding :=
    {| index := index data;
       columns := SineCosineEncoder.create_encoding wind_direction "wind_direction" 360 |} in
  scaler ← as_scaler encoder;
  array ← StandardScaler_transform scaler data;
  encoding ← DataFrame_of_array array (index data) (column_names data);
  drop_column (concat_columns [sin_cos_coding; encoding]) "wind_direction".

Definition LabelEncoder_encode_data (data : pydata) (encoder : encoder_obj)
  : result DataFrame :=
  data ← as_frame data;
  scaler ← as_scaler encoder;
  encoding ← StandardScaler_transform scaler data;
  DataFrame_of_array encoding (index data) (column_names data).

Definition AutoEncoder_encode_data (self : BaseEncoder) (data : pydata)
    (encoder : encoder_obj) : result DataFrame :=
  data ← as_frame data;
  encoder ← as_layer encoder;
  encoding ← predict encoder data;
  match encoder_filename self with
  | Some f =>
      let name := split_first ".h5" (split_last "/" f) in
      let columns := (fun i : nat => name +:+ "_" +:+ pretty i) <$> seq 0 (length encoding) in
      DataFrame_of_array encoding (index data) columns
  | None => Raise (AttributeError "'NoneType' object has no attribute 'split'")
  end.

(** [self._encode_data(data, encoder)], dispatched on the class. *)
Definition encoder_encode_data (self : BaseEncoder) (data : pydata) (encoder : encoder_obj)
  : result DataFrame :=
  match class_ self with
  | TemporalEncoder => TemporalEncoder_encode_data data
  | WeatherEncoder => WeatherEncoder_encode_data data encoder
  | LabelEncoder => LabelEncoder_encode_data data encoder
  | AutoEncoder | FerienEncoder | FahrtenEncoder => AutoEncoder_encode_data self data encoder
  end.

(** [BaseEncoder.encode] *)
Definition encode (self : BaseEncoder) (data : pydata) (store : gmap string artifact)
  : result DataFrame :=
  encoder ← load_encoder self store;
  encoder_encode_data self data encoder.

(** [BaseEncoder.fit_and_encode] *)
Definition fit_and_encode (self : BaseEncoder) (data : pydata) (store : gmap string artifact)
  : result (DataFrame * gmap string artifact) :=
  '(encoder, store') ← fit_encoder self data store;
  df ← encoder_encode_data self data encoder;
  Ok (df, store').

End Encoders.

(** ** data_provider/data_encoder.py: DataProcessor *)

Definition weather_columns : list string :=
  ["temperature"; "precipitation"; "wind_speed"; "wind_direction"].

Definition ferien_columns : list string :=
  ["BW"; "BY"; "BE"; "BB"; "HB"; "HH"; "HE"; "MV"; "NI"; "NW"; "RP"; "SL"; "SN"; "ST";
   "SH"; "TH"].

Definition fahrten_columns : list string :=
  ["SP1_an"; "SP2_an"; "SP4_an"; "SP1_ab"; "SP2_ab"; "SP4_ab"].

Definition new_order : list string :=
  ["sales"; "datetime"; "weather"; "ferien"; "fahrten"; "labels"].

(** Python dictionaries keep insertion order: association lists with
    unique keys. *)
Definition dict_get {A} (d : list (string * A)) (key : string) : result A :=
  match list_find (fun kv => kv.1 = key) d with
  | Some (_, kv) => Ok kv.2
  | None => Raise (KeyError key)
  end.

Fixpoint dict_set {A} (d : list (string * A)) (key : string) (v : A) : list (string * A) :=
  match d with
  | [] => [(key, v)]
  | kv :: d' => if bool_decide (kv.1 = key) then (key, v) :: d' else kv :: dict_set d' key v
  end.

Record DataProcessor : Type := {
  data : list (string * pydata);
  encoders : list (string * BaseEncoder)
}.

(** [DataProcessor._create_sales_features] *)
Definition _create_sales_features (self : DataProcessor) : result DataProcessor :=
  let future_days := 1%Z in
  labels ← dict_get (data self) "labels";
  match labels with
  | FrameData labels =>
      let sales_feature := add_prefix ("(t-" +:+ pretty future_days +:+ ")") labels in
      let sales_feature := shift_index (Timedelta_days future_days) sales_feature in
      Ok {| data := dict_set (data self) "sales" (FrameData sales_feature);
            encoders := encoders self |}
  | IndexData _ => Raise (AttributeError "'DatetimeIndex' object has no attribute 'add_prefix'")
  end.

(** [DataProcessor.__init__(data)] *)
Definition DataProcessor_init (table : DataFrame) : result DataProcessor :=
  weather ← getitem_columns table weather_columns;
  ferien ← getitem_columns table ferien_columns;
  fahrten ← getitem_columns table fahrten_columns;
  labels ← getitem_columns table (filter (fun col => isnumeric col) (column_names table));
  _create_sales_features
    {| data := [("datetime", IndexData (index table));
                ("weather", FrameData weather);
                ("ferien", FrameData ferien);
                ("fahrten", FrameData fahrten);
                ("labels", FrameData labels)];
       encoders := [("datetime", new_encoder TemporalEncoder);
                    ("weather", new_encoder WeatherEncoder);
                    ("ferien", new_encoder FerienEncoder);
                    ("fahrten", new_encoder FahrtenEncoder);
                    ("labels", new_encoder LabelEncoder);
                    ("sales", new_encoder LabelEncoder)] |}.

Section DataProcessor.

Context {model layer : Type}.
Variable build_autoencoder : nat -> model.
Variable train_model : DataFrame -> model -> option string -> model * model.
Variable get_layer_encoder : model -> layer.
Variable predict : layer -> DataFrame -> result (list Series).

(** [encoder.fit_and_encode(data) if fit_encoder else encoder.encode(data)];
    only fitting changes the artifact store. *)
Definition encode_group (fit_encoder : bool) (encoder : BaseEncoder) (d : pydata)
    (store : gmap string (artifact (model := model)))
  : result (DataFrame * gmap string artifact) :=
  if fit_encoder then
    fit_and_encode build_autoencoder train_model get_layer_encoder predict encoder d store
  else
    df ← encode get_layer_encoder predict encoder d store; Ok (df, store).

(** The loop of [_encode_data]: every group of [self.data], in insertion
    order, goes through its encoder; the artifact store is threaded
    through the fits. *)
Fixpoint encode_items (self : DataProcessor) (fit_encoder : bool)
    (items : list (string * pydata)) (encoded_data : list (string * DataFrame))
    (store : gmap string (artifact (model := model)))
  : result (list (string * DataFrame) * gmap string artifact) :=
  match items with
  | [] => Ok (encoded_data, store)
  | (key, d) :: items' =>
      encoder ← dict_get (encoders self) key;
      '(df, store') ← encode_group fit_encoder encoder d store;
      encode_items self fit_encoder items' (dict_set encoded_data key df) store'
  end.

(** [OrderedDict((key, encoded_data[key]) for key in new_order)] *)
Fixpoint reorder (encoded_data : list (string * DataFrame)) (order : list string)
  : result (list (string * DataFrame)) :=
  match order with
  | [] => Ok []
  | key :: order' =>
      df ← dict_get encoded_data key;
      rest ← reorder encoded_data order';
      Ok ((key, df) :: rest)
  end.

(** [DataProcessor._encode_data(fit_encoder)] *)
Definition _encode_data (self : DataProcessor) (fit_encoder : bool)
    (store : gmap string artifact) : result (DataFrame * gmap string artifact) :=
  '(encoded_data, store') ← encode_items self fit_encoder (data self) [] store;
  encoded_data ← reorder encoded_data new_order;
  Ok (dropna (concat_columns encoded_data.*2), store').

(** [DataProcessor.fit_and_encode()] *)
Definition DataProcessor_fit_and_encode (self : DataProcessor) store :=
  _encode_data self true store.

(** [DataProcessor.encode()] *)
Definition DataProcessor_encode (self : DataProcessor) store :=
  _encode_data self false store.

End DataProcessor.

(** The encoders and groups of a freshly built [DataProcessor]. *)
Definition default_encoders : list (string * BaseEncoder) :=
  [("datetime", new_encoder TemporalEncoder);
   ("weather", new_encoder WeatherEncoder);
   ("ferien", new_encoder FerienEncoder);
   ("fahrten", new_encoder FahrtenEncoder);
   ("labels", new_encoder LabelEncoder);
   ("sales", new_encoder LabelEncoder)].

Definition sales_of_labels (labels : DataFrame) : DataFrame :=
  shift_index (Timedelta_days 1) (add_prefix "(t-1)" labels).

(** A table as pandas builds it: a column holds values on rows of the
    index only. *)
Definition well_formed (df : DataFrame) : Prop :=
  Forall (fun c : string * Series => dom c.2 ⊆ index df) (columns df).

#[global] Instance well_formed_dec df : Decision (well_formed df).
Proof. unfold well_formed. apply _. Defined.

(** ** data_provider/data_provider.py *)

(** The series of the first column called [name]; empty when no column
    has that name. *)
Definition get_series (df : DataFrame) (name : string) : Series :=
  match list_find (fun c : string * Series => c.1 = name) (columns df) with
  | Some (_, c) => c.2
  | None => ∅
  end.

(** The value of column [name] in row [t]; [None] is NaN or no such cell. *)
Definition value (df : DataFrame) (t : Timestamp) (name : string) : option R :=
  get_series df name !! t.

(** The column labels of [new.combine_first(old)]: those of [new] when the
    two frames have the same labels, their sorted union otherwise. *)
Definition union_names (new old : DataFrame) : list string :=
  if bool_decide (column_names new = column_names old) then column_names new
  else merge_sort String.le (remove_dups (column_names new ++ column_names old)).

(** [new.combine_first(old)]: the union of rows and of columns; a cell
    holds the value of [new] where it has one and the value of [old]
    otherwise. *)
Definition combine_first (new old : DataFrame) : DataFrame :=
  {| index := index new ∪ index old;
     columns := (fun name => (name, get_series new name ∪ get_series old name))
                <$> union_names new old |}.

(** [left.join(right, how='outer')] *)
Definition join_outer (left right : DataFrame) : result DataFrame :=
  if bool_decide (Exists (fun name => name ∈ column_names left) (column_names right)) then
    Raise (ValueError "columns overlap but no suffix specified")
  else
    Ok {| index := index left ∪ index right;
          columns := columns left ++ columns right |}.

(** [utils.configs.ProviderConfigs] is not among the sources.  Of its
    fields [DataProvider] reads the four below; dates are kept as the
    timestamp of their midnight and times as seconds after midnight, the
    values [pd.Timestamp] and [between_time] parse from the strings. *)
Record ProviderConfigs : Type := {
  start_date : Z;
  start_time : Z;
  end_date : Z;
  end_time : Z
}.

Record DataProvider : Type := {
  providers : list string;
  data_directory : string;
  configs : ProviderConfigs
}.

(** [DataProvider.__init__(configs, data_directory='data/database')] *)
Definition DataProvider_init (configs : ProviderConfigs) (data_directory : option string)
  : DataProvider :=
  {| providers := ["fahrten"; "weather"; "ferien"; "sales"];
     data_directory := default "data/database" data_directory;
     configs := configs |}.

(** [df.between_time(start_time, end_time)], both ends included; a window
    with [start_time > end_time] runs over midnight. *)
Definition in_time_window (start_time end_time : Z) (t : Timestamp) : bool :=
  let tod := seconds_of_day t in
  if (start_time <=? end_time)%Z then (start_time <=? tod)%Z && (tod <=? end_time)%Z
  else (start_time <=? tod)%Z || (tod <=? end_time)%Z.

(** [DataProvider.filter_time_and_date] *)
Definition filter_time_and_date (self : DataProvider) (df : DataFrame) : DataFrame :=
  let c := configs self in
  let df := restrict_rows
              (filter (fun t => (start_date c + start_time c <= t)%Z
                                /\ (t <= end_date c + end_time c)%Z) (index df)) df in
  restrict_rows (filter (fun t => in_time_window (start_time c) (end_time c) t) (index df)) df.

(** [os.path.join(a, b)] for a relative [b]. *)
Definition path_join (a b : string) : string :=
  if String.eqb a "" then b
  else if String.eqb (String.substring (String.length a - 1) 1 a) "/" then a +:+ b
  else a +:+ "/" +:+ b.

(** [pd.read_csv(path, index_col=0, parse_dates=True)]: the file system
    maps a path to the table its file holds. *)
Definition read_csv (fs : gmap string DataFrame) (path : string) : result DataFrame :=
  match fs !! path with
  | Some df => Ok df
  | None => Raise (FileNotFoundError path)
  end.

(** One turn of the first loop of [load_database]: the baseline of [key],
    with the incremental file laid over it when that file can be read. *)
Definition load_source (self : DataProvider) (fs : gmap string DataFrame) (key : string)
  : result DataFrame :=
  let file_path := path_join (data_directory self) key in
  database ← read_csv fs (file_path +:+ ".csv");
  match read_csv fs ("data/new_data/" +:+ key +:+ ".csv") with
  | Ok new_data => Ok (combine_first new_data database)
  | Raise _ => Ok database
  end.

Fixpoint load_sources (self : DataProvider) (fs : gmap string DataFrame)
    (keys : list string) : result (list DataFrame) :=
  match keys with
  | [] => Ok []
  | key :: keys' =>
      df ← load_source self fs key;
      rest ← load_sources self fs keys';
      Ok (df :: rest)
  end.

(** [for df in data[1:]: result = result.join(df, how='outer')] *)
Fixpoint join_all (joined : DataFrame) (rest : list DataFrame) : result DataFrame :=
  match rest with
  | [] => Ok joined
  | df :: rest' => joined ← join_outer joined df; join_all joined rest'
  end.

(** [DataProvider.load_database] *)
Definition load_database (self : DataProvider) (fs : gmap string DataFrame)
  : result DataFrame :=
  data ← load_sources self fs (providers self);
  match data with
  | [] => Raise (IndexError "list index out of range")
  | first :: rest =>
      joined ← join_all first rest;
      Ok (fillna 0 (filter_time_and_date self joined))
  end.

(** ** Example inputs *)

(** The value of a computation that did not raise. *)
Definition result_value {A} (m : result A) (default : A) : A :=
  match m with
  | Ok a => a
  | Raise _ => default
  end.

(** A column holding [v] on every row of [idx]. *)
Definition constant_column (idx : gset Z) (name : string) (v : R) : string * Series :=
  (name, gset_to_gmap v idx).

(** Two days at midnight, 1970-01-01 and 1970-01-02, with every weather,
    ferien and fahrten column and the item column '10'. *)
Definition example_table : DataFrame :=
  let idx : gset Z := {[ 0%Z; 86400%Z ]} in
  {| index := idx;
     columns :=
       ((fun name => constant_column idx name 1%R)
          <$> weather_columns ++ ferien_columns ++ fahrten_columns)
       ++ [("10", {[ 0%Z := 3%R; 86400%Z := 5%R ]})] |}.

(** The example table without its wind-speed column, and the example
    table with a further column of remarks. *)
Definition example_table_missing : DataFrame :=
  {| index := index example_table;
     columns := filter (fun c : string * Series => c.1 <> "wind_speed")
                  (columns example_table) |}.

Definition example_table_extra : DataFrame :=
  {| index := index example_table;
     columns := columns example_table
                ++ [("remark", ({[ 0%Z := 7%R ]} : Series))] |}.

(** A stand-in for the autoencoder: the model is its bottleneck width,
    training leaves it as built, and the embedding of a table is its first
    columns up to that width. *)
Definition example_build_autoencoder (n : nat) : nat := Nat.min n 2.
Definition example_train_model (d : DataFrame) (m : nat) (f : option string) : nat * nat :=
  (m, m).
Definition example_get_layer (m : nat) : nat := m.
Definition example_predict (width : nat) (d : DataFrame) : result (list Series) :=
  Ok (take width (columns d).*2).

Definition example_processor : DataProcessor :=
  result_value (DataProcessor_init example_table) {| data := []; encoders := [] |}.

Definition example_run : result (DataFrame * gmap string (artifact (model := nat))) :=
  DataProcessor_fit_and_encode example_build_autoencoder example_train_model
    example_get_layer example_predict example_processor ∅.

Definition example_matrix : DataFrame :=
  (result_value example_run ({| index := ∅; columns := [] |}, ∅)).1.

Definition example_store : gmap string (artifact (model := nat)) :=
  (result_value example_run ({| index := ∅; columns := [] |}, ∅)).2.

(** A baseline table per source, and an incremental file for the sales
    only; the window is the whole of 1970-01-01 and 1970-01-02. *)
Definition example_provider : DataProvider :=
  DataProvider_init
    {| start_date := 0; start_time := 0; end_date := 86400; end_time := 86399 |} None.

Definition example_fs : gmap string DataFrame :=
  {[ "data/database/fahrten.csv" :=
       {| index := {[ 0%Z ]}; columns := [("SP1_an", {[ 0%Z := 1%R ]})] |};
     "data/database/weather.csv" :=
       {| index := {[ 0%Z ]}; columns := [("temperature", {[ 0%Z := 2%R ]})] |};
     "data/database/ferien.csv" :=
       {| index := {[ 0%Z ]}; columns := [("BW", ∅)] |};
     "data/database/sales.csv" :=
       {| index := {[ 0%Z; 3600%Z ]};
          columns := [("10", {[ 0%Z := 3%R; 3600%Z := 4%R ]})] |};
     "data/new_data/sales.csv" :=
       {| index := {[ 0%Z; 7200%Z ]};
          columns := [("10", {[ 0%Z := 7%R ]})] |} ]}.

Definition example_merged : DataFrame :=
  result_value (load_database example_provider example_fs) {| index := ∅; columns := [] |}.

(** ** Further example inputs *)

(** An unmasked attention run on all-zero tensors of shape (1, 4, 1, 1),
    keeping the weights. *)
Definition example_attention : FullAttention :=
  FullAttention_init (Some false) None None (Some true).

Definition example_attention_run : result (tensor xreal * option (tensor xreal)) :=
  FullAttention_call example_attention (zeros (1, 4, 1, 1)) (zeros (1, 4, 1, 1))
    (zeros (1, 4, 1, 1)) None None.

Definition example_attention_output : tensor xreal :=
  (result_value example_attention_run (tensor_map Fin (zeros (0, 0, 0, 0)), None)).1.

Definition example_attention_weights : tensor xreal :=
  default (tensor_map Fin (zeros (0, 0, 0, 0)))
    (result_value example_attention_run (tensor_map Fin (zeros (0, 0, 0, 0)), None)).2.

(** A masked run on the same tensors with the mask that
    [TriangularCausalMask(1, 4)] builds. *)
Definition example_causal_mask : TriangularCausalMask :=
  {| _mask := band_part (ones (1, 1, 4, 4)) (-1) 0 |}.

Definition example_masked_attention : FullAttention :=
  FullAttention_init (Some true) None None (Some true).

Definition example_masked_run : result (tensor xreal * option (tensor xreal)) :=
  FullAttention_call example_masked_attention (zeros (1, 4, 1, 1)) (zeros (1, 4, 1, 1))
    (zeros (1, 4, 1, 1)) (Some example_causal_mask) None.

Definition example_masked_output : tensor xreal :=
  (result_value example_masked_run (tensor_map Fin (zeros (0, 0, 0, 0)), None)).1.

Definition example_masked_weights : tensor xreal :=
  default (tensor_map Fin (zeros (0, 0, 0, 0)))
    (result_value example_masked_run (tensor_map Fin (zeros (0, 0, 0, 0)), None)).2.

(** One label column and the ferien columns of the example table, each
    encoded on its own from an empty store. *)
Definition example_labels : DataFrame :=
  {| index := {[ 0%Z; 86400%Z ]};
     columns := [("10", {[ 0%Z := 3%R; 86400%Z := 5%R ]})] |}.

Definition example_label_run : result (DataFrame * gmap string (artifact (model := nat))) :=
  fit_and_encode example_build_autoencoder example_train_model example_get_layer
    example_predict (new_encoder LabelEncoder) (FrameData example_labels) ∅.





(** ** data_fetcher/sub_fetchers/base_fetcher.py *)


(** ** data_provider/sub_providers/sales_provider.py

    The table read from the Excel sheets has the item numbers as column
    labels; [_add_opening_times] adds a column with a string label. *)

Inductive label : Type :=
  | IntLabel (z : Z)
  | StrLabel (s : string).


Record SalesDataProvider : Type := {
  source_directory : string;
  item_intervals : list (Z * Z)
}.

(** [SalesDataProvider.__init__(source_directory='data/raw/sales',
     item_intervals=[(10, 50), (80, 130)])] *)
Definition SalesDataProvider_init (source_directory : option string)
    (item_intervals : option (list (Z * Z))) : SalesDataProvider :=
  {| source_directory := default "data/raw/sales" source_directory;
     item_intervals := default [(10, 50); (80, 130)]%Z item_intervals |}.

(** [SalesDataProvider._filter_range] *)
Definition _filter_range (self : SalesDataProvider) : gset Z :=
  ⋃ ((fun interval : Z * Z =>
        list_to_set
          (filter (fun col => interval.1 <= col <= interval.2)%Z
             (seqZ interval.1 (interval.2 + 1 - interval.1))))
     <$> item_intervals self).

#[global] Instance label_eq_dec : EqDecision label.
Proof. solve_decision. Defined.












(** * Properties *)

(** ** Attention core *)

Lemma TriangularCausalMask_init_device (B L : Z) (dev : string) :
  TriangularCausalMask_init [PyInt B; PyInt L] [("device", PyStr dev)]
  = Raise (TypeError "__init__() got an unexpected keyword argument 'device'").
Proof. reflexivity. Qed.

(** Claim C9.  With [mask_flag] enabled and no mask supplied,
    [FullAttention.call] never reaches the masking: when the score einsum
    accepts the shapes, building the default [TriangularCausalMask] with the
    keyword argument [device], which [__init__(self, B, L)] does not take,
    raises a [TypeError]; when it does not, the einsum error is raised
    before.  In both cases the call ends in an exception. *)
Theorem FullAttention_default_mask_raises
    (scale : option R) (output_attention : bool) (rate : R)
    (queries keys values : tensor R) training :
  let self := {| scale := scale; mask_flag := true;
                 output_attention := output_attention; attention_dropout := rate |} in
  match einsum_blhe_bshe queries keys with
  | Raise e => FullAttention_call self queries keys values None training = Raise e
  | Ok _ =>
      FullAttention_call self queries keys values None training
      = Raise (TypeError "__init__() got an unexpected keyword argument 'device'")
  end.
Proof.
  intros self. unfold FullAttention_call.
  destruct (dims queries) as [[[B L] H] E].
  destruct (dims values) as [[[B' S'] H'] D].
  destruct (einsum_blhe_bshe queries keys) as [e|scores]; reflexivity.
Qed.

(** *** Softmax rows over masked scores *)

Definition masked_or_finite (a : xreal) : Prop := a = NInf \/ exists r, a = Fin r.

Lemma row_max_cases (f : nat -> xreal) (l : list nat) :
  (forall i, i ∈ l -> masked_or_finite (f i)) ->
  let m := foldr (fun i acc => xmax (f i) acc) NInf l in
  (m = NInf /\ forall i, i ∈ l -> f i = NInf) \/ (exists r, m = Fin r).
Proof.
  induction l as [|a l IH]; intros Hrow; simpl.
  - left. split; [reflexivity|]. intros i Hi. inversion Hi.
  - destruct IH as [[Hm Hall]|[r Hm]].
    + intros i Hi. apply Hrow. by right.
    + rewrite Hm. destruct (Hrow a) as [Ha|[r Ha]]; [by left| |]; rewrite Ha.
      * left. split; [reflexivity|]. intros i Hi.
        apply elem_of_cons in Hi as [->|Hi]; [exact Ha|by apply Hall].
      * right. by exists r.
    + rewrite Hm. destruct (Hrow a) as [Ha|[r' Ha]]; [by left| |]; rewrite Ha.
      * right. by exists r.
      * right. by exists (Rmax r' r).
Qed.

Lemma row_sum_nonneg (e : nat -> xreal) (l : list nat) :
  (forall i, i ∈ l -> exists g, e i = Fin g /\ (0 <= g)%R) ->
  exists s, foldr (fun i acc => xadd (e i) acc) (Fin 0) l = Fin s /\ (0 <= s)%R
            /\ forall j g, j ∈ l -> e j = Fin g -> (g <= s)%R.
Proof.
  induction l as [|a l IH]; intros He; simpl.
  - exists 0%R. split; [reflexivity|]. split; [lra|]. intros j g Hj. inversion Hj.
  - destruct IH as (s & Hs & Hs0 & Hle).
    { intros i Hi. apply He. by right. }
    destruct (He a) as (g & Hg & Hg0); [by left|].
    rewrite Hs, Hg. simpl. exists (g + s)%R. split; [reflexivity|]. split; [lra|].
    intros j g' Hj Hj'. apply elem_of_cons in Hj as [->|Hj].
    + rewrite Hg in Hj'. injection Hj' as <-. lra.
    + specialize (Hle j g' Hj Hj'). lra.
Qed.

(** In a row holding only finite scores and [-inf], an entry with a finite
    score gets a positive weight and an entry at [-inf] gets weight [0],
    provided some entry of the row is finite. *)
Lemma softmax_row (f : nat -> xreal) (n j : nat) (r : R) :
  (forall i, i < n -> masked_or_finite (f i)) ->
  j < n -> f j = Fin r ->
  let m := reduce_max n f in
  let e := fun i => xexp (xsub (f i) m) in
  (exists w, xdiv (e j) (xsum n e) = Fin w /\ (0 < w)%R)
  /\ forall i, i < n -> f i = NInf -> xdiv (e i) (xsum n e) = Fin 0.
Proof.
  intros Hrow Hj Hfj m e.
  assert (Hin : forall i, i ∈ seq 0 n -> i < n).
  { intros i Hi. apply elem_of_seq in Hi. lia. }
  destruct (row_max_cases f (seq 0 n)) as [[_ Hall]|[mx Hm]].
  { intros i Hi. apply Hrow, Hin, Hi. }
  { rewrite Hall in Hfj; [discriminate|]. apply elem_of_seq. lia. }
  fold (reduce_max n f) in Hm. fold m in Hm.
  assert (He : forall i, i < n ->
            (f i = NInf /\ e i = Fin 0)
            \/ exists x, f i = Fin x /\ e i = Fin (exp (x + - mx))).
  { intros i Hi. unfold e. rewrite Hm.
    destruct (Hrow i Hi) as [Hi'|[x Hi']]; rewrite Hi'; [left|right]; eauto. }
  destruct (row_sum_nonneg e (seq 0 n)) as (s & Hs & Hs0 & Hle).
  { intros i Hi. destruct (He i (Hin i Hi)) as [[_ Hi']|(x & _ & Hi')]; rewrite Hi'.
    - exists 0%R. split; [reflexivity|lra].
    - eexists. split; [reflexivity|]. left. apply exp_pos. }
  fold (xsum n e) in Hs.
  destruct (He j Hj) as [[Hj' _]|(x & _ & Hej)]; [congruence|].
  assert (Hpos : (0 < s)%R).
  { pose proof (exp_pos (x + - mx)).
    specialize (Hle j _ ltac:(apply elem_of_seq; lia) Hej). lra. }
  split.
  - rewrite Hej, Hs. simpl. destruct (Req_dec_T s 0) as [->|_]; [lra|].
    eexists. split; [reflexivity|]. apply Rdiv_lt_0_compat; [apply exp_pos|exact Hpos].
  - intros i Hi Hfi. destruct (He i Hi) as [[_ Hei]|(y & Hy & _)]; [|congruence].
    rewrite Hei, Hs. simpl. destruct (Req_dec_T s 0) as [->|_]; [lra|].
    f_equal. unfold Rdiv. apply Rmult_0_l.
Qed.

(** A row in which every score is [-inf] has no defined weights. *)
Lemma softmax_row_all_masked (f : nat -> xreal) (n i : nat) :
  (forall k, k < n -> f k = NInf) -> i < n ->
  let m := reduce_max n f in
  let e := fun k => xexp (xsub (f k) m) in
  xdiv (e i) (xsum n e) = NaN.
Proof.
  intros Hall Hi m e.
  assert (Hm : m = NInf).
  { unfold m, reduce_max. clear -Hall.
    assert (H : forall l, (forall k, k ∈ l -> f k = NInf) ->
                foldr (fun i acc => xmax (f i) acc) NInf l = NInf).
    { induction l as [|a l IH]; intros Hl; simpl; [reflexivity|].
      rewrite IH, Hl; [reflexivity|by left|]. intros k Hk. apply Hl. by right. }
    apply H. intros k Hk. apply Hall. apply elem_of_seq in Hk. lia. }
  unfold e at 1. rewrite Hm, (Hall i Hi). reflexivity.
Qed.

(** The weights computed by [FullAttention_call] once the mask is in place:
    row [(b, h, l)] of [A] is the softmax of the scaled masked scores. *)
Lemma FullAttention_call_explicit_mask self queries keys values m scores masked :
  mask_flag self = true ->
  einsum_blhe_bshe queries keys = Ok scores ->
  where_neg_inf (mask m) scores = Ok masked ->
  let A := dropout (attention_dropout self) None
             (softmax (tensor_map (xmul (effective_scale self (dims queries).2)) masked)) in
  FullAttention_call self queries keys values (Some m) None
  = V ← einsum_bhls_bshd A values;
    if output_attention self then Ok (V, Some A) else Ok (V, None).
Proof.
  intros Hflag Hscores Hmasked A. unfold FullAttention_call.
  destruct (dims queries) as [[[B L] H] E] eqn:Hq.
  destruct (dims values) as [[[B' S'] H'] D] eqn:Hv.
  rewrite Hscores, Hflag. simpl. rewrite Hmasked. reflexivity.
Qed.

(** Claim C1, evaluated on the code.  A causal run with [L = 4] (all-zero
    queries, keys and values of shape [(1, 4, 1, 1)]), [mask_flag] enabled
    and no mask supplied stops with a [TypeError] and yields no weights.
    When the mask built by [TriangularCausalMask(1, 4)] is passed in
    explicitly, the weight at the future position [(i, j) = (0, 1)] is
    positive, not zero, and the weights of the last query row are NaN: the
    band kept by [band_part(.., -1, 0)] is the lower triangle, so the past
    and present positions receive [-inf] and the future ones are kept. *)
Theorem FullAttention_causal_L4_future_weight :
  let self := FullAttention_init (Some true) None None (Some true) in
  let q := zeros (1, 4, 1, 1) in
  FullAttention_call self q q q None None
  = Raise (TypeError "__init__() got an unexpected keyword argument 'device'")
  /\ exists m V A,
       TriangularCausalMask_init [PyInt 1; PyInt 4] [] = Ok m
       /\ FullAttention_call self q q q (Some m) None = Ok (V, Some A)
       /\ (exists w, at4 A 0 0 0 1 = Fin w /\ (0 < w)%R)
       /\ at4 A 0 0 3 3 = NaN.
Proof.
  intros self q. split; [reflexivity|].
  eexists _, _, _. split; [reflexivity|].
  split.
  { erewrite FullAttention_call_explicit_mask; [|reflexivity..]. reflexivity. }
  assert (Hscale : (0 < 1 / sqrt (INR 1))%R).
  { simpl. rewrite sqrt_1. lra. }
  split.
  - cbn [at4 dropout softmax tensor_map dims].
    match goal with |- context [reduce_max _ ?g] => set (f := g) end.
    destruct (softmax_row f 4 1 (1 / sqrt (INR 1) * Rsum 1 (fun _ => 0 * 0))%R)
      as [Hw _]; [| lia | reflexivity | exact Hw].
    intros i Hi. unfold f.
    destruct i as [|[|[|[|i]]]]; [left|right|right|right|lia];
      cbn; try (eexists; reflexivity).
    unfold Rtimes_inf. destruct (Rlt_dec 0 (1 / sqrt 1)) as [_|Hn]; [reflexivity|].
    rewrite sqrt_1 in Hn. lra.
  - cbn [at4 dropout softmax tensor_map dims].
    match goal with |- context [reduce_max _ ?g] => set (f := g) end.
    apply (softmax_row_all_masked f 4 3); [|lia].
    intros k Hk. unfold f.
    destruct k as [|[|[|[|k]]]]; [| | | |lia]; cbn;
      unfold Rtimes_inf; destruct (Rlt_dec 0 (1 / sqrt 1)) as [_|Hn];
      try reflexivity; rewrite sqrt_1 in Hn; lra.
Qed.

(** ** Cyclic encoding *)

Lemma sine_encoding_half (v : R) (p : Z) :
  SineCosineEncoder.sine_encoding v p = (sin (SineCosineEncoder.radians v p) / 2)%R.
Proof. unfold SineCosineEncoder.sine_encoding. lra. Qed.

Lemma cosine_encoding_half (v : R) (p : Z) :
  SineCosineEncoder.cosine_encoding v p = (cos (SineCosineEncoder.radians v p) / 2)%R.
Proof. unfold SineCosineEncoder.cosine_encoding. lra. Qed.

(** Claim C8.  For an integer value [v] and a positive period [p], the two
    columns made by [SineCosineEncoder.create_encoding] hold, in the row of
    [v], sine = 0.5 * (sin(2 pi v / p) + 1) - 0.5 and the same with cos;
    both lie in [-0.5, 0.5], their squares add up to 0.25, and for value 0
    and period 12 they are 0 and 0.5. *)
Theorem SineCosineEncoder_create_encoding_spec
    (data : gmap Z R) (name : string) (t v p : Z) :
  (0 < p)%Z ->
  data !! t = Some (IZR v) ->
  let sine := (0.5 * (sin (2 * PI * IZR v / IZR p) + 1) - 0.5)%R in
  let cosine := (0.5 * (cos (2 * PI * IZR v / IZR p) + 1) - 0.5)%R in
  (exists S C,
      SineCosineEncoder.create_encoding data name p
      = [(name +:+ "_sine_encoding", S); (name +:+ "_cosine_encoding", C)]
      /\ S !! t = Some sine /\ C !! t = Some cosine)
  /\ (-0.5 <= sine <= 0.5)%R
  /\ (-0.5 <= cosine <= 0.5)%R
  /\ (sine * sine + cosine * cosine = 0.25)%R
  /\ SineCosineEncoder.sine_encoding (IZR 0) 12 = 0%R
  /\ SineCosineEncoder.cosine_encoding (IZR 0) 12 = 0.5%R.
Proof.
  intros Hp Hv sine cosine.
  assert (Hrad : (2 * PI * IZR v / IZR p)%R = SineCosineEncoder.radians (IZR v) p).
  { unfold SineCosineEncoder.radians. field. apply not_0_IZR. lia. }
  split; [|split; [|split; [|split; [|split]]]].
  - eexists _, _. split; [reflexivity|].
    rewrite !lookup_fmap, Hv. simpl.
    unfold sine, cosine, SineCosineEncoder.sine_encoding, SineCosineEncoder.cosine_encoding.
    rewrite Hrad. split; reflexivity.
  - unfold sine. pose proof (SIN_bound (2 * PI * IZR v / IZR p)). lra.
  - unfold cosine. pose proof (COS_bound (2 * PI * IZR v / IZR p)). lra.
  - unfold sine, cosine. pose proof (sin2_cos2 (2 * PI * IZR v / IZR p)) as H.
    unfold Rsqr in H. lra.
  - rewrite sine_encoding_half. unfold SineCosineEncoder.radians.
    replace (0 / 12 * 2 * PI)%R with 0%R by lra. rewrite sin_0. lra.
  - rewrite cosine_encoding_half. unfold SineCosineEncoder.radians.
    replace (0 / 12 * 2 * PI)%R with 0%R by lra. rewrite cos_0. lra.
Qed.

Lemma SineCosineEncoder_create_encoding_spec_witness :
  (-0.5 <= 0.5 * (sin (2 * PI * IZR 3 / IZR 12) + 1) - 0.5 <= 0.5)%R.
Proof.
  apply (SineCosineEncoder_create_encoding_spec {[ 0%Z := IZR 3 ]} "month" 0 3 12).
  - lia.
  - reflexivity.
Defined.

(** ** Column selection *)

Lemma filter_name_nil (cols : list (string * gmap Z R)) (name : string) :
  filter (fun c => c.1 = name) cols = [] <-> name ∉ cols.*1.
Proof.
  induction cols as [|c cols IH]; simpl.
  - split; [intros _ H; inversion H|reflexivity].
  - rewrite filter_cons. destruct (decide (c.1 = name)) as [Heq|Hne].
    + split; [discriminate|]. intros H. exfalso. apply H. rewrite <- Heq. left.
    + rewrite IH, not_elem_of_cons. split; [intros ?; split; [congruence|done]|by intros [_ ?]].
Qed.

Lemma getitem_list_raises df names e :
  getitem_list df names = Raise e -> exists msg, e = KeyError msg.
Proof.
  induction names as [|name names IH]; simpl; [discriminate|].
  destruct (filter _ (columns df)) as [|c cs]; [intros [= <-]; eauto|].
  destruct (getitem_list df names) as [e'|rest]; simpl; [|discriminate].
  intros [= <-]. by apply IH.
Qed.

Lemma getitem_list_ok df names cols :
  getitem_list df names = Ok cols -> forall name, name ∈ names -> name ∈ column_names df.
Proof.
  revert cols. induction names as [|name names IH]; intros cols; simpl.
  - intros _ n Hn. inversion Hn.
  - destruct (filter _ (columns df)) as [|c cs] eqn:Hf; [discriminate|].
    destruct (getitem_list df names) as [e'|rest]; simpl; [discriminate|].
    intros _ n Hn. apply elem_of_cons in Hn as [->|Hn]; [|by eapply IH].
    destruct (decide (name ∈ column_names df)) as [|Hnot]; [done|].
    apply filter_name_nil in Hnot. unfold column_names in *. congruence.
Qed.

Lemma getitem_columns_raises df names e :
  getitem_columns df names = Raise e -> exists msg, e = KeyError msg.
Proof.
  unfold getitem_columns. destruct (getitem_list df names) eqn:H; simpl; [|discriminate].
  intros [= <-]. by eapply getitem_list_raises.
Qed.

Lemma getitem_columns_ok df names sub :
  getitem_columns df names = Ok sub ->
  index sub = index df
  /\ getitem_list df names = Ok (columns sub)
  /\ forall name, name ∈ names -> name ∈ column_names df.
Proof.
  unfold getitem_columns. destruct (getitem_list df names) eqn:H; simpl; [discriminate|].
  intros [= <-]. simpl. split; [done|]. split; [done|]. by eapply getitem_list_ok.
Qed.

(** A column that none of the requested names selects does not matter. *)
Lemma getitem_list_extra idx idx' (l1 l2 : list (string * gmap Z R)) extra names :
  extra.1 ∉ names ->
  getitem_list {| index := idx; columns := l1 ++ extra :: l2 |} names
  = getitem_list {| index := idx'; columns := l1 ++ l2 |} names.
Proof.
  intros Hnot. induction names as [|name names IH]; simpl; [done|].
  apply not_elem_of_cons in Hnot as [Hne Hnot].
  rewrite !filter_app, filter_cons. destruct (decide (extra.1 = name)); [done|].
  rewrite (IH Hnot). done.
Qed.

Lemma isnumeric_filter_extra (l1 l2 : list (string * gmap Z R)) extra :
  isnumeric extra.1 = false ->
  filter (fun col => isnumeric col) (l1 ++ extra :: l2).*1
  = filter (fun col => isnumeric col) (l1 ++ l2).*1.
Proof.
  intros Hn. rewrite !fmap_app, fmap_cons, !filter_app, filter_cons.
  destruct (decide (isnumeric extra.1)) as [H|H]; [|done].
  rewrite Hn in H. done.
Qed.

Lemma getitem_list_present df names :
  (forall name, name ∈ names -> name ∈ column_names df) ->
  exists cols, getitem_list df names = Ok cols.
Proof.
  induction names as [|name names IH]; intros Hall; cbn; [by eexists|].
  destruct (filter _ (columns df)) as [|c cs] eqn:Hf.
  { apply filter_name_nil in Hf. exfalso. apply Hf, Hall. left. }
  destruct IH as [rest ->]; [intros n Hn; apply Hall; by right|].
  by eexists.
Qed.

(** Claim C10.  A table lacking one of the weather, ferien or fahrten
    columns cannot be given to [DataProcessor]: construction stops with a
    [KeyError]; a table that has them all is accepted.  A further column
    that is none of these and has no numeric name is left out of every
    group without notice, whatever the table is: construction gives what
    it gives without the column, the same processor or the same error. *)
Theorem DataProcessor_init_missing_column (table : DataFrame) :
  (forall name,
     name ∈ weather_columns ++ ferien_columns ++ fahrten_columns ->
     name ∉ column_names table ->
     exists msg, DataProcessor_init table = Raise (KeyError msg))
  /\ ((forall name,
         name ∈ weather_columns ++ ferien_columns ++ fahrten_columns ->
         name ∈ column_names table) ->
      exists dp, DataProcessor_init table = Ok dp)
  /\ forall l1 l2 extra,
       columns table = l1 ++ l2 ->
       extra.1 ∉ weather_columns ++ ferien_columns ++ fahrten_columns ->
       isnumeric extra.1 = false ->
       DataProcessor_init {| index := index table; columns := l1 ++ extra :: l2 |}
       = DataProcessor_init table.
Proof.
  split; [|split].
  - intros name Hreq Hmissing. unfold DataProcessor_init.
    destruct (getitem_columns table weather_columns) as [e|weather] eqn:Hw; simpl.
    { apply getitem_columns_raises in Hw as [msg ->]. eauto. }
    destruct (getitem_columns table ferien_columns) as [e|ferien] eqn:Hfe; simpl.
    { apply getitem_columns_raises in Hfe as [msg ->]. eauto. }
    destruct (getitem_columns table fahrten_columns) as [e|fahrten] eqn:Hfa; simpl.
    { apply getitem_columns_raises in Hfa as [msg ->]. eauto. }
    apply getitem_columns_ok in Hw as (_ & _ & Hw).
    apply getitem_columns_ok in Hfe as (_ & _ & Hfe).
    apply getitem_columns_ok in Hfa as (_ & _ & Hfa).
    exfalso. apply Hmissing.
    apply elem_of_app in Hreq as [?|Hreq]; [by apply Hw|].
    apply elem_of_app in Hreq as [?|?]; [by apply Hfe|by apply Hfa].
  - intros Hall. unfold DataProcessor_init, getitem_columns.
    destruct (getitem_list_present table weather_columns) as [weather ->].
    { intros name Hname. apply Hall. apply elem_of_app. by left. }
    destruct (getitem_list_present table ferien_columns) as [ferien ->].
    { intros name Hname. apply Hall. rewrite !elem_of_app. right. by left. }
    destruct (getitem_list_present table fahrten_columns) as [fahrten ->].
    { intros name Hname. apply Hall. rewrite !elem_of_app. right. by right. }
    destruct (getitem_list_present table
                (filter (fun col => isnumeric col) (column_names table))) as [labels ->].
    { intros name Hname. by apply list_elem_of_filter in Hname as [_ ?]. }
    by eexists.
  - intros l1 l2 extra Hcols Hnot Hnum.
    rewrite !not_elem_of_app in Hnot. destruct Hnot as (Hw & Hfe & Hfa).
    destruct table as [idx cols]. simpl in Hcols. subst cols.
    unfold DataProcessor_init, getitem_columns, column_names. cbn [columns index].
    rewrite (isnumeric_filter_extra l1 l2 extra Hnum).
    rewrite (getitem_list_extra idx idx l1 l2 extra weather_columns Hw).
    rewrite (getitem_list_extra idx idx l1 l2 extra ferien_columns Hfe).
    rewrite (getitem_list_extra idx idx l1 l2 extra fahrten_columns Hfa).
    rewrite (getitem_list_extra idx idx l1 l2 extra
               (filter (fun col => isnumeric col) (l1 ++ l2).*1)); [reflexivity|].
    intros Hin. apply list_elem_of_filter in Hin as [Hin _].
    rewrite Hnum in Hin. done.
Qed.

(** ** The groups of a [DataProcessor] *)

Lemma DataProcessor_init_ok (table : DataFrame) (dp : DataProcessor) :
  DataProcessor_init table = Ok dp ->
  exists weather ferien fahrten labels,
    getitem_columns table weather_columns = Ok weather
    /\ getitem_columns table ferien_columns = Ok ferien
    /\ getitem_columns table fahrten_columns = Ok fahrten
    /\ getitem_columns table (filter (fun col => isnumeric col) (column_names table))
       = Ok labels
    /\ dp = {| data := [("datetime", IndexData (index table));
                        ("weather", FrameData weather);
                        ("ferien", FrameData ferien);
                        ("fahrten", FrameData fahrten);
                        ("labels", FrameData labels);
                        ("sales", FrameData (sales_of_labels labels))];
               encoders := default_encoders |}.
Proof.
  unfold DataProcessor_init.
  destruct (getitem_columns table weather_columns) as [e|weather]; [discriminate|].
  destruct (getitem_columns table ferien_columns) as [e|ferien]; [discriminate|].
  destruct (getitem_columns table fahrten_columns) as [e|fahrten]; [discriminate|].
  destruct (getitem_columns table _) as [e|labels]; [discriminate|].
  intros [= <-]. by exists weather, ferien, fahrten, labels.
Qed.

Section PipelineProperties.

Context {model layer : Type}.
Variable build_autoencoder : nat -> model.
Variable train_model : DataFrame -> model -> option string -> model * model.
Variable get_layer_encoder : model -> layer.
Variable predict : layer -> DataFrame -> result (list (gmap Z R)).

Abbreviation store_t := (gmap string (artifact (model := model))) (only parsing).
Abbreviation encode_group' :=
  (encode_group build_autoencoder train_model get_layer_encoder predict) (only parsing).
Abbreviation encode_items' :=
  (encode_items build_autoencoder train_model get_layer_encoder predict) (only parsing).
Abbreviation _encode_data' :=
  (_encode_data build_autoencoder train_model get_layer_encoder predict) (only parsing).
Abbreviation DataProcessor_encode' :=
  (DataProcessor_encode build_autoencoder train_model get_layer_encoder predict)
  (only parsing).
Abbreviation DataProcessor_fit_and_encode' :=
  (DataProcessor_fit_and_encode build_autoencoder train_model get_layer_encoder predict)
  (only parsing).

(** ** Loading before fitting *)

Lemma load_encoder_missing (self : BaseEncoder) (store : store_t) (f : string) :
  truthy_filename self = Some f ->
  store !! f = None ->
  load_encoder get_layer_encoder self store = Raise (Exception not_fitted_message).
Proof.
  intros Hf Hnone. unfold load_encoder. rewrite Hf.
  unfold joblib_load, load_model. rewrite Hnone.
  destruct (is_autoencoder (class_ self)); reflexivity.
Qed.

Lemma encode_items_raises (dp : DataProcessor) (store : store_t) key d self items acc :
  (key, d) ∈ items ->
  dict_get (encoders dp) key = Ok self ->
  (exists e, encode get_layer_encoder predict self d store = Raise e) ->
  exists e, encode_items' dp false items acc store = Raise e.
Proof.
  intros Hin Hget [e He]. revert acc.
  induction items as [|[k' d'] items IH]; intros acc; [inversion Hin|].
  simpl. apply elem_of_cons in Hin as [[= <- <-]|Hin].
  - rewrite Hget. simpl. unfold encode_group. rewrite He. simpl. eauto.
  - destruct (dict_get (encoders dp) k') as [e'|enc']; simpl; [eauto|].
    unfold encode_group.
    destruct (encode _ _ enc' d' store) as [e'|df]; simpl; [eauto|].
    by apply IH.
Qed.

(** Claim C7.  For an encoder with a persisted state (a non-empty file
    name) whose artifact is not in the store, [load_encoder] raises the
    exception whose message tells the caller to fit first; [encode] raises
    the same exception; a [DataProcessor] holding this encoder for one of
    its groups does not catch it, [DataProcessor.encode] ends in an
    exception; and on an empty store [DataProcessor.encode] of a freshly
    built processor ends in exactly this exception. *)
Theorem load_encoder_not_fitted (self : BaseEncoder) (store : store_t) (f : string) :
  truthy_filename self = Some f ->
  store !! f = None ->
  load_encoder get_layer_encoder self store = Raise (Exception not_fitted_message)
  /\ (forall data,
        encode get_layer_encoder predict self data store
        = Raise (Exception not_fitted_message))
  /\ (forall dp key d,
        (key, d) ∈ data dp ->
        dict_get (encoders dp) key = Ok self ->
        exists e, DataProcessor_encode' dp store = Raise e)
  /\ (forall table dp,
        DataProcessor_init table = Ok dp ->
        DataProcessor_encode' dp ∅ = Raise (Exception not_fitted_message)).
Proof.
  intros Hf Hnone.
  pose proof (load_encoder_missing self store f Hf Hnone) as Hload.
  assert (Henc : forall data, encode get_layer_encoder predict self data store
                              = Raise (Exception not_fitted_message)).
  { intros data. unfold encode. rewrite Hload. reflexivity. }
  split; [exact Hload|]. split; [exact Henc|]. split.
  - intros dp key d Hin Hget.
    unfold DataProcessor_encode, _encode_data.
    destruct (encode_items_raises dp store key d self (data dp) [] Hin Hget) as [e He].
    { eexists. apply Henc. }
    rewrite He. simpl. eauto.
  - intros table dp Hinit.
    apply DataProcessor_init_ok in Hinit
      as (weather & ferien & fahrten & labels & _ & _ & _ & _ & ->).
    reflexivity.
Qed.

(** ** One run of the pipeline, group by group *)

Lemma bind_ok_inv {A B} (m : result A) (k : A -> result B) (b : B) :
  m ≫= k = Ok b -> exists a, m = Ok a /\ k a = Ok b.
Proof. destruct m as [e|a]; [discriminate|]. intros H. by exists a. Qed.

Ltac group_step H d s Hd :=
  let enc := fresh "enc" in
  let Henc := fresh "Henc" in
  apply bind_ok_inv in H as (enc & Henc & H);
  injection Henc as <-;
  apply bind_ok_inv in H as ([d s] & Hd & H);
  cbn [encode_items encoders] in H.

Lemma encode_data_inv (table : DataFrame) (dp : DataProcessor) (fit : bool)
    (store store' : store_t) (M : DataFrame) :
  DataProcessor_init table = Ok dp ->
  _encode_data' dp fit store = Ok (M, store') ->
  exists weather ferien fahrten labels d_dt d_w d_fe d_fa d_l d_s s1 s2 s3 s4 s5,
    getitem_columns table weather_columns = Ok weather
    /\ getitem_columns table ferien_columns = Ok ferien
    /\ getitem_columns table fahrten_columns = Ok fahrten
    /\ getitem_columns table (filter (fun col => isnumeric col) (column_names table))
       = Ok labels
    /\ encode_group' fit (new_encoder TemporalEncoder) (IndexData (index table)) store
       = Ok (d_dt, s1)
    /\ encode_group' fit (new_encoder WeatherEncoder) (FrameData weather) s1 = Ok (d_w, s2)
    /\ encode_group' fit (new_encoder FerienEncoder) (FrameData ferien) s2 = Ok (d_fe, s3)
    /\ encode_group' fit (new_encoder FahrtenEncoder) (FrameData fahrten) s3 = Ok (d_fa, s4)
    /\ encode_group' fit (new_encoder LabelEncoder) (FrameData labels) s4 = Ok (d_l, s5)
    /\ encode_group' fit (new_encoder LabelEncoder) (FrameData (sales_of_labels labels)) s5
       = Ok (d_s, store')
    /\ encode_items' dp fit (data dp) [] store
       = Ok ([("datetime", d_dt); ("weather", d_w); ("ferien", d_fe); ("fahrten", d_fa);
              ("labels", d_l); ("sales", d_s)], store')
    /\ M = dropna (concat_columns [d_s; d_dt; d_w; d_fe; d_fa; d_l]).
Proof.
  intros Hinit Hrun.
  apply DataProcessor_init_ok in Hinit
    as (weather & ferien & fahrten & labels & Hw & Hfe & Hfa & Hl & ->).
  exists weather, ferien, fahrten, labels.
  unfold _encode_data in Hrun. cbn [data] in *.
  apply bind_ok_inv in Hrun as ([encoded st] & Hitems & Hrun).
  pose proof Hitems as Hall.
  cbn [encode_items encoders] in Hitems.
  group_step Hitems d_dt s1 Hdt.
  group_step Hitems d_w s2 Hdw.
  group_step Hitems d_fe s3 Hdfe.
  group_step Hitems d_fa s4 Hdfa.
  group_step Hitems d_l s5 Hdl.
  group_step Hitems d_s s6 Hds.
  injection Hitems as <- <-.
  apply bind_ok_inv in Hrun as (ordered & Hord & Hrun).
  injection Hord as <-. injection Hrun as <- <-.
  exists d_dt, d_w, d_fe, d_fa, d_l, d_s, s1, s2, s3, s4, s5.
  repeat split; done.
Qed.

(** ** Fitting and loading, group by group *)

Abbreviation encoder_encode_data' :=
  (encoder_encode_data (layer := layer) predict) (only parsing).

Lemma fit_scaler_inv (cls : encoder_class) (f : string) (df d : DataFrame)
    (s s' : store_t) :
  is_autoencoder cls = false ->
  truthy_filename (new_encoder cls) = Some f ->
  encode_group' true (new_encoder cls) (FrameData df) s = Ok (d, s') ->
  exists sc,
    StandardScaler_fit df = Ok sc
    /\ s' = <[f := ScalerFile sc]> s
    /\ encoder_encode_data' (new_encoder cls) (FrameData df) (Scaler sc) = Ok d.
Proof.
  intros Hauto Hf H. unfold encode_group, fit_and_encode in H.
  apply bind_ok_inv in H as ([enc st] & Hfit & H).
  apply bind_ok_inv in H as (d' & Hd & H). injection H as <- <-.
  unfold fit_encoder in Hfit. rewrite Hf in Hfit.
  cbn [class_ new_encoder] in Hfit. rewrite Hauto in Hfit.
  apply bind_ok_inv in Hfit as (sc & Hsc & Hfit). injection Hfit as <- <-.
  by exists sc.
Qed.

Lemma load_scaler_inv (cls : encoder_class) (f : string) (df d : DataFrame)
    (s s' : store_t) :
  is_autoencoder cls = false ->
  truthy_filename (new_encoder cls) = Some f ->
  encode_group' false (new_encoder cls) (FrameData df) s = Ok (d, s') ->
  s' = s
  /\ exists sc,
       s !! f = Some (ScalerFile sc)
       /\ encoder_encode_data' (new_encoder cls) (FrameData df) (Scaler sc) = Ok d.
Proof.
  intros Hauto Hf H. unfold encode_group, encode in H.
  apply bind_ok_inv in H as (d' & Hd & H). injection H as <- <-.
  apply bind_ok_inv in Hd as (enc & Hload & Hd).
  unfold load_encoder in Hload. rewrite Hf in Hload.
  cbn [class_ new_encoder] in Hload. rewrite Hauto in Hload.
  unfold joblib_load in Hload.
  destruct (s !! f) as [[sc|m]|]; try discriminate.
  injection Hload as <-. split; [done|]. by exists sc.
Qed.

Lemma temporal_inv (fit : bool) (idx : gset Z) (d : DataFrame) (s s' : store_t) :
  encode_group' fit (new_encoder TemporalEncoder) (IndexData idx) s = Ok (d, s') ->
  s' = s /\ TemporalEncoder_encode_data (IndexData idx) = Ok d.
Proof.
  destruct fit; intros [= <- <-]; done.
Qed.

(** Fitting an autoencoder writes its own file only. *)
Lemma fit_autoencoder_inv (cls : encoder_class) (df d : DataFrame) (s s' : store_t) f :
  is_autoencoder cls = true ->
  default_filename cls = Some f ->
  encode_group' true (new_encoder cls) (FrameData df) s = Ok (d, s') ->
  exists saved, s' = <[f := ModelFile saved]> s.
Proof.
  intros Hauto Hf H. unfold encode_group, fit_and_encode in H.
  apply bind_ok_inv in H as ([enc st] & Hfit & H).
  apply bind_ok_inv in H as (d' & Hd & H). injection H as <- <-.
  unfold fit_encoder, new_encoder in Hfit.
  cbn [class_ encoder_filename] in Hfit. rewrite Hauto, Hf in Hfit.
  destruct (train_model df _ _) as [trained saved].
  injection Hfit as <- <-. by exists saved.
Qed.

Lemma load_group_store (enc : BaseEncoder) (d : pydata) (df : DataFrame) (s s' : store_t) :
  encode_group' false enc d s = Ok (df, s') -> s' = s.
Proof.
  unfold encode_group. intros H.
  apply bind_ok_inv in H as (d' & _ & H). by injection H as <- <-.
Qed.

(** ** The shared label artifact *)


(** ** Alignment and the missing-value filter *)

Lemma elem_of_index_dropna (df : DataFrame) (t : Z) :
  t ∈ index (dropna df) <-> t ∈ index df /\ complete_at df t.
Proof. unfold dropna, restrict_rows. cbn. rewrite elem_of_filter. tauto. Qed.

Lemma complete_at_concat (frames : list DataFrame) (t : Z) :
  complete_at (concat_columns frames) t <-> forall df, df ∈ frames -> complete_at df t.
Proof.
  unfold complete_at, concat_columns. cbn.
  induction frames as [|df frames IH]; cbn.
  - split; [intros _ df H; inversion H|constructor].
  - rewrite Forall_app, IH. split.
    + intros [H1 H2] df' Hin. apply elem_of_cons in Hin as [->|Hin]; [done|by apply H2].
    + intros H. split; [apply H; left|]. intros df' Hin. apply H. by right.
Qed.

Lemma elem_of_index_concat (frames : list DataFrame) (t : Z) :
  t ∈ index (concat_columns frames) <-> exists df, df ∈ frames /\ t ∈ index df.
Proof.
  unfold concat_columns. cbn. rewrite elem_of_union_list. split.
  - intros (X & HX & Ht). apply list_elem_of_fmap in HX as (df & -> & Hdf). eauto.
  - intros (df & Hdf & Ht). exists (index df). split; [|done].
    apply list_elem_of_fmap. eauto.
Qed.

Lemma lookup_index_field (f : Z -> Z) (idx : gset Z) (t : Z) :
  index_field f idx !! t = if decide (t ∈ idx) then Some (IZR (f t)) else None.
Proof.
  unfold index_field. destruct (decide (t ∈ idx)) as [Hin|Hnot].
  - apply lookup_set_to_map; [by intros y y' _ _ [= ->]|]. eauto.
  - apply eq_None_not_Some. intros [y Hy].
    apply lookup_set_to_map in Hy as (x & Hx & [= -> _]); [done|].
    by intros y1 y2 _ _ [= ->].
Qed.

(** The datetime group has a value in every column exactly on the rows of
    the index. *)
Lemma temporal_complete (idx : gset Z) (d : DataFrame) (t : Z) :
  TemporalEncoder_encode_data (IndexData idx) = Ok d ->
  index d = idx /\ (complete_at d t <-> t ∈ idx).
Proof.
  intros [= <-]. split; [done|]. unfold complete_at. cbn [columns].
  rewrite !Forall_app. unfold SineCosineEncoder.create_encoding.
  rewrite !Forall_cons, Forall_nil. cbn [snd].
  rewrite !lookup_fmap, !lookup_index_field.
  unfold get_dummies_year. rewrite Forall_fmap.
  destruct (decide (t ∈ idx)) as [Hin|Hnot]; cbn [fmap option_fmap option_map].
  - split; [done|]. intros _. repeat split; eauto.
    apply Forall_forall. intros y _. cbn [compose snd].
    eexists. apply lookup_set_to_map; [by intros y1 y2 _ _ [= ->]|]. eauto.
  - split; [|done]. intros [_ [H _]]. by apply is_Some_None in H.
Qed.

Ltac in_list := solve [repeat first [apply list_elem_of_here | apply list_elem_of_further]].

(** Claim C5.  In the matrix returned by [fit_and_encode] or [encode], a
    timestamp labels a row if and only if each of the six encoded groups
    (sales, datetime, weather, ferien, fahrten, labels) has a value in
    every one of its columns at that timestamp. *)
Theorem row_survival (table : DataFrame) (dp : DataProcessor) (fit : bool)
    (store store' : store_t) (M : DataFrame) :
  DataProcessor_init table = Ok dp ->
  _encode_data' dp fit store = Ok (M, store') ->
  exists encoded_data,
    encode_items' dp fit (data dp) [] store = Ok (encoded_data, store')
    /\ (forall key, key ∈ new_order -> exists df, dict_get encoded_data key = Ok df)
    /\ forall t : Z,
         t ∈ index M
         <-> forall key df,
               key ∈ new_order -> dict_get encoded_data key = Ok df -> complete_at df t.
Proof.
  intros Hinit Hrun.
  destruct (encode_data_inv _ _ _ _ _ _ Hinit Hrun)
    as (weather & ferien & fahrten & labels & d_dt & d_w & d_fe & d_fa & d_l & d_s
        & s1 & s2 & s3 & s4 & s5 & _ & _ & _ & _ & Hdt & _ & _ & _ & _ & _ & Hitems & ->).
  apply temporal_inv in Hdt as [_ Hdt].
  eexists. split; [exact Hitems|].
  assert (Hget : forall key df,
            key ∈ new_order ->
            dict_get [("datetime", d_dt); ("weather", d_w); ("ferien", d_fe);
                      ("fahrten", d_fa); ("labels", d_l); ("sales", d_s)] key = Ok df ->
            df ∈ [d_s; d_dt; d_w; d_fe; d_fa; d_l]).
  { intros key df Hkey. unfold new_order in Hkey.
    repeat (apply elem_of_cons in Hkey as [->|Hkey]); [..|inversion Hkey];
      intros [= <-]; in_list. }
  split.
  - intros key Hkey. unfold new_order in Hkey.
    repeat (apply elem_of_cons in Hkey as [->|Hkey]); [..|inversion Hkey];
      eexists; reflexivity.
  - intros t. rewrite elem_of_index_dropna, complete_at_concat, elem_of_index_concat.
    split.
    + intros [_ Hall] key df Hkey Hdf. apply Hall. by eapply Hget.
    + intros Hall.
      assert (Hframes : forall df, df ∈ [d_s; d_dt; d_w; d_fe; d_fa; d_l] ->
                                   complete_at df t).
      { intros df Hin.
        repeat (apply elem_of_cons in Hin as [->|Hin]); [..|inversion Hin].
        - apply (Hall "sales"); [in_list|reflexivity].
        - apply (Hall "datetime"); [in_list|reflexivity].
        - apply (Hall "weather"); [in_list|reflexivity].
        - apply (Hall "ferien"); [in_list|reflexivity].
        - apply (Hall "fahrten"); [in_list|reflexivity].
        - apply (Hall "labels"); [in_list|reflexivity]. }
      split; [|exact Hframes].
      exists d_dt. split; [in_list|].
      destruct (temporal_complete _ _ t Hdt) as [-> Hc]. apply Hc, Hframes. in_list.
Qed.

(** ** The sales-history group *)

#[local] Instance shift_inj (delta : Z) : Inj (=) (=) (fun t : Z => (t + delta)%Z).
Proof. intros x y H. lia. Qed.

Lemma lookup_shift_series (delta : Z) (s : gmap Z R) (t : Z) :
  shift_series delta s !! t = s !! (t - delta)%Z.
Proof.
  unfold shift_series.
  replace t with ((t - delta) + delta)%Z at 1 by lia.
  apply (lookup_kmap (fun t => t + delta)%Z).
Qed.

Lemma elem_of_shift_index (delta : Z) (df : DataFrame) (t : Z) :
  t ∈ index (shift_index delta df) <-> (t - delta)%Z ∈ index df.
Proof.
  unfold shift_index. cbn [index]. rewrite elem_of_map. split.
  - intros (x & -> & Hx). by replace (x + delta - delta)%Z with x by lia.
  - intros H. exists (t - delta)%Z. split; [lia|done].
Qed.

Lemma cell_sales_of_labels (labels : DataFrame) (t : Z) (i : nat) :
  cell (sales_of_labels labels) t i = cell labels (t - Timedelta_days 1) i.
Proof.
  unfold cell, sales_of_labels, shift_index, add_prefix, map_series. cbn [columns].
  rewrite !list_lookup_fmap.
  destruct (columns labels !! i) as [c|]; [|done]. cbn.
  apply lookup_shift_series.
Qed.

Lemma getitem_list_subset df names cols :
  getitem_list df names = Ok cols -> cols ⊆ columns df.
Proof.
  revert cols. induction names as [|name names IH]; intros cols; cbn.
  - intros [= <-]. apply list_subseteq_nil.
  - destruct (filter _ (columns df)) as [|c cs] eqn:Hf; [discriminate|].
    intros H. apply bind_ok_inv in H as (rest & Hrest & [= <-]).
    intros x Hx. change (x ∈ (c :: cs) ++ rest) in Hx.
    apply elem_of_app in Hx as [Hx|Hx]; [|by eapply IH].
    rewrite <- Hf in Hx. by apply list_elem_of_filter in Hx as [_ ?].
Qed.

Lemma getitem_columns_well_formed df names sub :
  well_formed df -> getitem_columns df names = Ok sub -> well_formed sub.
Proof.
  unfold well_formed, getitem_columns. intros Hwf H.
  apply bind_ok_inv in H as (cols & Hcols & [= <-]). cbn [columns index].
  rewrite Forall_forall in *. intros c Hc. apply Hwf.
  by eapply getitem_list_subset.
Qed.

(** Where the standardized frame has a row without missing value, the
    input has a value in its first column. *)
Lemma label_encoded_defined (df d : DataFrame) (sc : StandardScaler) (t : Z) :
  LabelEncoder_encode_data (layer := layer) (FrameData df) (Scaler sc) = Ok d ->
  complete_at d t ->
  exists c, c ∈ columns df /\ is_Some (c.2 !! t).
Proof.
  unfold LabelEncoder_encode_data. cbn [as_frame as_scaler mbind result_bind rbind].
  intros H. apply bind_ok_inv in H as (array & Harr & H).
  unfold StandardScaler_transform in Harr.
  apply bind_ok_inv in Harr as (u0 & _ & Harr).
  apply bind_ok_inv in Harr as (u & Hchk & Harr).
  revert Hchk Harr H. unfold check_array, DataFrame_of_array.
  case_match; [discriminate|].
  case_match eqn:Hlen; [discriminate|]. intros _.
  destruct (length (columns df) =? n_features_in_ sc); intros Harr; [|discriminate Harr].
  injection Harr as <-.
  case_match eqn:Hlen2; intros Hd; [|discriminate Hd]. injection Hd as <-.
  unfold complete_at, column_names in *. cbn [columns].
  revert Hlen Hlen2.
  destruct (columns df) as [|c cols]; [discriminate|].
  destruct (zip (mean_ sc) (scale_ sc)) as [|p ps]; [intros _ Hl2; cbn in Hl2; discriminate Hl2|].
  intros _ _. cbn. rewrite Forall_cons. cbn. intros [Hc _].
  exists c. split; [left|].
  unfold standardize in Hc. destruct p.1, p.2; try (by apply is_Some_None in Hc).
  rewrite lookup_fmap in Hc. by apply fmap_is_Some in Hc.
Qed.

(** Claim C4.  The sales group built by [_create_sales_features] carries
    the label column names prefixed with '(t-1)'; its row at a timestamp
    [t] exists exactly when the labels have a row one day earlier and then
    holds the label values of that row; and a timestamp whose day before is
    not in the label index labels no row of the matrix returned by
    [fit_and_encode] or [encode]. *)
Theorem sales_history_shift (table : DataFrame) (dp : DataProcessor) :
  well_formed table ->
  DataProcessor_init table = Ok dp ->
  exists labels sales,
    dict_get (data dp) "labels" = Ok (FrameData labels)
    /\ dict_get (data dp) "sales" = Ok (FrameData sales)
    /\ index labels = index table
    /\ column_names sales = (fun name => "(t-1)" +:+ name) <$> column_names labels
    /\ (forall t : Z, t ∈ index sales <-> (t - Timedelta_days 1)%Z ∈ index labels)
    /\ (forall (t : Z) (i : nat), cell sales t i = cell labels (t - Timedelta_days 1) i)
    /\ forall fit (store store' : store_t) M (t : Z),
         _encode_data' dp fit store = Ok (M, store') ->
         (t - Timedelta_days 1)%Z ∉ index labels ->
         t ∉ index M.
Proof.
  intros Hwf Hinit. pose proof Hinit as Hinit'.
  apply DataProcessor_init_ok in Hinit'
    as (weather & ferien & fahrten & labels & _ & _ & _ & Hl & Hdp).
  assert (Hwfl : well_formed labels) by (by eapply getitem_columns_well_formed).
  apply getitem_columns_ok in Hl as (Hidx & _ & _).
  exists labels, (sales_of_labels labels).
  split; [by rewrite Hdp|]. split; [by rewrite Hdp|]. split; [done|].
  split; [|split; [|split]].
  - unfold column_names, sales_of_labels, shift_index, add_prefix, map_series.
    cbn [columns]. rewrite <- !list_fmap_compose. done.
  - intros t. unfold sales_of_labels. by rewrite elem_of_shift_index.
  - apply cell_sales_of_labels.
  - intros fit store store' M t Hrun Hnot Hin.
    destruct (encode_data_inv _ _ _ _ _ _ Hinit Hrun)
      as (weather' & ferien' & fahrten' & labels' & d_dt & d_w & d_fe & d_fa & d_l & d_s
          & s1 & s2 & s3 & s4 & s5 & _ & _ & _ & Hl' & _ & _ & _ & _ & _ & Hs & _ & ->).
    assert (labels' = labels) as ->.
    { rewrite Hdp in Hinit. apply DataProcessor_init_ok in Hinit
        as (? & ? & ? & labels2 & _ & _ & _ & Hl2 & Heq).
      rewrite Hl' in Hl2. injection Hl2 as <-. by injection Heq. }
    apply elem_of_index_dropna in Hin as [_ Hc].
    rewrite complete_at_concat in Hc.
    assert (Hcs : complete_at d_s t) by (apply Hc; in_list).
    assert (exists sc, LabelEncoder_encode_data (layer := layer)
                         (FrameData (sales_of_labels labels)) (Scaler sc) = Ok d_s)
      as [sc Hsc].
    { destruct fit.
      - apply (fit_scaler_inv LabelEncoder _ _ _ _ _ eq_refl eq_refl) in Hs
          as (sc & _ & _ & Hd). by exists sc.
      - apply (load_scaler_inv LabelEncoder _ _ _ _ _ eq_refl eq_refl) in Hs
          as (_ & sc & _ & Hd). by exists sc. }
    destruct (label_encoded_defined _ _ _ t Hsc Hcs) as (c & Hcin & Hsome).
    unfold sales_of_labels, shift_index, add_prefix, map_series in Hcin.
    cbn [columns] in Hcin.
    apply list_elem_of_fmap in Hcin as (c1 & -> & Hc1).
    apply list_elem_of_fmap in Hc1 as (c2 & -> & Hc2).
    cbn [snd] in Hsome. rewrite lookup_shift_series in Hsome.
    apply Hnot. unfold well_formed in Hwfl. rewrite Forall_forall in Hwfl.
    apply (Hwfl c2 Hc2). by apply elem_of_dom.
Qed.

(** ** Standardization does not see the row labels *)

Lemma series_sum_list (s : gmap Z R) :
  series_sum s = foldr Rplus 0%R (map_to_list s).*2.
Proof.
  unfold series_sum. rewrite map_fold_foldr.
  induction (map_to_list s) as [|[k v] l IH]; cbn; [done|]. by rewrite IH.
Qed.

Lemma foldr_Rplus_perm (l1 l2 : list R) :
  l1 ≡ₚ l2 -> foldr Rplus 0%R l1 = foldr Rplus 0%R l2.
Proof.
  induction 1 as [|x l l' _ IH|x y l|l l' l'' _ IH1 _ IH2]; cbn.
  - done.
  - by rewrite IH.
  - lra.
  - by rewrite IH1.
Qed.

Lemma series_sum_shift (delta : Z) (s : gmap Z R) :
  series_sum (shift_series delta s) = series_sum s.
Proof.
  rewrite !series_sum_list. apply foldr_Rplus_perm.
  unfold shift_series. rewrite map_to_list_kmap.
  rewrite <- list_fmap_compose.
  - done.
  - apply _.
Qed.

Lemma size_shift (delta : Z) (s : gmap Z R) :
  size (shift_series delta s) = size s.
Proof.
  unfold shift_series. rewrite <- !length_map_to_list, map_to_list_kmap; [|apply _].
  by rewrite length_fmap.
Qed.

Lemma nanmean_shift (delta : Z) (s : gmap Z R) :
  nanmean (shift_series delta s) = nanmean s.
Proof. unfold nanmean. by rewrite size_shift, series_sum_shift. Qed.

Lemma nanstd_scale_shift (delta : Z) (s : gmap Z R) :
  nanstd_scale (shift_series delta s) = nanstd_scale s.
Proof.
  unfold nanstd_scale, nanvar. rewrite nanmean_shift, size_shift.
  destruct (nanmean s) as [m|]; [|done]. cbn.
  unfold shift_series. rewrite <- kmap_fmap; [|apply _].
  change (kmap _ ?x) with (shift_series delta x).
  by rewrite series_sum_shift.
Qed.

(** ** A fitting run and the store it leaves *)

Lemma encode_items_keeps_store (dp : DataProcessor) items acc encoded (s s' : store_t) :
  encode_items' dp false items acc s = Ok (encoded, s') -> s' = s.
Proof.
  revert acc. induction items as [|[k d] items IH]; intros acc Hitems.
  - by injection Hitems as _ <-.
  - cbn [encode_items] in Hitems.
    apply bind_ok_inv in Hitems as (enc' & _ & Hitems).
    apply bind_ok_inv in Hitems as ([df s1] & Hg & Hitems).
    apply load_group_store in Hg as ->. by eapply IH.
Qed.

Lemma encode_keeps_store (dp : DataProcessor) (s s' : store_t) (M : DataFrame) :
  DataProcessor_encode' dp s = Ok (M, s') -> s' = s.
Proof.
  unfold DataProcessor_encode, _encode_data. intros H.
  apply bind_ok_inv in H as ([enc st] & Hitems & H).
  apply bind_ok_inv in H as (ordered & _ & H). injection H as _ <-.
  by eapply encode_items_keeps_store.
Qed.

Lemma fit_run_inv (table : DataFrame) (dp : DataProcessor) (store store' : store_t)
    (M : DataFrame) :
  DataProcessor_init table = Ok dp ->
  DataProcessor_fit_and_encode' dp store = Ok (M, store') ->
  exists weather ferien fahrten labels d_dt d_w d_fe d_fa d_l d_s s1
         sc_w sc_l sc_s m_fe m_fa,
    dp = {| data := [("datetime", IndexData (index table));
                     ("weather", FrameData weather);
                     ("ferien", FrameData ferien);
                     ("fahrten", FrameData fahrten);
                     ("labels", FrameData labels);
                     ("sales", FrameData (sales_of_labels labels))];
            encoders := default_encoders |}
    /\ encode_items' dp true (data dp) [] store
       = Ok ([("datetime", d_dt); ("weather", d_w); ("ferien", d_fe); ("fahrten", d_fa);
              ("labels", d_l); ("sales", d_s)], store')
    /\ M = dropna (concat_columns [d_s; d_dt; d_w; d_fe; d_fa; d_l])
    /\ store'
       = <["saved_models/label_encoding.save" := ScalerFile sc_s]>
           (<["saved_models/label_encoding.save" := ScalerFile sc_l]>
              (<["saved_models/fahrten_encoding.h5" := ModelFile m_fa]>
                 (<["saved_models/ferien_encoding.h5" := ModelFile m_fe]>
                    (<["saved_models/weather_encoding.save" := ScalerFile sc_w]> s1))))
    /\ TemporalEncoder_encode_data (IndexData (index table)) = Ok d_dt
    /\ encoder_encode_data' (new_encoder WeatherEncoder) (FrameData weather) (Scaler sc_w)
       = Ok d_w
    /\ encoder_encode_data' (new_encoder LabelEncoder) (FrameData labels) (Scaler sc_l)
       = Ok d_l
    /\ encoder_encode_data' (new_encoder LabelEncoder) (FrameData (sales_of_labels labels))
         (Scaler sc_s)
       = Ok d_s
    /\ StandardScaler_fit labels = Ok sc_l
    /\ StandardScaler_fit (sales_of_labels labels) = Ok sc_s.
Proof.
  intros Hinit Hrun. pose proof Hinit as Hinit'.
  destruct (encode_data_inv _ _ _ _ _ _ Hinit Hrun)
    as (weather & ferien & fahrten & labels & d_dt & d_w & d_fe & d_fa & d_l & d_s
        & s1 & s2 & s3 & s4 & s5 & Hgw & Hgfe & Hgfa & Hl & Hdt & Hw & Hfe & Hfa
        & Hfl & Hfs & Hitems & HM).
  apply DataProcessor_init_ok in Hinit'
    as (weather' & ferien' & fahrten' & labels' & Hgw' & Hgfe' & Hgfa' & Hl' & Hdp).
  rewrite Hl in Hl'. injection Hl' as <-.
  rewrite Hgw in Hgw'. injection Hgw' as <-.
  rewrite Hgfe in Hgfe'. injection Hgfe' as <-.
  rewrite Hgfa in Hgfa'. injection Hgfa' as <-.
  apply temporal_inv in Hdt as [-> Hdt].
  apply (fit_scaler_inv WeatherEncoder _ _ _ _ _ eq_refl eq_refl) in Hw
    as (sc_w & _ & -> & Hw).
  apply (fit_autoencoder_inv FerienEncoder _ _ _ _ _ eq_refl eq_refl) in Hfe
    as (m_fe & ->).
  apply (fit_autoencoder_inv FahrtenEncoder _ _ _ _ _ eq_refl eq_refl) in Hfa
    as (m_fa & ->).
  apply (fit_scaler_inv LabelEncoder _ _ _ _ _ eq_refl eq_refl) in Hfl
    as (sc_l & Hfitl & -> & Hdl).
  apply (fit_scaler_inv LabelEncoder _ _ _ _ _ eq_refl eq_refl) in Hfs
    as (sc_s & Hfits & -> & Hds).
  rewrite Hdp in Hitems.
  exists weather, ferien, fahrten, labels, d_dt, d_w, d_fe, d_fa, d_l, d_s, store,
         sc_w, sc_l, sc_s, m_fe, m_fa.
  subst dp. repeat split; done.
Qed.

Lemma fit_sales_params (labels : DataFrame) (s_labels s_sales : StandardScaler) :
  StandardScaler_fit labels = Ok s_labels ->
  StandardScaler_fit (sales_of_labels labels) = Ok s_sales ->
  n_features_in_ s_sales = n_features_in_ s_labels
  /\ mean_ s_sales = mean_ s_labels
  /\ scale_ s_sales = scale_ s_labels.
Proof.
  unfold StandardScaler_fit. intros Hl Hs.
  apply bind_ok_inv in Hl as (u & _ & [= <-]).
  apply bind_ok_inv in Hs as (u' & _ & [= <-]).
  cbn [n_features_in_ mean_ scale_].
  unfold sales_of_labels, shift_index, add_prefix, map_series. cbn [columns].
  rewrite !length_fmap, <- !list_fmap_compose.
  split; [done|]. split; apply list_fmap_ext; intros i c _; cbn.
  - apply nanmean_shift.
  - apply nanstd_scale_shift.
Qed.

Lemma encode_scaler (cls : encoder_class) (f : string) (d : pydata) (sc : StandardScaler)
    (s : store_t) :
  is_autoencoder cls = false ->
  truthy_filename (new_encoder cls) = Some f ->
  s !! f = Some (ScalerFile sc) ->
  encode get_layer_encoder predict (new_encoder cls) d s
  = encoder_encode_data' (new_encoder cls) d (Scaler sc).
Proof.
  intros Hauto Hf Hs. unfold encode, load_encoder, joblib_load.
  rewrite Hf. cbn [class_ new_encoder]. rewrite Hauto, Hs. reflexivity.
Qed.

(** ** The names a scaler was fitted on *)

Lemma length_string_app (a b : string) :
  String.length (a +:+ b) = String.length a + String.length b.
Proof. induction a as [|c a IH]; [done|]. exact (f_equal S IH). Qed.

Lemma column_names_sales_of_labels (labels : DataFrame) :
  column_names (sales_of_labels labels)
  = (fun name => "(t-1)" +:+ name) <$> column_names labels.
Proof.
  unfold column_names, sales_of_labels, shift_index, add_prefix, map_series.
  cbn [columns]. rewrite <- !list_fmap_compose. done.
Qed.

(** The prefixed names of the sales group are never the names of the
    labels. *)
Lemma sales_names_differ (labels : DataFrame) :
  column_names labels <> [] ->
  column_names (sales_of_labels labels) <> column_names labels.
Proof.
  rewrite column_names_sales_of_labels.
  destruct (column_names labels) as [|name names]; [done|].
  intros _ [= Heq _]. apply (f_equal String.length) in Heq.
  rewrite length_string_app in Heq. cbn in Heq. lia.
Qed.

Lemma StandardScaler_fit_names (X : DataFrame) (sc : StandardScaler) :
  StandardScaler_fit X = Ok sc ->
  feature_names_in_ sc = column_names X /\ column_names X <> [].
Proof.
  unfold StandardScaler_fit. intros H.
  apply bind_ok_inv in H as (u & Hchk & [= <-]). split; [done|].
  revert Hchk. unfold check_array, column_names.
  case_match; [discriminate|].
  destruct (columns X); [discriminate|done].
Qed.

(** [transform] on a table whose names are not the recorded ones. *)
Lemma StandardScaler_transform_other_names (sc : StandardScaler) (X : DataFrame) :
  feature_names_in_ sc <> [] ->
  column_names X <> [] ->
  feature_names_in_ sc <> column_names X ->
  StandardScaler_transform sc X = Raise (ValueError feature_names_message).
Proof.
  intros Hsc HX Hne. unfold StandardScaler_transform, check_feature_names.
  destruct (feature_names_in_ sc) as [|n ns]; [done|].
  destruct (column_names X) as [|m ms]; [done|].
  by rewrite bool_decide_eq_false_2.
Qed.

(** Claim C2.  The code breaks the claim.  After a successful
    [fit_and_encode], [encode] on the same processor and the resulting
    store still gives the frames of the fit for the groups sales, datetime
    and weather.  For the labels it loads the scaler that the sales group
    wrote over the one of the labels; the names recorded in it carry the
    prefix '(t-1)', so [transform] refuses the label table with a
    [ValueError].  [DataProcessor.encode] therefore never returns a matrix
    after [fit_and_encode]: it ends in an exception, and in this
    [ValueError] whenever the two autoencoder groups are encoded. *)
Theorem fit_and_encode_then_encode_raises (table : DataFrame) (dp : DataProcessor)
    (store store' : store_t) (M : DataFrame) :
  DataProcessor_init table = Ok dp ->
  DataProcessor_fit_and_encode' dp store = Ok (M, store') ->
  exists encoded_data labels s_sales,
    encode_items' dp true (data dp) [] store = Ok (encoded_data, store')
    /\ (forall key encoder d df,
          key ∈ ["sales"; "datetime"; "weather"] ->
          dict_get (encoders dp) key = Ok encoder ->
          dict_get (data dp) key = Ok d ->
          dict_get encoded_data key = Ok df ->
          encode get_layer_encoder predict encoder d store' = Ok df)
    /\ dict_get (data dp) "labels" = Ok (FrameData labels)
    /\ load_encoder get_layer_encoder (new_encoder LabelEncoder) store'
       = Ok (@Scaler layer s_sales)
    /\ feature_names_in_ s_sales = column_names (sales_of_labels labels)
    /\ feature_names_in_ s_sales <> column_names labels
    /\ (forall encoder,
          dict_get (encoders dp) "labels" = Ok encoder ->
          encode get_layer_encoder predict encoder (FrameData labels) store'
          = Raise (ValueError feature_names_message))
    /\ (exists e, DataProcessor_encode' dp store' = Raise e)
    /\ ((forall key encoder d,
           key ∈ ["ferien"; "fahrten"] ->
           dict_get (encoders dp) key = Ok encoder ->
           dict_get (data dp) key = Ok d ->
           is_ok (encode get_layer_encoder predict encoder d store') = true) ->
        DataProcessor_encode' dp store' = Raise (ValueError feature_names_message)).
Proof.
  intros Hinit Hrun.
  destruct (fit_run_inv table dp store store' M Hinit Hrun)
    as (weather & ferien & fahrten & labels & d_dt & d_w & d_fe & d_fa & d_l & d_s
        & s1 & sc_w & sc_l & sc_s & m_fe & m_fa
        & Hdp & Hitems & HM & Hstore & Hdt & Hw & Hl & Hs & Hfitl & Hfits).
  subst dp. eexists. exists labels, sc_s. split; [exact Hitems|].
  assert (Hlw : store' !! "saved_models/weather_encoding.save" = Some (ScalerFile sc_w)).
  { rewrite Hstore. rewrite !lookup_insert_ne by done. apply lookup_insert_eq. }
  assert (Hll : store' !! "saved_models/label_encoding.save" = Some (ScalerFile sc_s)).
  { rewrite Hstore. apply lookup_insert_eq. }
  assert (Edt : encode get_layer_encoder predict (new_encoder TemporalEncoder)
                  (IndexData (index table)) store' = Ok d_dt) by exact Hdt.
  assert (Ew : encode get_layer_encoder predict (new_encoder WeatherEncoder)
                 (FrameData weather) store' = Ok d_w).
  { by rewrite (encode_scaler WeatherEncoder _ _ sc_w _ eq_refl eq_refl Hlw). }
  assert (Es : encode get_layer_encoder predict (new_encoder LabelEncoder)
                 (FrameData (sales_of_labels labels)) store' = Ok d_s).
  { by rewrite (encode_scaler LabelEncoder _ _ sc_s _ eq_refl eq_refl Hll). }
  destruct (StandardScaler_fit_names _ _ Hfits) as [Hnames Hnonempty].
  destruct (StandardScaler_fit_names _ _ Hfitl) as [_ Hlabels].
  assert (Hdiffer : feature_names_in_ sc_s <> column_names labels).
  { rewrite Hnames. by apply sales_names_differ. }
  assert (El : encode get_layer_encoder predict (new_encoder LabelEncoder)
                 (FrameData labels) store' = Raise (ValueError feature_names_message)).
  { rewrite (encode_scaler LabelEncoder _ _ sc_s _ eq_refl eq_refl Hll).
    unfold encoder_encode_data, LabelEncoder_encode_data.
    cbn [class_ new_encoder as_frame as_scaler mbind result_bind rbind].
    rewrite StandardScaler_transform_other_names; [done| |done..].
    by rewrite Hnames. }
  assert (Hshape : DataProcessor_encode' {|
                       data := [("datetime", IndexData (index table));
                                ("weather", FrameData weather);
                                ("ferien", FrameData ferien);
                                ("fahrten", FrameData fahrten);
                                ("labels", FrameData labels);
                                ("sales", FrameData (sales_of_labels labels))];
                       encoders := default_encoders |} store'
                   = (encode get_layer_encoder predict (new_encoder FerienEncoder)
                        (FrameData ferien) store'
                      ≫= fun _ =>
                      encode get_layer_encoder predict (new_encoder FahrtenEncoder)
                        (FrameData fahrten) store'
                      ≫= fun _ => Raise (ValueError feature_names_message))).
  { unfold DataProcessor_encode, _encode_data. cbn [data encode_items encoders].
    unfold encode_group.
    rewrite (eq_refl : dict_get default_encoders "datetime"
                       = Ok (new_encoder TemporalEncoder)).
    cbn [mbind result_bind rbind]. rewrite Edt. cbn [mbind result_bind rbind].
    rewrite (eq_refl : dict_get default_encoders "weather"
                       = Ok (new_encoder WeatherEncoder)).
    cbn [mbind result_bind rbind]. rewrite Ew. cbn [mbind result_bind rbind].
    rewrite (eq_refl : dict_get default_encoders "ferien"
                       = Ok (new_encoder FerienEncoder)).
    cbn [mbind result_bind rbind].
    destruct (encode get_layer_encoder predict (new_encoder FerienEncoder)
                (FrameData ferien) store') as [e|d_fe']; [reflexivity|].
    cbn [mbind result_bind rbind].
    rewrite (eq_refl : dict_get default_encoders "fahrten"
                       = Ok (new_encoder FahrtenEncoder)).
    cbn [mbind result_bind rbind].
    destruct (encode get_layer_encoder predict (new_encoder FahrtenEncoder)
                (FrameData fahrten) store') as [e|d_fa']; [reflexivity|].
    cbn [mbind result_bind rbind].
    rewrite (eq_refl : dict_get default_encoders "labels"
                       = Ok (new_encoder LabelEncoder)).
    cbn [mbind result_bind rbind]. rewrite El. reflexivity. }
  split; [|split; [done|split; [|split; [done|split; [done|split; [|split]]]]]].
  - intros key encoder d df Hkey.
    repeat (apply elem_of_cons in Hkey as [->|Hkey]); [..|inversion Hkey];
      intros [= <-] [= <-] [= <-]; assumption.
  - unfold load_encoder, joblib_load.
    change (truthy_filename (new_encoder LabelEncoder))
      with (Some "saved_models/label_encoding.save").
    cbn [class_ new_encoder is_autoencoder]. by rewrite Hll.
  - by intros encoder [= <-].
  - rewrite Hshape.
    destruct (encode get_layer_encoder predict (new_encoder FerienEncoder)
                (FrameData ferien) store') as [e|d_fe']; [by exists e|].
    destruct (encode get_layer_encoder predict (new_encoder FahrtenEncoder)
                (FrameData fahrten) store') as [e|d_fa']; [by exists e|].
    by eexists.
  - intros Hae. rewrite Hshape.
    pose proof (Hae "ferien" (new_encoder FerienEncoder) (FrameData ferien)) as Hfe.
    pose proof (Hae "fahrten" (new_encoder FahrtenEncoder) (FrameData fahrten)) as Hfa.
    destruct (encode get_layer_encoder predict (new_encoder FerienEncoder)
                (FrameData ferien) store') as [e|d_fe'].
    { exfalso. assert (false = true) as Habs; [|discriminate Habs].
      apply Hfe; [in_list|reflexivity..]. }
    destruct (encode get_layer_encoder predict (new_encoder FahrtenEncoder)
                (FrameData fahrten) store') as [e|d_fa'].
    { exfalso. assert (false = true) as Habs; [|discriminate Habs].
      apply Hfa; [in_list|reflexivity..]. }
    reflexivity.
Qed.

End PipelineProperties.

(** ** Merging the sources *)

Lemma get_series_app_l (idx idx' : gset Z) (l r : list (string * gmap Z R)) name :
  name ∈ l.*1 ->
  get_series {| index := idx; columns := l ++ r |} name
  = get_series {| index := idx'; columns := l |} name.
Proof.
  unfold get_series. cbn [columns]. intros Hin.
  induction l as [|c l IH]; [inversion Hin|]. cbn.
  destruct (decide (c.1 = name)) as [Heq|Hne]; [done|].
  apply elem_of_cons in Hin as [Hin|Hin]; [congruence|].
  specialize (IH Hin).
  destruct (list_find _ (l ++ r)) as [[? ?]|], (list_find _ l) as [[? ?]|]; exact IH.
Qed.

Lemma get_series_app_r (idx idx' : gset Z) (l r : list (string * gmap Z R)) name :
  name ∉ l.*1 ->
  get_series {| index := idx; columns := l ++ r |} name
  = get_series {| index := idx'; columns := r |} name.
Proof.
  unfold get_series. cbn [columns]. intros Hnot.
  induction l as [|c l IH]; [done|]. cbn.
  apply not_elem_of_cons in Hnot as [Hne Hnot].
  destruct (decide (c.1 = name)) as [Heq|_]; [congruence|].
  specialize (IH Hnot).
  destruct (list_find _ (l ++ r)) as [[? ?]|], (list_find _ r) as [[? ?]|]; exact IH.
Qed.

Lemma get_series_tabulate (idx : gset Z) (F : string -> gmap Z R) (names : list string) name :
  name ∈ names ->
  get_series {| index := idx; columns := (fun n => (n, F n)) <$> names |} name = F name.
Proof.
  unfold get_series. cbn [columns]. intros Hin.
  induction names as [|n names IH]; [inversion Hin|]. cbn.
  destruct (decide (n = name)) as [->|Hne]; [done|].
  apply elem_of_cons in Hin as [Hin|Hin]; [congruence|].
  specialize (IH Hin). destruct (list_find _ _) as [[? ?]|]; exact IH.
Qed.

Lemma elem_of_union_names (new old : DataFrame) name :
  name ∈ union_names new old <-> name ∈ column_names new \/ name ∈ column_names old.
Proof.
  unfold union_names. case_bool_decide as Heq.
  - rewrite Heq. tauto.
  - rewrite merge_sort_Permutation, elem_of_remove_dups, elem_of_app. tauto.
Qed.

(** A cell of [new.combine_first(old)]: the value of [new] when it has
    one, the value of [old] otherwise. *)
Lemma value_combine_first (new old : DataFrame) (t : Z) name :
  name ∈ column_names new \/ name ∈ column_names old ->
  value (combine_first new old) t name
  = match value new t name with
    | Some n => Some n
    | None => value old t name
    end.
Proof.
  intros Hin. unfold value, combine_first.
  rewrite get_series_tabulate by (by apply elem_of_union_names).
  rewrite lookup_union. by destruct (get_series new name !! t), (get_series old name !! t).
Qed.

Lemma column_names_combine_first (new old : DataFrame) :
  column_names (combine_first new old) = union_names new old.
Proof.
  unfold column_names, combine_first. cbn [columns].
  rewrite <- list_fmap_compose. apply list_fmap_id.
Qed.

Lemma join_outer_ok (left right joined : DataFrame) :
  join_outer left right = Ok joined ->
  index joined = index left ∪ index right
  /\ columns joined = columns left ++ columns right
  /\ forall name, name ∈ column_names right -> name ∉ column_names left.
Proof.
  unfold join_outer. case_bool_decide as Hex; [discriminate|]. intros [= <-].
  split; [done|]. split; [done|]. intros name Hr Hl. apply Hex.
  apply Exists_exists. eauto.
Qed.

Lemma join_all_ok (first joined : DataFrame) (rest : list DataFrame) :
  join_all first rest = Ok joined ->
  (forall t, t ∈ index joined <-> t ∈ index first \/ exists df, df ∈ rest /\ t ∈ index df)
  /\ (forall name, name ∈ column_names first ->
                   get_series joined name = get_series first name)
  /\ (forall df name, df ∈ rest -> name ∈ column_names df ->
                      get_series joined name = get_series df name)
  /\ (forall name, name ∈ column_names joined <->
                   name ∈ column_names first
                   \/ exists df, df ∈ rest /\ name ∈ column_names df).
Proof.
  revert first. induction rest as [|df rest IH]; intros first; cbn [join_all].
  - intros [= <-]. repeat split; try done.
    + by left.
    + intros [?|(df & Hdf & _)]; [done|inversion Hdf].
    + intros df name Hdf. inversion Hdf.
    + by left.
    + intros [?|(df & Hdf & _)]; [done|inversion Hdf].
  - intros H. apply bind_ok_inv in H as (j & Hj & H).
    apply join_outer_ok in Hj as (Hidx & Hcols & Hdisj).
    destruct (IH _ H) as (IHidx & IHfirst & IHrest & IHnames).
    assert (Hnames : column_names j = column_names first ++ column_names df).
    { unfold column_names. by rewrite Hcols, fmap_app. }
    assert (Hjl : forall name, name ∈ column_names first ->
                               get_series j name = get_series first name).
    { intros name Hin. destruct j as [ji jc], first as [fi fc]. cbn in *. subst jc.
      by apply get_series_app_l. }
    assert (Hjr : forall name, name ∈ column_names df ->
                               get_series j name = get_series df name).
    { intros name Hin. destruct j as [ji jc], df as [di dc]. cbn in *. subst jc.
      apply get_series_app_r. by apply Hdisj. }
    split; [|split; [|split]].
    + intros t. rewrite IHidx, Hidx, elem_of_union. split.
      * intros [[?|?]|(d & Hd & ?)]; [by left|right..].
        -- exists df. split; [left|done].
        -- exists d. split; [by right|done].
      * intros [?|(d & Hd & ?)]; [by left; left|].
        apply elem_of_cons in Hd as [->|Hd]; [by left; right|right; eauto].
    + intros name Hin. rewrite IHfirst; [by apply Hjl|].
      rewrite Hnames, elem_of_app. by left.
    + intros d name Hd Hin. apply elem_of_cons in Hd as [->|Hd].
      * rewrite IHfirst; [by apply Hjr|]. rewrite Hnames, elem_of_app. by right.
      * by apply IHrest.
    + intros name. rewrite IHnames, Hnames, elem_of_app. split.
      * intros [[?|?]|(d & Hd & ?)]; [by left|right..].
        -- exists df. split; [left|done].
        -- exists d. split; [by right|done].
      * intros [?|(d & Hd & ?)]; [by left; left|].
        apply elem_of_cons in Hd as [->|Hd]; [by left; right|right; eauto].
Qed.

Lemma get_series_map_series (idx idx' : gset Z) (f : gmap Z R -> gmap Z R)
    (cols : list (string * gmap Z R)) name :
  name ∈ cols.*1 ->
  get_series {| index := idx; columns := map_series f cols |} name
  = f (get_series {| index := idx'; columns := cols |} name).
Proof.
  unfold get_series, map_series. cbn [columns]. intros Hin.
  induction cols as [|c cols IH]; [inversion Hin|]. cbn.
  destruct (decide (c.1 = name)) as [Heq|Hne]; [done|].
  apply elem_of_cons in Hin as [Hin|Hin]; [congruence|].
  specialize (IH Hin).
  destruct (list_find _ (_ <$> cols)) as [[? ?]|], (list_find _ cols) as [[? ?]|]; exact IH.
Qed.

Lemma column_names_map_series f cols : (map_series f cols).*1 = cols.*1.
Proof. unfold map_series. rewrite <- list_fmap_compose. done. Qed.

Lemma value_restrict_rows (keep : gset Z) (df : DataFrame) (t : Z) name :
  t ∈ keep -> value (restrict_rows keep df) t name = value df t name.
Proof.
  intros Hin. unfold value, restrict_rows.
  destruct (decide (name ∈ column_names df)) as [Hn|Hn].
  - rewrite (get_series_map_series _ (index df)) by done.
    destruct df as [i c]. cbn.
    destruct (get_series {| index := i; columns := c |} name !! t) as [v|] eqn:Hv.
    + by apply map_lookup_filter_Some.
    + apply map_lookup_filter_None. left. done.
  - unfold get_series at 1 2. cbn [columns].
    assert (Hnone : forall cols : list (string * gmap Z R),
               name ∉ cols.*1 -> list_find (fun c => c.1 = name) cols = None).
    { intros cols Hc. apply list_find_None, Forall_forall. intros c Hcin Heq.
      apply Hc. apply list_elem_of_fmap. eauto. }
    rewrite !Hnone; [done|done|]. by rewrite column_names_map_series.
Qed.

Lemma value_fillna (v : R) (df : DataFrame) (t : Z) name :
  name ∈ column_names df -> t ∈ index df ->
  value (fillna v df) t name = Some (default v (value df t name)).
Proof.
  intros Hn Ht. unfold value, fillna.
  rewrite (get_series_map_series _ (index df)) by done.
  destruct df as [i c]. cbn [index columns] in *.
  rewrite lookup_union, lookup_gset_to_gmap, option_guard_True by done.
  by destruct (get_series _ name !! t).
Qed.

Lemma elem_of_filter_time_and_date (self : DataProvider) (df : DataFrame) (t : Z) :
  t ∈ index (filter_time_and_date self df)
  <-> t ∈ index df
      /\ (start_date (configs self) + start_time (configs self) <= t)%Z
      /\ (t <= end_date (configs self) + end_time (configs self))%Z
      /\ in_time_window (start_time (configs self)) (end_time (configs self)) t = true.
Proof.
  unfold filter_time_and_date, restrict_rows. cbn [index].
  rewrite !elem_of_filter. rewrite Is_true_true. tauto.
Qed.

Lemma value_filter_time_and_date (self : DataProvider) (df : DataFrame) (t : Z) name :
  t ∈ index (filter_time_and_date self df) ->
  value (filter_time_and_date self df) t name = value df t name.
Proof.
  intros Hin. unfold filter_time_and_date in *. cbn [index restrict_rows] in Hin.
  rewrite value_restrict_rows by exact Hin.
  apply value_restrict_rows. by apply elem_of_filter in Hin as [_ ?].
Qed.

Lemma load_sources_ok (self : DataProvider) (fs : gmap string DataFrame) keys data key :
  load_sources self fs keys = Ok data ->
  key ∈ keys ->
  exists df, df ∈ data /\ load_source self fs key = Ok df.
Proof.
  revert data. induction keys as [|k keys IH]; intros data H Hin; [inversion Hin|].
  cbn [load_sources] in H.
  apply bind_ok_inv in H as (df & Hdf & H).
  apply bind_ok_inv in H as (rest & Hrest & [= <-]).
  apply elem_of_cons in Hin as [->|Hin].
  - exists df. split; [left|done].
  - destruct (IH _ Hrest Hin) as (d & Hd & ?). exists d. split; [by right|done].
Qed.

(** Claim C6.  In the table [load_database] returns, the cell of a column
    of source [key] at a timestamp of the table holds the value of the
    incremental file when that file has one there, else the value of the
    baseline when it has one, else 0. *)
Theorem load_database_precedence (self : DataProvider) (fs : gmap string DataFrame)
    (table : DataFrame) (key : string) :
  load_database self fs = Ok table ->
  key ∈ providers self ->
  exists database,
    fs !! (path_join (data_directory self) key +:+ ".csv") = Some database
    /\ forall (t : Z) (name : string),
         t ∈ index table ->
         name ∈ column_names database
         \/ (exists new_data, fs !! ("data/new_data/" +:+ key +:+ ".csv") = Some new_data
                              /\ name ∈ column_names new_data) ->
         value table t name
         = Some match fs !! ("data/new_data/" +:+ key +:+ ".csv")
                      ≫= (fun new_data => value new_data t name) with
                | Some N => N
                | None => match value database t name with
                          | Some B => B
                          | None => 0%R
                          end
                end.
Proof.
  unfold load_database. intros H Hkey.
  apply bind_ok_inv in H as (data & Hdata & H).
  destruct data as [|first rest]; [discriminate|].
  apply bind_ok_inv in H as (joined & Hjoin & [= <-]).
  destruct (load_sources_ok _ _ _ _ _ Hdata Hkey) as (df & Hdf & Hsrc).
  unfold load_source, read_csv in Hsrc.
  destruct (fs !! (path_join (data_directory self) key +:+ ".csv")) as [database|]
    eqn:Hdb; [|discriminate].
  exists database. split; [done|]. intros t name Ht Hname.
  cbn [mbind result_bind rbind] in Hsrc.
  destruct (join_all_ok _ _ _ Hjoin) as (_ & Hfirst & Hrest & Hnames).
  assert (Hjoined : name ∈ column_names df ->
                    name ∈ column_names joined
                    /\ get_series joined name = get_series df name).
  { intros Hn. apply elem_of_cons in Hdf as [->|Hdf].
    - split; [apply Hnames; by left|by apply Hfirst].
    - split; [apply Hnames; right; eauto|by apply Hrest]. }
  assert (Hfilter : t ∈ index (filter_time_and_date self joined)) by exact Ht.
  assert (Hval : name ∈ column_names df ->
                 value (fillna 0 (filter_time_and_date self joined)) t name
                 = Some (default 0%R (value df t name))).
  { intros Hn. destruct (Hjoined Hn) as [Hnj Hser].
    rewrite value_fillna; [| |done].
    - rewrite value_filter_time_and_date by done. unfold value. by rewrite Hser.
    - unfold filter_time_and_date, restrict_rows, column_names. cbn [columns].
      rewrite !column_names_map_series. exact Hnj. }
  destruct (fs !! ("data/new_data/" +:+ key +:+ ".csv")) as [new_data|] eqn:Hnew;
    injection Hsrc as <-.
  - rewrite Hval.
    + rewrite value_combine_first.
      * cbn. by destruct (value new_data t name), (value database t name).
      * destruct Hname as [?|(n & [= <-] & ?)]; [by right|by left].
    + rewrite column_names_combine_first. apply elem_of_union_names.
      destruct Hname as [?|(n & [= <-] & ?)]; [by right|by left].
  - destruct Hname as [Hn|(n & ? & _)]; [|discriminate].
    rewrite (Hval Hn). cbn. by destruct (value database t name).
Qed.

(** * Instances *)

Lemma ok_result_value {A B} (m : result (A * B)) (d : A * B) :
  is_ok m = true -> m = Ok ((result_value m d).1, (result_value m d).2).
Proof. destruct m as [e|[a b]]; [discriminate|done]. Qed.

Lemma example_processor_init : DataProcessor_init example_table = Ok example_processor.
Proof. reflexivity. Qed.

Lemma example_run_ok : example_run = Ok (example_matrix, example_store).
Proof. apply ok_result_value. reflexivity. Qed.

Lemma example_table_well_formed : well_formed example_table.
Proof. apply (bool_decide_unpack _). vm_compute. exact I. Qed.

Lemma fit_and_encode_then_encode_raises_witness :
  DataProcessor_encode example_build_autoencoder example_train_model example_get_layer
    example_predict example_processor example_store
  = Raise (ValueError feature_names_message).
Proof.
  destruct (fit_and_encode_then_encode_raises
              example_build_autoencoder example_train_model example_get_layer
              example_predict example_table example_processor ∅ example_store
              example_matrix example_processor_init example_run_ok)
    as (encoded_data & labels & s_sales & _ & _ & _ & _ & _ & _ & _ & _ & H).
  apply H. intros key encoder d Hkey.
  repeat (apply elem_of_cons in Hkey as [->|Hkey]); [..|inversion Hkey];
    intros [= <-] [= <-]; reflexivity.
Defined.


Lemma sales_history_shift_witness :
  exists labels sales,
    dict_get (data example_processor) "labels" = Ok (FrameData labels)
    /\ dict_get (data example_processor) "sales" = Ok (FrameData sales)
    /\ column_names sales = ["(t-1)10"]
    /\ cell sales 86400 0 = Some 3%R.
Proof.
  destruct (sales_history_shift
              example_build_autoencoder example_train_model example_get_layer
              example_predict example_table example_processor
              example_table_well_formed example_processor_init)
    as (labels & sales & Hl & Hs & _ & Hnames & _ & Hcell & _).
  exists labels, sales. split; [done|]. split; [done|].
  injection Hl as <-. split.
  - rewrite Hnames. reflexivity.
  - rewrite Hcell. reflexivity.
Defined.

Lemma row_survival_witness :
  exists encoded_data : list (string * DataFrame),
    forall key, key ∈ new_order -> exists df, dict_get encoded_data key = Ok df.
Proof.
  destruct (row_survival
              example_build_autoencoder example_train_model example_get_layer
              example_predict example_table example_processor true ∅ example_store
              example_matrix example_processor_init example_run_ok)
    as (encoded_data & _ & H & _).
  by exists encoded_data.
Defined.

Lemma load_encoder_not_fitted_witness :
  load_encoder (model := nat) example_get_layer (new_encoder WeatherEncoder) ∅
  = Raise (Exception not_fitted_message).
Proof.
  apply (load_encoder_not_fitted example_build_autoencoder example_train_model
           example_get_layer example_predict (new_encoder WeatherEncoder) ∅
           "saved_models/weather_encoding.save").
  - reflexivity.
  - reflexivity.
Defined.

Lemma DataProcessor_init_missing_column_witness :
  (exists msg, DataProcessor_init example_table_missing = Raise (KeyError msg))
  /\ DataProcessor_init example_table_extra = Ok example_processor.
Proof.
  split.
  - apply (proj1 (DataProcessor_init_missing_column example_table_missing) "wind_speed").
    + apply (bool_decide_unpack _). vm_compute. exact I.
    + apply (bool_decide_unpack _). vm_compute. exact I.
  - etransitivity; [|exact example_processor_init].
    apply (proj2 (proj2 (DataProcessor_init_missing_column example_table))
             (columns example_table) [] ("remark", {[ 0%Z := 7%R ]})).
    + symmetry. apply app_nil_r.
    + apply (bool_decide_unpack _). vm_compute. exact I.
    + reflexivity.
Defined.

Lemma ok_result_value1 {A} (m : result A) (d : A) :
  is_ok m = true -> m = Ok (result_value m d).
Proof. destruct m as [e|a]; [discriminate|done]. Qed.

Lemma example_merged_ok : load_database example_provider example_fs = Ok example_merged.
Proof. apply ok_result_value1. reflexivity. Qed.

Lemma load_database_precedence_witness :
  value example_merged 0 "10" = Some 7%R
  /\ value example_merged 3600 "10" = Some 4%R
  /\ value example_merged 7200 "10" = Some 0%R.
Proof.
  destruct (load_database_precedence example_provider example_fs example_merged "sales"
              example_merged_ok)
    as (database & Hdb & Hval).
  { apply (bool_decide_unpack _). vm_compute. exact I. }
  injection Hdb as <-.
  assert (Hname : "10" ∈ column_names
                    {| index := {[ 0%Z; 3600%Z ]};
                       columns := [("10", ({[ 0%Z := 3%R; 3600%Z := 4%R ]} : gmap Z R))] |}
                  \/ exists new_data,
                       example_fs !! ("data/new_data/" +:+ "sales" +:+ ".csv") = Some new_data
                       /\ "10" ∈ column_names new_data).
  { left. apply list_elem_of_here. }
  split; [|split].
  - rewrite (Hval 0%Z "10"); [reflexivity| |exact Hname].
    apply (bool_decide_unpack _). vm_compute. exact I.
  - rewrite (Hval 3600%Z "10"); [reflexivity| |exact Hname].
    apply (bool_decide_unpack _). vm_compute. exact I.
  - rewrite (Hval 7200%Z "10"); [reflexivity| |exact Hname].
    apply (bool_decide_unpack _). vm_compute. exact I.
Defined.

(** * Further properties of the attention core *)

Lemma dims_eta {A} (t : tensor A) : exists B L H E, dims t = (B, L, H, E).
Proof. destruct (dims t) as [[[B L] H] E]. eauto. Qed.

(** The call succeeds exactly on compatible shapes when no mask is used. *)
Theorem FullAttention_call_unmasked_shapes
    (self : FullAttention) (queries keys values : tensor R)
    (attn_mask : option TriangularCausalMask) training
    (B L H E B' S_ H' E' B'' S'' H'' D : nat) :
  mask_flag self = false ->
  dims queries = (B, L, H, E) ->
  dims keys = (B', S_, H', E') ->
  dims values = (B'', S'', H'', D) ->
  (is_ok (FullAttention_call self queries keys values attn_mask training) = true
   <-> B = B' /\ H = H' /\ E = E' /\ B = B'' /\ H = H'' /\ S_ = S'')
  /\ forall V A,
       FullAttention_call self queries keys values attn_mask training = Ok (V, A) ->
       dims V = (B, L, H, D)
       /\ match A with
          | Some A => output_attention self = true /\ dims A = (B, H, L, S_)
          | None => output_attention self = false
          end.
Proof.
  intros Hflag Hq Hk Hv. unfold FullAttention_call, einsum_blhe_bshe, einsum_bhls_bshd.
  rewrite Hq, Hk, Hv, Hflag.
  destruct (decide (B = B' /\ H = H' /\ E = E')) as [(<- & <- & <-)|Hne].
  - rewrite !Nat.eqb_refl. cbn [andb mbind result_bind rbind].
    assert (Hd : dims (dropout (attention_dropout self) training
                         (softmax (tensor_map (xmul (effective_scale self E))
                            (tensor_map Fin
                               {| dims := (B, H, L, S_); device := device queries;
                                  at4 := fun b h l s =>
                                    Rsum E (fun e => (at4 queries b l h e
                                                      * at4 keys b s h e)%R) |}))))
                 = (B, H, L, S_)).
    { unfold dropout, softmax, tensor_map. cbn. by destruct training. }
    rewrite Hd.
    destruct (decide (B = B'' /\ H = H'' /\ S_ = S'')) as [(<- & <- & <-)|Hne].
    + rewrite !Nat.eqb_refl. cbn [andb rbind]. split.
      * destruct (output_attention self); cbn; tauto.
      * intros V A. destruct (output_attention self); intros [= <- <-]; cbn; auto.
    + assert (Hb : (B =? B'') && (H =? H'') && (S_ =? S'') = false).
      { apply not_true_is_false. intros Ht. apply Hne.
        apply andb_prop in Ht as [Ht H3]. apply andb_prop in Ht as [H1 H2].
        apply Nat.eqb_eq in H1, H2, H3. auto. }
      rewrite Hb. cbn [rbind is_ok]. split; [|discriminate].
      split; [discriminate|]. intros (_ & _ & _ & ? & ? & ?). exfalso. auto.
  - assert (Hb : (B =? B') && (H =? H') && (E =? E') = false).
    { apply not_true_is_false. intros Ht. apply Hne.
      apply andb_prop in Ht as [Ht H3]. apply andb_prop in Ht as [H1 H2].
      apply Nat.eqb_eq in H1, H2, H3. auto. }
    rewrite Hb. cbn [mbind result_bind rbind is_ok]. split; [|discriminate].
    split; [discriminate|]. intros (? & ? & ? & _). exfalso. auto.
Qed.

Lemma FullAttention_call_unmasked_shapes_witness :
  is_ok (FullAttention_call (FullAttention_init (Some false) None None None)
           (zeros (1, 4, 1, 1)) (zeros (1, 4, 1, 1)) (zeros (1, 4, 1, 1)) None None) = true.
Proof.
  apply (FullAttention_call_unmasked_shapes
           (FullAttention_init (Some false) None None None)
           (zeros (1, 4, 1, 1)) (zeros (1, 4, 1, 1)) (zeros (1, 4, 1, 1)) None None
           1 4 1 1 1 4 1 1 1 4 1 1);
    try reflexivity.
  repeat split; reflexivity.
Defined.

Lemma row_sum_normalized (g : nat -> R) (s : R) (l : list nat) :
  s <> 0%R ->
  foldr (fun i acc => xadd (xdiv (Fin (g i)) (Fin s)) acc) (Fin 0) l
  = Fin (foldr (fun i acc => (g i + acc)%R) 0%R l / s).
Proof.
  intros Hs. induction l as [|a l IH]; cbn [foldr].
  - f_equal. unfold Rdiv. by rewrite Rmult_0_l.
  - rewrite IH. unfold xdiv. destruct (Req_dec_T s 0) as [?|_]; [done|].
    cbn [xadd]. f_equal. by field.
Qed.

Lemma row_sum_fin (g : nat -> R) (l : list nat) :
  foldr (fun i acc => xadd (Fin (g i)) acc) (Fin 0) l
  = Fin (foldr (fun i acc => (g i + acc)%R) 0%R l).
Proof. induction l as [|a l IH]; cbn [foldr]; [done|]. by rewrite IH. Qed.

Lemma row_max_fin (x : nat -> R) (l : list nat) :
  l <> [] ->
  exists m, foldr (fun i acc => xmax (Fin (x i)) acc) NInf l = Fin m.
Proof.
  induction l as [|a l IH]; [done|]. intros _. cbn [foldr].
  destruct l as [|b l]; [by eexists|].
  destruct IH as [m Hm]; [done|]. rewrite Hm. by eexists.
Qed.

(** Softmax of a row of finite scores: positive weights that add up to 1. *)
Lemma softmax_row_finite (x : nat -> R) (n : nat) :
  0 < n ->
  let f := fun i => Fin (x i) in
  let m := reduce_max n f in
  let e := fun i => xexp (xsub (f i) m) in
  let w := fun i => xdiv (e i) (xsum n e) in
  (forall i, i < n -> exists r, w i = Fin r /\ (0 < r)%R)
  /\ xsum n w = Fin 1.
Proof.
  intros Hn f m e w.
  destruct (row_max_fin x (seq 0 n)) as [mx Hm].
  { destruct n; [lia|done]. }
  assert (Hm' : m = Fin mx) by exact Hm.
  assert (He : forall i, e i = Fin (exp (x i + - mx))).
  { intros i. unfold e, f. by rewrite Hm'. }
  set (g := fun i => exp (x i + - mx)).
  assert (Hsum : xsum n e = Fin (foldr (fun i acc => (g i + acc)%R) 0%R (seq 0 n))).
  { unfold xsum. rewrite <- row_sum_fin. apply foldr_ext; [|done..].
    intros i acc. by rewrite He. }
  set (s := foldr (fun i acc => (g i + acc)%R) 0%R (seq 0 n)) in *.
  assert (Hpos : (0 < s)%R).
  { unfold s. destruct n as [|n]; [lia|]. cbn.
    assert (Hnn : forall l, (0 <= foldr (fun i acc => (g i + acc)%R) 0%R l)%R).
    { induction l as [|a l IH]; cbn; [lra|]. pose proof (exp_pos (x a + - mx)).
      unfold g at 1. lra. }
    pose proof (Hnn (seq 1 n)). pose proof (exp_pos (x 0 + - mx)). unfold g at 1. lra. }
  split.
  - intros i _. unfold w. rewrite He, Hsum. cbn.
    destruct (Req_dec_T s 0) as [?|_]; [lra|].
    eexists. split; [done|]. apply Rdiv_lt_0_compat; [apply exp_pos|done].
  - unfold xsum at 1. unfold w. rewrite Hsum.
    transitivity (foldr (fun i acc => xadd (xdiv (Fin (g i)) (Fin s)) acc) (Fin 0)
                    (seq 0 n)).
    { apply foldr_ext; [|done..]. intros i acc. by rewrite He. }
    rewrite row_sum_normalized by lra. fold s. f_equal. field. lra.
Qed.

(** Without a mask and at inference, the attention weights of every query
    are positive and add up to 1 over the keys. *)
Theorem FullAttention_unmasked_weights
    (self : FullAttention) (queries keys values : tensor R)
    (attn_mask : option TriangularCausalMask) (V A : tensor xreal)
    (B L H E S_ : nat) (b h l : nat) :
  mask_flag self = false ->
  dims queries = (B, L, H, E) ->
  0 < E ->
  0 < S_ ->
  FullAttention_call self queries keys values attn_mask None = Ok (V, Some A) ->
  dims A = (B, H, L, S_) ->
  (forall s, s < S_ -> exists w, at4 A b h l s = Fin w /\ (0 < w)%R)
  /\ xsum S_ (at4 A b h l) = Fin 1.
Proof.
  intros Hflag Hq HE HS Hcall HA.
  unfold FullAttention_call in Hcall. rewrite Hq, Hflag in Hcall.
  destruct (dims values) as [[[B'' S''] H''] D].
  apply bind_ok_inv in Hcall as (scores & Hscores & Hcall).
  cbn [mbind result_bind rbind] in Hcall.
  apply bind_ok_inv in Hcall as (V' & _ & Hcall).
  assert (exists c, effective_scale self E = Fin c) as [c Hc].
  { unfold effective_scale. destruct E; [lia|]. cbn [Nat.eqb].
    destruct (scale self) as [r|]; [destruct (Req_dec_T r 0)|]; eauto. }
  rewrite Hc in Hcall.
  assert (A = softmax (tensor_map (xmul (Fin c)) (tensor_map Fin scores))) as ->.
  { destruct (output_attention self); [|discriminate]. by injection Hcall as _ <-. }
  unfold softmax in *. cbn [dims tensor_map] in *.
  destruct (dims scores) as [[[B1 H1] L1] S1]. cbn [dims] in HA.
  injection HA as -> -> -> ->. cbn [at4].
  apply (softmax_row_finite (fun s => (c * at4 scores b h l s)%R) S_ HS).
Qed.

Lemma example_attention_run_ok :
  example_attention_run = Ok (example_attention_output, Some example_attention_weights).
Proof. reflexivity. Qed.

Lemma FullAttention_unmasked_weights_witness :
  xsum 4 (at4 example_attention_weights 0 0 0) = Fin 1.
Proof.
  apply (FullAttention_unmasked_weights example_attention
           (zeros (1, 4, 1, 1)) (zeros (1, 4, 1, 1)) (zeros (1, 4, 1, 1)) None
           example_attention_output example_attention_weights 1 4 1 1 4 0 0 0).
  - reflexivity.
  - reflexivity.
  - lia.
  - lia.
  - exact example_attention_run_ok.
  - reflexivity.
Defined.

Lemma bidx_lt (n i : nat) : i < n -> bidx n i = i.
Proof. unfold bidx. destruct (Nat.eqb_spec n 1); lia. Qed.

Lemma broadcast_dim_refl (n : nat) : broadcast_dim n n = Some n.
Proof. unfold broadcast_dim. by rewrite Nat.eqb_refl. Qed.

Lemma broadcast_dim_1_l (n : nat) : broadcast_dim 1 n = Some n.
Proof. unfold broadcast_dim. destruct (Nat.eqb_spec 1 n) as [<-|_]; done. Qed.

Lemma xmul_pos_masked (c : R) : (0 < c)%R -> xmul (Fin c) NInf = NInf.
Proof.
  intros Hc. cbn. unfold Rtimes_inf. destruct (Rlt_dec 0 c); [done|lra].
Qed.

(** The weights of a masked run at inference, for a mask of the shape of
    the scores (one head dimension), a positive scale and keys of the
    length of the mask. *)
Lemma masked_weights (self : FullAttention) (queries keys values : tensor R)
    (m : TriangularCausalMask) (V A : tensor xreal) (c : R)
    (B L H E S_ : nat) (b h l : nat) :
  mask_flag self = true ->
  dims queries = (B, L, H, E) ->
  dims keys = (B, S_, H, E) ->
  dims (mask m) = (B, 1, L, S_) ->
  effective_scale self E = Fin c ->
  (0 < c)%R ->
  FullAttention_call self queries keys values (Some m) None = Ok (V, Some A) ->
  b < B -> h < H -> l < L ->
  (forall s, s < S_ -> at4 (mask m) b 0 l s = true ->
             (exists s', s' < S_ /\ at4 (mask m) b 0 l s' = false) ->
             at4 A b h l s = Fin 0)
  /\ (forall s, s < S_ -> at4 (mask m) b 0 l s = false ->
                exists w, at4 A b h l s = Fin w /\ (0 < w)%R)
  /\ ((forall s', s' < S_ -> at4 (mask m) b 0 l s' = true) ->
      forall s, s < S_ -> at4 A b h l s = NaN).
Proof.
  intros Hflag Hq Hk Hm Hc Hpos Hcall Hb Hh Hl.
  unfold FullAttention_call in Hcall. rewrite Hq, Hflag in Hcall.
  destruct (dims values) as [[[B'' S''] H''] D].
  apply bind_ok_inv in Hcall as (scores & Hscores & Hcall).
  unfold einsum_blhe_bshe in Hscores. rewrite Hq, Hk, !Nat.eqb_refl in Hscores.
  injection Hscores as <-.
  cbn [mbind result_bind rbind] in Hcall.
  apply bind_ok_inv in Hcall as (masked & Hmasked & Hcall).
  unfold where_neg_inf, broadcast_dims in Hmasked. rewrite Hm in Hmasked.
  cbn [dims] in Hmasked.
  rewrite !broadcast_dim_refl, broadcast_dim_1_l in Hmasked. injection Hmasked as <-.
  apply bind_ok_inv in Hcall as (V' & _ & Hcall). rewrite Hc in Hcall.
  match type of Hcall with
  | (if _ then Ok (_, Some ?T) else _) = _ => assert (A = T) as ->
  end.
  { destruct (output_attention self); [|discriminate]. by injection Hcall as _ <-. }
  clear Hcall. cbn [dropout softmax tensor_map dims at4].
  set (f := fun s : nat => xmul (Fin c) _).
  assert (Hf : forall s, s < S_ ->
             f s = if at4 (mask m) b 0 l s then NInf
                   else Fin (c * Rsum E (fun e => at4 queries b l h e * at4 keys b s h e))%R).
  { intros s Hs. unfold f, at_broadcast. rewrite Hm. cbn [dims at4].
    rewrite !(bidx_lt B b), !(bidx_lt L l), !(bidx_lt S_ s), (bidx_lt H h) by done.
    change (bidx 1 h) with 0.
    destruct (at4 (mask m) b 0 l s); [by apply xmul_pos_masked|done]. }
  assert (Hrow : forall s, s < S_ -> masked_or_finite (f s)).
  { intros s Hs. rewrite (Hf s Hs). destruct (at4 (mask m) b 0 l s); [by left|right; eauto]. }
  split; [|split].
  - intros s Hs Hmask (s' & Hs' & Hfree).
    pose proof (Hf s' Hs') as Hfs'. rewrite Hfree in Hfs'.
    destruct (softmax_row f S_ s' _ Hrow Hs' Hfs') as [_ Hzero].
    apply Hzero; [done|]. rewrite (Hf s Hs), Hmask. done.
  - intros s Hs Hfree.
    pose proof (Hf s Hs) as Hfs. rewrite Hfree in Hfs.
    by destruct (softmax_row f S_ s _ Hrow Hs Hfs) as [Hw _].
  - intros Hall s Hs. apply (softmax_row_all_masked f S_ s); [|done].
    intros k Hlt. by rewrite (Hf k Hlt), (Hall k Hlt).
Qed.

(** With a mask supplied, at inference and with a positive scale: a masked
    key gets the weight 0 exactly whenever the query has some unmasked key,
    an unmasked key gets a positive weight, and a query whose keys are all
    masked gets NaN weights. *)
Theorem FullAttention_explicit_mask_weights
    (self : FullAttention) (queries keys values : tensor R)
    (m : TriangularCausalMask) (V A : tensor xreal) (c : R)
    (B L H E S_ : nat) (b h l : nat) :
  mask_flag self = true ->
  dims queries = (B, L, H, E) ->
  dims keys = (B, S_, H, E) ->
  dims (mask m) = (B, 1, L, S_) ->
  effective_scale self E = Fin c ->
  (0 < c)%R ->
  FullAttention_call self queries keys values (Some m) None = Ok (V, Some A) ->
  b < B -> h < H -> l < L ->
  (forall s, s < S_ -> at4 (mask m) b 0 l s = true ->
             (exists s', s' < S_ /\ at4 (mask m) b 0 l s' = false) ->
             at4 A b h l s = Fin 0)
  /\ (forall s, s < S_ -> at4 (mask m) b 0 l s = false ->
                exists w, at4 A b h l s = Fin w /\ (0 < w)%R)
  /\ ((forall s', s' < S_ -> at4 (mask m) b 0 l s' = true) ->
      forall s, s < S_ -> at4 A b h l s = NaN).
Proof. apply masked_weights. Qed.

Lemma example_masked_run_ok :
  example_masked_run = Ok (example_masked_output, Some example_masked_weights).
Proof. reflexivity. Qed.

Lemma example_scale_positive :
  effective_scale example_masked_attention 1 = Fin (1 / sqrt (INR 1)) /\
  (0 < 1 / sqrt (INR 1))%R.
Proof. split; [reflexivity|]. cbn [INR]. rewrite sqrt_1. lra. Qed.

Lemma FullAttention_explicit_mask_weights_witness :
  exists w, at4 example_masked_weights 0 0 0 1 = Fin w /\ (0 < w)%R.
Proof.
  refine (proj1 (proj2 (FullAttention_explicit_mask_weights example_masked_attention
           (zeros (1, 4, 1, 1)) (zeros (1, 4, 1, 1)) (zeros (1, 4, 1, 1))
           example_causal_mask example_masked_output example_masked_weights
           (1 / sqrt (INR 1)) 1 4 1 1 4 0 0 0 _ _ _ _ _ _ _ _ _ _)) 1 _ _).
  - reflexivity.
  - reflexivity.
  - reflexivity.
  - reflexivity.
  - apply example_scale_positive.
  - apply example_scale_positive.
  - exact example_masked_run_ok.
  - lia.
  - lia.
  - lia.
  - lia.
  - reflexivity.
Defined.

Lemma TriangularCausalMask_init_ok (B L : nat) (m : TriangularCausalMask) :
  TriangularCausalMask_init [PyInt (Z.of_nat B); PyInt (Z.of_nat L)] [] = Ok m ->
  dims (mask m) = (B, 1, L, L)
  /\ forall b h i j, at4 (mask m) b h i j = bool_decide (j <= i).
Proof.
  intros [= <-]. cbn [mask _mask band_part ones dims at4]. rewrite !Nat2Z.id.
  split; [done|]. intros b h i j. unfold in_band. cbn [Z.ltb Z.compare orb andb].
  rewrite andb_true_r. case_bool_decide; [apply Z.leb_le|apply Z.leb_gt]; lia.
Qed.

(** What the mask of [TriangularCausalMask(B, L)] does when it is handed to
    [FullAttention] for self-attention over [L] positions: every query but
    the last gives weight 0 to the positions up to its own and positive
    weights to the later ones, and the last query gets NaN weights. *)
Theorem TriangularCausalMask_masks_past
    (self : FullAttention) (queries keys values : tensor R)
    (m : TriangularCausalMask) (V A : tensor xreal) (c : R)
    (B L H E : nat) (b h i j : nat) :
  TriangularCausalMask_init [PyInt (Z.of_nat B); PyInt (Z.of_nat L)] [] = Ok m ->
  mask_flag self = true ->
  dims queries = (B, L, H, E) ->
  dims keys = (B, L, H, E) ->
  effective_scale self E = Fin c ->
  (0 < c)%R ->
  FullAttention_call self queries keys values (Some m) None = Ok (V, Some A) ->
  b < B -> h < H -> i < L -> j < L ->
  (i + 1 < L -> j <= i -> at4 A b h i j = Fin 0)
  /\ (i < j -> exists w, at4 A b h i j = Fin w /\ (0 < w)%R)
  /\ (i + 1 = L -> at4 A b h i j = NaN).
Proof.
  intros Hinit Hflag Hq Hk Hc Hpos Hcall Hb Hh Hi Hj.
  apply TriangularCausalMask_init_ok in Hinit as [Hdims Hmask].
  destruct (masked_weights self queries keys values m V A c B L H E L b h i
              Hflag Hq Hk Hdims Hc Hpos Hcall Hb Hh Hi) as (Hzero & Hposw & Hnan).
  split; [|split].
  - intros Hlast Hle. apply Hzero; [done|..].
    + rewrite Hmask. by apply bool_decide_eq_true_2.
    + exists (i + 1). split; [done|]. rewrite Hmask. apply bool_decide_eq_false_2. lia.
  - intros Hlt. apply Hposw; [done|]. rewrite Hmask. apply bool_decide_eq_false_2. lia.
  - intros Hlast. apply Hnan; [|done]. intros s' Hs'. rewrite Hmask.
    apply bool_decide_eq_true_2. lia.
Qed.

Lemma TriangularCausalMask_masks_past_witness :
  at4 example_masked_weights 0 0 1 0 = Fin 0
  /\ at4 example_masked_weights 0 0 3 2 = NaN.
Proof.
  split.
  - apply (TriangularCausalMask_masks_past example_masked_attention
             (zeros (1, 4, 1, 1)) (zeros (1, 4, 1, 1)) (zeros (1, 4, 1, 1))
             example_causal_mask example_masked_output example_masked_weights
             (1 / sqrt (INR 1)) 1 4 1 1 0 0 1 0);
      try reflexivity; try lia; apply example_scale_positive.
  - apply (TriangularCausalMask_masks_past example_masked_attention
             (zeros (1, 4, 1, 1)) (zeros (1, 4, 1, 1)) (zeros (1, 4, 1, 1))
             example_causal_mask example_masked_output example_masked_weights
             (1 / sqrt (INR 1)) 1 4 1 1 0 0 3 2);
      try reflexivity; try lia; apply example_scale_positive.
Defined.

(** * Further properties of the encoders *)

Lemma sum_list_affine (m sc : R) (l : list R) :
  foldr Rplus 0%R ((fun v => (v - m) / sc)%R <$> l)
  = ((foldr Rplus 0%R l - INR (length l) * m) / sc)%R.
Proof.
  induction l as [|a l IH].
  - cbn. lra.
  - rewrite fmap_cons. cbn [foldr]. rewrite IH.
    change (length (a :: l)) with (S (length l)). rewrite S_INR. unfold Rdiv. ring.
Qed.

Lemma series_sum_fmap (f : R -> R) (s : gmap Z R) :
  series_sum (f <$> s) = foldr Rplus 0%R (f <$> (map_to_list s).*2).
Proof.
  rewrite series_sum_list, map_to_list_fmap, <- !list_fmap_compose. done.
Qed.

Lemma series_sum_standardized (m sc : R) (s : gmap Z R) :
  series_sum ((fun v => (v - m) / sc)%R <$> s)
  = ((series_sum s - INR (size s) * m) / sc)%R.
Proof.
  rewrite series_sum_fmap, sum_list_affine, <- series_sum_list.
  by rewrite length_fmap, length_map_to_list.
Qed.

Lemma sum_list_scaled_squares (m sc : R) (l : list R) :
  foldr Rplus 0%R ((fun v => ((v - m) / sc - 0) * ((v - m) / sc - 0))%R <$> l)
  = (foldr Rplus 0%R ((fun v => (v - m) * (v - m))%R <$> l) / (sc * sc))%R.
Proof.
  destruct (Req_dec_T sc 0) as [->|Hsc].
  - induction l as [|a l IH]; cbn.
    + unfold Rdiv. ring.
    + rewrite IH. unfold Rdiv. rewrite Rmult_0_l, Rinv_0. ring.
  - induction l as [|a l IH]; cbn.
    + unfold Rdiv. ring.
    + rewrite IH. by field.
Qed.

Lemma sum_list_squares_nonneg (m : R) (l : list R) :
  (0 <= foldr Rplus 0%R ((fun v => (v - m) * (v - m))%R <$> l))%R.
Proof.
  induction l as [|a l IH]; cbn; [lra|].
  pose proof (Rle_0_sqr (a - m)) as H. unfold Rsqr in H. lra.
Qed.

(** A standardized series: same rows, mean 0 and, unless the series is
    constant, variance 1; a constant series becomes 0 everywhere. *)
Lemma standardize_moments (s : gmap Z R) (m sc : R) :
  nanmean s = Some m ->
  nanstd_scale s = Some sc ->
  let out := standardize (Some m) (Some sc) s in
  dom out = dom s
  /\ nanmean out = Some 0%R
  /\ (nanvar s <> Some 0%R -> nanvar out = Some 1%R)
  /\ (nanvar s = Some 0%R -> forall t v, out !! t = Some v -> v = 0%R).
Proof.
  intros Hm Hsc out. unfold out, standardize. clear out.
  set (f := fun v : R => ((v - m) / sc)%R).
  assert (Hsz : size s <> 0).
  { unfold nanmean in Hm. destruct (size s =? 0) eqn:E; [discriminate|].
    by apply Nat.eqb_neq. }
  assert (Hn : INR (size s) <> 0%R) by (by apply not_0_INR).
  assert (Hm' : m = (series_sum s / INR (size s))%R).
  { unfold nanmean in Hm. destruct (size s =? 0); [discriminate|]. by injection Hm. }
  set (n := INR (size s)) in *.
  set (var := (series_sum ((fun v => (v - m) * (v - m))%R <$> s) / n)%R).
  assert (Hnv : nanvar s = Some var).
  { unfold nanvar. rewrite Hm. reflexivity. }
  assert (Hsc' : sc = handle_zeros_in_scale (sqrt var)).
  { unfold nanstd_scale in Hsc. rewrite Hnv in Hsc. by injection Hsc. }
  assert (Hvar : (0 <= var)%R).
  { unfold var. rewrite series_sum_fmap.
    apply Rmult_le_pos; [apply sum_list_squares_nonneg|].
    left. apply Rinv_0_lt_compat. unfold n. apply lt_0_INR. lia. }
  assert (Hmean : series_sum (f <$> s) = 0%R).
  { unfold f. rewrite series_sum_standardized. fold n. rewrite Hm'. unfold Rdiv.
    replace (series_sum s - n * (series_sum s * / n))%R with 0%R; [ring|]. by field. }
  assert (Hmo : nanmean (f <$> s) = Some 0%R).
  { unfold nanmean. rewrite map_size_fmap.
    destruct (size s =? 0) eqn:E; [by apply Nat.eqb_eq in E|].
    rewrite Hmean. f_equal. unfold Rdiv. ring. }
  split; [apply dom_fmap_L|]. split; [exact Hmo|]. split.
  - intros Hne. unfold nanvar. rewrite Hmo. cbn [mbind option_bind]. f_equal.
    assert (Hv0 : var <> 0%R) by (intros H0; apply Hne; by rewrite Hnv, H0).
    assert (Hs : sc = sqrt var).
    { rewrite Hsc'. unfold handle_zeros_in_scale.
      destruct (Req_dec_T (sqrt var) 0) as [H0|_]; [|done].
      apply sqrt_eq_0 in H0; [done|lra]. }
    rewrite map_size_fmap, <- map_fmap_compose, series_sum_fmap.
    unfold compose, f.
    rewrite sum_list_scaled_squares, <- series_sum_fmap.
    rewrite Hs, sqrt_sqrt by lra.
    fold n. unfold var. field. split; [done|].
    intros H0. apply Hv0. unfold var. rewrite H0. unfold Rdiv. ring.
  - intros Hzero t v Hlook. rewrite Hnv in Hzero. injection Hzero as Hzero.
    rewrite lookup_fmap in Hlook.
    destruct (s !! t) as [x|] eqn:Hx; [|discriminate]. injection Hlook as <-.
    assert (Hxm : x = m).
    { assert (Hs0 : series_sum ((fun v => (v - m) * (v - m))%R <$> s) = 0%R).
      { unfold var in Hzero. apply (Rmult_eq_compat_r n) in Hzero.
        unfold Rdiv in Hzero. rewrite Rmult_assoc, Rinv_l, Rmult_1_r, Rmult_0_l in Hzero;
          done. }
      rewrite series_sum_fmap in Hs0.
      assert (Hin : x ∈ (map_to_list s).*2).
      { apply list_elem_of_fmap. exists (t, x). split; [done|].
        by apply elem_of_map_to_list. }
      revert Hs0 Hin. generalize ((map_to_list s).*2). intros l.
      induction l as [|a l IH]; intros Hs0 Hin; [inversion Hin|].
      cbn in Hs0. pose proof (sum_list_squares_nonneg m l) as Hl.
      pose proof (Rle_0_sqr (a - m)) as Ha. unfold Rsqr in Ha.
      apply elem_of_cons in Hin as [->|Hin].
      - assert ((a - m) * (a - m) = 0)%R as H by lra.
        apply Rmult_integral in H. lra.
      - apply IH; [lra|done]. }
    unfold f. rewrite Hxm. unfold Rdiv. ring.
Qed.

Lemma zip_standardize_fit (cols : list (string * gmap Z R)) :
  zip cols.*1
    (zip_with (fun (c : string * gmap Z R) (p : option R * option R) =>
                 standardize p.1 p.2 c.2)
       cols (zip ((fun c : string * gmap Z R => nanmean c.2) <$> cols)
                 ((fun c : string * gmap Z R => nanstd_scale c.2) <$> cols)))
  = (fun c : string * gmap Z R =>
       (c.1, standardize (nanmean c.2) (nanstd_scale c.2) c.2)) <$> cols.
Proof. induction cols as [|c cols IH]; [done|]. cbn. by rewrite <- IH. Qed.

Lemma nanmean_None (s : gmap Z R) : nanmean s = None <-> s = ∅.
Proof.
  unfold nanmean. destruct (size s =? 0) eqn:E.
  - apply Nat.eqb_eq, map_size_empty_iff in E. by split.
  - apply Nat.eqb_neq in E. split; [discriminate|].
    intros ->. by rewrite map_size_empty in E.
Qed.

Section EncoderProperties.

Context {model layer : Type}.
Variable build_autoencoder : nat -> model.
Variable train_model : DataFrame -> model -> option string -> model * model.
Variable get_layer_encoder : model -> layer.
Variable predict : layer -> DataFrame -> result (list (gmap Z R)).

Abbreviation store_t := (gmap string (artifact (model := model))) (only parsing).
Abbreviation fit_encoder' :=
  (fit_encoder build_autoencoder train_model get_layer_encoder) (only parsing).
Abbreviation load_encoder' := (load_encoder get_layer_encoder) (only parsing).
Abbreviation encode' := (encode get_layer_encoder predict) (only parsing).
Abbreviation fit_and_encode' :=
  (fit_and_encode build_autoencoder train_model get_layer_encoder predict) (only parsing).
Abbreviation encoder_encode_data' :=
  (encoder_encode_data (layer := layer) predict) (only parsing).

(** What fitting a scaler-backed encoder (weather, labels) on a table
    gives: the fitted scaler, written under the encoder's file name. *)
Lemma fit_encoder_scaler_inv (self : BaseEncoder) (data : pydata) (store store' : store_t)
    (encoder : encoder_obj (layer := layer)) :
  is_autoencoder (class_ self) = false ->
  fit_encoder' self data store = Ok (encoder, store') ->
  (truthy_filename self = None /\ encoder = PyNone /\ store' = store)
  \/ exists f df sc,
       truthy_filename self = Some f /\ data = FrameData df
       /\ StandardScaler_fit df = Ok sc
       /\ encoder = Scaler sc /\ store' = <[f := ScalerFile sc]> store.
Proof.
  intros Hauto. unfold fit_encoder. rewrite Hauto.
  destruct (truthy_filename self) as [f|]; [|intros [= <- <-]; by left].
  destruct data as [idx|df]; [discriminate|].
  intros H. apply bind_ok_inv in H as (sc & Hsc & [= <- <-]).
  right. by exists f, df, sc.
Qed.

(** [LabelEncoder.fit_and_encode] standardizes column by column: the frame
    keeps its index and column names; a column keeps its rows, gets mean 0
    and, unless it is constant, variance 1; a constant column becomes 0. *)
Theorem LabelEncoder_fit_and_encode_standardizes
    (self : BaseEncoder) (df d : DataFrame) (store store' : store_t) :
  class_ self = LabelEncoder ->
  fit_and_encode' self (FrameData df) store = Ok (d, store') ->
  index d = index df
  /\ column_names d = column_names df
  /\ forall i col,
       columns df !! i = Some col ->
       exists out,
         columns d !! i = Some (col.1, out)
         /\ dom out = dom col.2
         /\ (col.2 <> ∅ ->
             nanmean out = Some 0%R
             /\ (nanvar col.2 <> Some 0%R -> nanvar out = Some 1%R)
             /\ (nanvar col.2 = Some 0%R -> forall t v, out !! t = Some v -> v = 0%R)).
Proof.
  intros Hcls H. unfold fit_and_encode in H.
  apply bind_ok_inv in H as ([enc st] & Hfit & H).
  apply bind_ok_inv in H as (d' & Hd & [= <- <-]).
  apply fit_encoder_scaler_inv in Hfit; [|by rewrite Hcls].
  unfold encoder_encode_data in Hd. rewrite Hcls in Hd.
  unfold LabelEncoder_encode_data in Hd. cbn [as_frame mbind result_bind rbind] in Hd.
  destruct Hfit as [(_ & -> & _)|(f & df' & sc & _ & [= <-] & Hsc & -> & _)];
    [discriminate|].
  cbn [as_scaler mbind result_bind rbind] in Hd.
  apply bind_ok_inv in Hd as (array & Harr & Hd).
  unfold StandardScaler_fit in Hsc. apply bind_ok_inv in Hsc as (u & _ & [= <-]).
  unfold StandardScaler_transform in Harr. cbn [n_features_in_ mean_ scale_] in Harr.
  apply bind_ok_inv in Harr as (u0 & _ & Harr).
  apply bind_ok_inv in Harr as (u' & _ & Harr).
  rewrite Nat.eqb_refl in Harr. injection Harr as <-.
  unfold DataFrame_of_array in Hd.
  destruct (_ =? _); [|discriminate]. injection Hd as <-.
  unfold column_names. cbn [index columns].
  rewrite zip_standardize_fit. split; [done|]. split.
  { rewrite <- list_fmap_compose. done. }
  intros i col Hcol. rewrite list_lookup_fmap, Hcol. cbn.
  eexists. split; [done|].
  destruct (nanmean col.2) as [m|] eqn:Hm.
  - assert (exists sc, nanstd_scale col.2 = Some sc) as [sc Hsc].
    { unfold nanstd_scale, nanvar. rewrite Hm. cbn. eauto. }
    rewrite Hsc.
    destruct (standardize_moments col.2 m sc Hm Hsc) as (Hdom & Hmean & Hv1 & Hv0).
    split; [done|]. by intros _.
  - apply nanmean_None in Hm. rewrite Hm. cbn. split; [|done].
    by rewrite !dom_empty_L.
Qed.


(** Fitting a scaler-backed encoder and loading it again: [load_encoder]
    returns the scaler [fit_encoder] returned, [encode] gives the frame
    [fit_and_encode] gave, and no other file of the store is touched. *)
Theorem fit_then_load_round_trip (self : BaseEncoder) (df d : DataFrame)
    (store store' : store_t) (f : string) :
  is_autoencoder (class_ self) = false ->
  truthy_filename self = Some f ->
  fit_and_encode' self (FrameData df) store = Ok (d, store') ->
  (exists encoder,
      fit_encoder' self (FrameData df) store = Ok (encoder, store')
      /\ load_encoder' self store' = Ok encoder)
  /\ encode' self (FrameData df) store' = Ok d
  /\ forall g, g <> f -> store' !! g = store !! g.
Proof.
  intros Hauto Hf H. unfold fit_and_encode in H.
  apply bind_ok_inv in H as ([enc st] & Hfit & H).
  apply bind_ok_inv in H as (d' & Hd & [= <- <-]).
  pose proof Hfit as Hfit'.
  apply fit_encoder_scaler_inv in Hfit'; [|done].
  destruct Hfit' as [(Hnone & _)|(f' & df' & sc & Hf' & _ & _ & -> & ->)];
    [congruence|].
  assert (f' = f) as -> by congruence.
  assert (Hload : load_encoder' self (<[f := ScalerFile sc]> store) = Ok (Scaler sc)).
  { unfold load_encoder, joblib_load. rewrite Hauto, Hf, lookup_insert_eq. done. }
  split; [|split].
  - eexists. split; [exact Hfit|exact Hload].
  - unfold encode. rewrite Hload. exact Hd.
  - intros g Hg. by rewrite lookup_insert_ne.
Qed.

(** [TemporalEncoder] has no state: fitting writes nothing and returns no
    encoder, loading needs no artifact, and [encode] and [fit_and_encode]
    give the same frame on every store. *)
Theorem TemporalEncoder_stateless (idx : gset Z) (store : store_t) :
  let self := new_encoder TemporalEncoder in
  fit_encoder' self (IndexData idx) store = Ok (PyNone, store)
  /\ load_encoder' self store = Ok PyNone
  /\ exists d,
       encode' self (IndexData idx) store = Ok d
       /\ fit_and_encode' self (IndexData idx) store = Ok (d, store)
       /\ index d = idx
       /\ length (columns d) = size (set_map (D := gset Z) year idx) + 8.
Proof.
  intros self. split; [done|]. split; [done|].
  eexists. split; [reflexivity|]. split; [reflexivity|]. split; [done|].
  cbn [columns]. rewrite !length_app. unfold get_dummies_year.
  rewrite length_fmap, merge_sort_Permutation.
  change (length (elements ?X)) with (size X). cbn. lia.
Qed.

Lemma get_series_tabulate_inj {A} (idx : gset Z) (N : A -> string) (F : A -> gmap Z R)
    (xs : list A) (x : A) :
  (forall a b, N a = N b -> a = b) ->
  x ∈ xs ->
  get_series {| index := idx; columns := (fun a => (N a, F a)) <$> xs |} (N x) = F x.
Proof.
  intros Hinj Hin. unfold get_series. cbn [columns].
  induction xs as [|a xs IH]; [inversion Hin|]. cbn.
  destruct (decide (N a = N x)) as [Heq|Hne]; [by rewrite (Hinj _ _ Heq)|].
  apply elem_of_cons in Hin as [->|Hin]; [done|].
  specialize (IH Hin). destruct (list_find _ _) as [[? ?]|]; exact IH.
Qed.

(** The year columns of the datetime group are a one-hot code: in the row
    of [t] the column of the year of [t] holds 1 and the column of every
    other year of the index holds 0. *)
Theorem TemporalEncoder_year_one_hot (idx : gset Z) (d : DataFrame) (t : Z) :
  TemporalEncoder_encode_data (IndexData idx) = Ok d ->
  t ∈ idx ->
  value d t ("year_" +:+ pretty (year t)) = Some 1%R
  /\ forall t', t' ∈ idx -> year t' <> year t ->
               value d t ("year_" +:+ pretty (year t')) = Some 0%R.
Proof.
  intros [= <-] Ht.
  assert (Hy : forall t', t' ∈ idx ->
             value {| index := idx;
                      columns := get_dummies_year idx
                        ++ SineCosineEncoder.create_encoding (index_field month idx) "month" 12
                        ++ SineCosineEncoder.create_encoding (index_field day idx) "day" 31
                        ++ SineCosineEncoder.create_encoding (index_field dayofweek idx)
                             "weekday" 7
                        ++ SineCosineEncoder.create_encoding (index_field hour idx) "hour" 24 |}
               t ("year_" +:+ pretty (year t'))
             = Some (if bool_decide (year t = year t') then 1%R else 0%R)).
  { intros t' Ht'. unfold value.
    assert (Hin : year t' ∈ merge_sort Z.le (elements (set_map (D := gset Z) year idx))).
    { rewrite merge_sort_Permutation, elem_of_elements, elem_of_map. eauto. }
    rewrite (get_series_app_l idx idx).
    - unfold get_dummies_year.
      rewrite (get_series_tabulate_inj idx (fun y : Z => "year_" +:+ pretty y)).
      + apply lookup_set_to_map; [by intros y1 y2 _ _ [= ->]|]. eauto.
      + intros a b Hab. apply (inj (String.append "year_")) in Hab.
        by apply (inj pretty) in Hab.
      + exact Hin.
    - unfold get_dummies_year. rewrite <- list_fmap_compose.
      apply list_elem_of_fmap. exists (year t'). split; [done|exact Hin]. }
  split.
  - etransitivity; [exact (Hy t Ht)|]. by rewrite bool_decide_eq_true_2.
  - intros t' Ht' Hne. etransitivity; [exact (Hy t' Ht')|].
    by rewrite bool_decide_eq_false_2.
Qed.

Lemma getitem_KeyError (df : DataFrame) (name : string) :
  name ∉ column_names df -> getitem df name = Raise (KeyError name).
Proof.
  intros Hn. unfold getitem. apply filter_name_nil in Hn.
  unfold column_names in *. by rewrite Hn.
Qed.

Lemma zip_fst_same_length {A B} (l : list A) (k : list B) :
  length k = length l -> (zip l k).*1 = l.
Proof.
  revert k. induction l as [|a l IH]; intros [|b k] Hlen; try done.
  cbn. f_equal. apply IH. by injection Hlen.
Qed.

(** [WeatherEncoder._encode_data]: a table without the column
    'wind_direction' is a [KeyError]; otherwise the result has the index of
    the table, the sine and cosine columns of the wind direction first and
    then the other columns of the table in their order, 'wind_direction'
    itself being dropped. *)
Theorem WeatherEncoder_encode_data_columns (df : DataFrame) (sc : StandardScaler) :
  ("wind_direction" ∉ column_names df ->
   WeatherEncoder_encode_data (layer := layer) (FrameData df) (Scaler sc)
   = Raise (KeyError "wind_direction"))
  /\ forall d,
       WeatherEncoder_encode_data (layer := layer) (FrameData df) (Scaler sc) = Ok d ->
       index d = index df
       /\ column_names d
          = ["wind_direction_sine_encoding"; "wind_direction_cosine_encoding"]
            ++ filter (fun name => name <> "wind_direction") (column_names df).
Proof.
  unfold WeatherEncoder_encode_data. cbn [as_frame as_scaler mbind result_bind rbind].
  split.
  - intros Hn. by rewrite (getitem_KeyError _ _ Hn).
  - intros d H.
    apply bind_ok_inv in H as (wind & _ & H).
    apply bind_ok_inv in H as (array & Harr & H).
    apply bind_ok_inv in H as (encoding & Henc & H).
    unfold DataFrame_of_array in Henc.
    destruct (length array =? length (column_names df)) eqn:Hlen; [|discriminate].
    apply Nat.eqb_eq in Hlen. injection Henc as <-.
    unfold drop_column in H. case_bool_decide; [|discriminate]. injection H as <-.
    cbn [index concat_columns columns].
    split.
    + cbn [fmap list_fmap index union_list foldr].
      by rewrite (right_id_L ∅ (∪)), (idemp_L (∪)).
    + unfold column_names. cbn [columns mbind list_bind]. rewrite app_nil_r.
      unfold SineCosineEncoder.create_encoding.
      change ([?a; ?b] ++ ?l) with (a :: b :: l).
      rewrite !filter_cons_True by done. cbn [fmap list_fmap fst].
      do 2 f_equal.
      rewrite <- (zip_fst_same_length (columns df).*1 array) at 2 by done.
      generalize (zip (columns df).*1 array). intros l.
      induction l as [|c l IH]; [done|]. cbn [fmap list_fmap].
      rewrite !filter_cons. destruct (decide (c.1 <> "wind_direction")); cbn; by rewrite IH.
Qed.

Ltac list_member :=
  solve [repeat first [apply list_elem_of_here | apply list_elem_of_further]].

Lemma lookup_restrict (keep : gset Z) (s : gmap Z R) (t : Z) :
  t ∈ keep -> filter (fun kv : Z * R => kv.1 ∈ keep) s !! t = s !! t.
Proof.
  intros Hin. destruct (s !! t) as [v|] eqn:Hv.
  - by apply map_lookup_filter_Some.
  - apply map_lookup_filter_None. by left.
Qed.

Lemma row_restrict_rows (keep : gset Z) (df : DataFrame) (t : Z) :
  t ∈ keep -> row (restrict_rows keep df) t = row df t.
Proof.
  intros Hin. unfold row, restrict_rows, map_series. cbn [columns].
  rewrite <- list_fmap_compose. apply list_fmap_ext. intros i c _. cbn.
  by apply lookup_restrict.
Qed.

Lemma complete_at_row (df : DataFrame) (t : Z) :
  complete_at df t <-> Forall is_Some (row df t).
Proof. unfold complete_at, row. by rewrite Forall_fmap. Qed.

Lemma row_concat_columns (frames : list DataFrame) (t : Z) :
  row (concat_columns frames) t = frames ≫= (fun df => row df t).
Proof.
  unfold row, concat_columns. cbn [columns].
  induction frames as [|df frames IH]; [done|]. cbn. by rewrite fmap_app, IH.
Qed.

Lemma column_names_concat_columns (frames : list DataFrame) :
  column_names (concat_columns frames) = frames ≫= column_names.
Proof.
  unfold column_names, concat_columns. cbn [columns].
  induction frames as [|df frames IH]; [done|]. cbn. by rewrite fmap_app, IH.
Qed.

Lemma column_names_dropna (df : DataFrame) : column_names (dropna df) = column_names df.
Proof. unfold column_names, dropna, restrict_rows. cbn [columns]. apply column_names_map_series. Qed.

(** The matrix [fit_and_encode] and [encode] return: its columns are those
    of the encoded groups in the order sales, datetime, weather, ferien,
    fahrten, labels; a row of it has no missing value and is the row of the
    six groups at that timestamp, side by side. *)
Theorem encoded_matrix_layout (table : DataFrame) (dp : DataProcessor) (fit : bool)
    (store store' : store_t) (M : DataFrame) :
  DataProcessor_init table = Ok dp ->
  _encode_data build_autoencoder train_model get_layer_encoder predict dp fit store
  = Ok (M, store') ->
  exists d_dt d_w d_fe d_fa d_l d_s,
    encode_items build_autoencoder train_model get_layer_encoder predict
      dp fit (data dp) [] store
    = Ok ([("datetime", d_dt); ("weather", d_w); ("ferien", d_fe); ("fahrten", d_fa);
           ("labels", d_l); ("sales", d_s)], store')
    /\ column_names M
       = column_names d_s ++ column_names d_dt ++ column_names d_w
         ++ column_names d_fe ++ column_names d_fa ++ column_names d_l
    /\ index M ⊆ index table
    /\ forall t, t ∈ index M ->
                 Forall is_Some (row M t)
                 /\ row M t = row d_s t ++ row d_dt t ++ row d_w t
                              ++ row d_fe t ++ row d_fa t ++ row d_l t.
Proof.
  intros Hinit Hrun.
  destruct (encode_data_inv _ _ _ _ _ _ _ _ _ _ Hinit Hrun)
    as (weather & ferien & fahrten & labels & d_dt & d_w & d_fe & d_fa & d_l & d_s
        & s1 & s2 & s3 & s4 & s5 & _ & _ & _ & _ & Hdt & _ & _ & _ & _ & _ & Hitems & ->).
  exists d_dt, d_w, d_fe, d_fa, d_l, d_s. split; [exact Hitems|].
  split; [|split].
  - rewrite column_names_dropna, column_names_concat_columns. cbn.
    by rewrite app_nil_r.
  - intros t Ht. apply (elem_of_index_dropna train_model) in Ht as [_ Hc].
    rewrite complete_at_concat in Hc.
    apply temporal_inv in Hdt as [_ Hdt].
    destruct (temporal_complete _ _ t Hdt) as [_ Hiff].
    apply Hiff, Hc. list_member.
  - intros t Ht. pose proof Ht as Ht'.
    apply (elem_of_index_dropna train_model) in Ht' as [_ Hc].
    unfold dropna. rewrite row_restrict_rows by exact Ht.
    split; [by apply complete_at_row|].
    rewrite row_concat_columns. cbn. by rewrite app_nil_r.
Qed.




End EncoderProperties.

(** ** Instances of the encoder properties *)

Lemma example_label_run_ok :
  example_label_run
  = Ok ((result_value example_label_run ({| index := ∅; columns := [] |}, ∅)).1,
        (result_value example_label_run ({| index := ∅; columns := [] |}, ∅)).2).
Proof. apply ok_result_value. reflexivity. Qed.



Lemma LabelEncoder_fit_and_encode_standardizes_witness :
  exists out,
    columns (result_value example_label_run ({| index := ∅; columns := [] |}, ∅)).1 !! 0
    = Some ("10", out)
    /\ nanmean out = Some 0%R.
Proof.
  destruct (LabelEncoder_fit_and_encode_standardizes
              example_build_autoencoder example_train_model example_get_layer
              example_predict (new_encoder LabelEncoder) example_labels _ ∅ _
              eq_refl example_label_run_ok) as (_ & _ & Hcols).
  destruct (Hcols 0 ("10", {[ 0%Z := 3%R; 86400%Z := 5%R ]}) eq_refl)
    as (out & Hout & _ & Hmom).
  exists out. split; [exact Hout|]. apply Hmom.
  intros Hempty. apply (f_equal (fun m : gmap Z R => m !! 0%Z)) in Hempty.
  discriminate Hempty.
Defined.

Lemma fit_then_load_round_trip_witness :
  encode example_get_layer example_predict (new_encoder LabelEncoder)
    (FrameData example_labels)
    (result_value example_label_run ({| index := ∅; columns := [] |}, ∅)).2
  = Ok (result_value example_label_run ({| index := ∅; columns := [] |}, ∅)).1.
Proof.
  apply (fit_then_load_round_trip
           example_build_autoencoder example_train_model example_get_layer
           example_predict (new_encoder LabelEncoder) example_labels _ ∅ _
           "saved_models/label_encoding.save" eq_refl eq_refl example_label_run_ok).
Defined.

Lemma TemporalEncoder_year_one_hot_witness :
  exists d,
    TemporalEncoder_encode_data (IndexData {[ 0%Z; 86400%Z ]}) = Ok d
    /\ value d 0 "year_1970" = Some 1%R.
Proof.
  eexists. split; [reflexivity|].
  apply (TemporalEncoder_year_one_hot {[ 0%Z; 86400%Z ]} _ 0%Z eq_refl).
  apply (bool_decide_unpack _). vm_compute. exact I.
Defined.

Lemma encoded_matrix_layout_witness : index example_matrix ⊆ index example_table.
Proof.
  destruct (encoded_matrix_layout
              example_build_autoencoder example_train_model example_get_layer
              example_predict example_table example_processor true ∅ example_store
              example_matrix example_processor_init example_run_ok)
    as (d_dt & d_w & d_fe & d_fa & d_l & d_s & _ & _ & Hsub & _).
  exact Hsub.
Defined.



(** * Further properties of the source merger *)

Lemma load_sources_raises_missing (self : DataProvider) (fs : gmap string DataFrame)
    (keys : list string) (key : string) :
  key ∈ keys ->
  fs !! (path_join (data_directory self) key +:+ ".csv") = None ->
  exists path, load_sources self fs keys = Raise (FileNotFoundError path).
Proof.
  intros Hin Hnone. induction keys as [|k keys IH]; [inversion Hin|].
  cbn [load_sources]. unfold load_source, read_csv.
  destruct (fs !! (path_join (data_directory self) k +:+ ".csv")) as [db|] eqn:Hdb.
  - cbn [mbind result_bind rbind].
    apply elem_of_cons in Hin as [->|Hin]; [congruence|].
    destruct (IH Hin) as [path Hp]. exists path.
    destruct (fs !! ("data/new_data/" +:+ k +:+ ".csv"));
      cbn [mbind result_bind rbind]; rewrite Hp; reflexivity.
  - cbn [mbind result_bind rbind]. eauto.
Qed.

(** A missing baseline file of any provider stops [load_database] with a
    [FileNotFoundError] (only the incremental files may be absent). *)
Theorem load_database_missing_baseline (self : DataProvider) (fs : gmap string DataFrame)
    (key : string) :
  key ∈ providers self ->
  fs !! (path_join (data_directory self) key +:+ ".csv") = None ->
  exists path, load_database self fs = Raise (FileNotFoundError path).
Proof.
  intros Hin Hnone. unfold load_database.
  destruct (load_sources_raises_missing self fs _ key Hin Hnone) as [path Hp].
  exists path. by rewrite Hp.
Qed.

Lemma load_database_missing_baseline_witness :
  exists path,
    load_database example_provider (delete "data/database/ferien.csv" example_fs)
    = Raise (FileNotFoundError path).
Proof.
  apply (load_database_missing_baseline example_provider
           (delete "data/database/ferien.csv" example_fs) "ferien").
  - apply (bool_decide_unpack _). vm_compute. exact I.
  - reflexivity.
Defined.

Lemma load_source_index (self : DataProvider) (fs : gmap string DataFrame) key df :
  load_source self fs key = Ok df ->
  exists database,
    fs !! (path_join (data_directory self) key +:+ ".csv") = Some database
    /\ index df = match fs !! ("data/new_data/" +:+ key +:+ ".csv") with
                  | Some new_data => index new_data ∪ index database
                  | None => index database
                  end.
Proof.
  unfold load_source, read_csv.
  destruct (fs !! (path_join (data_directory self) key +:+ ".csv")) as [db|];
    [|discriminate].
  cbn [mbind result_bind rbind]. intros H. exists db. split; [done|].
  destruct (fs !! ("data/new_data/" +:+ key +:+ ".csv")); by injection H as <-.
Qed.

Lemma load_sources_elem (self : DataProvider) (fs : gmap string DataFrame) keys data df :
  load_sources self fs keys = Ok data ->
  df ∈ data ->
  exists key, key ∈ keys /\ load_source self fs key = Ok df.
Proof.
  revert data. induction keys as [|k keys IH]; intros data H Hin.
  - injection H as <-. inversion Hin.
  - cbn [load_sources] in H.
    apply bind_ok_inv in H as (d0 & Hd0 & H).
    apply bind_ok_inv in H as (rest & Hrest & [= <-]).
    apply elem_of_cons in Hin as [->|Hin].
    + exists k. split; [left|done].
    + destruct (IH _ Hrest Hin) as (key & ? & ?). exists key. split; [by right|done].
Qed.

(** The rows and cells of the table [load_database] returns: a timestamp is
    a row exactly when some baseline or incremental file has it, it lies in
    the configured range (both ends included) and its time of day lies in
    the configured window; and no cell of the table is missing. *)
Theorem load_database_rows (self : DataProvider) (fs : gmap string DataFrame)
    (table : DataFrame) :
  load_database self fs = Ok table ->
  (forall t : Z,
     t ∈ index table
     <-> (exists key file,
            key ∈ providers self
            /\ (fs !! (path_join (data_directory self) key +:+ ".csv") = Some file
                \/ fs !! ("data/new_data/" +:+ key +:+ ".csv") = Some file)
            /\ t ∈ index file)
         /\ (start_date (configs self) + start_time (configs self) <= t)%Z
         /\ (t <= end_date (configs self) + end_time (configs self))%Z
         /\ in_time_window (start_time (configs self)) (end_time (configs self)) t = true)
  /\ forall (t : Z) (name : string),
       t ∈ index table -> name ∈ column_names table -> is_Some (value table t name).
Proof.
  unfold load_database. intros H.
  apply bind_ok_inv in H as (data & Hdata & H).
  destruct data as [|first rest]; [discriminate|].
  apply bind_ok_inv in H as (joined & Hjoin & [= <-]).
  destruct (join_all_ok _ _ _ Hjoin) as (Hidx & _ & _ & _).
  assert (Hjoined : forall t, t ∈ index joined <-> exists df, df ∈ first :: rest /\ t ∈ index df).
  { intros t. rewrite Hidx. split.
    - intros [?|(df & ? & ?)]; [exists first; split; [left|done]|].
      exists df. split; [by right|done].
    - intros (df & Hdf & ?). apply elem_of_cons in Hdf as [->|Hdf]; [by left|right; eauto]. }
  split.
  - intros t. change (index (fillna 0 ?d)) with (index d).
    rewrite elem_of_filter_time_and_date, Hjoined. split.
    + intros ((df & Hdf & Ht) & Hrange). split; [|exact Hrange].
      destruct (load_sources_elem _ _ _ _ _ Hdata Hdf) as (key & Hkey & Hsrc).
      apply load_source_index in Hsrc as (db & Hdb & Hi). rewrite Hi in Ht.
      destruct (fs !! ("data/new_data/" +:+ key +:+ ".csv")) as [new|] eqn:Hnew.
      * apply elem_of_union in Ht as [Ht|Ht]; [exists key, new|exists key, db]; auto.
      * exists key, db. auto.
    + intros ((key & file & Hkey & Hfile & Ht) & Hrange). split; [|exact Hrange].
      destruct (load_sources_ok _ _ _ _ _ Hdata Hkey) as (df & Hdf & Hsrc).
      exists df. split; [done|].
      apply load_source_index in Hsrc as (db & Hdb & ->).
      destruct Hfile as [Hfile|Hfile].
      * rewrite Hdb in Hfile. injection Hfile as ->.
        destruct (fs !! ("data/new_data/" +:+ key +:+ ".csv")); [|done].
        apply elem_of_union. by right.
      * rewrite Hfile. apply elem_of_union. by left.
  - intros t name Ht Hname. rewrite value_fillna; [done| |exact Ht].
    unfold fillna, column_names in Hname. cbn [columns] in Hname.
    by rewrite column_names_map_series in Hname.
Qed.

Lemma load_database_rows_witness : is_Some (value example_merged 0 "BW").
Proof.
  refine (proj2 (load_database_rows example_provider example_fs example_merged _)
            0%Z "BW" _ _).
  - exact example_merged_ok.
  - apply (bool_decide_unpack _). vm_compute. exact I.
  - apply (bool_decide_unpack _). vm_compute. exact I.
Defined.

Lemma join_all_columns (first joined : DataFrame) (rest : list DataFrame) :
  join_all first rest = Ok joined ->
  columns joined = columns first ++ (rest ≫= columns)
  /\ (forall df name, df ∈ rest -> name ∈ column_names df -> name ∉ column_names first)
  /\ forall i j di dj name,
       i < j -> rest !! i = Some di -> rest !! j = Some dj ->
       name ∈ column_names di -> name ∉ column_names dj.
Proof.
  revert first. induction rest as [|df rest IH]; intros first; cbn [join_all].
  - intros [= <-]. cbn. rewrite app_nil_r. split; [done|]. split.
    + intros df name Hdf. inversion Hdf.
    + intros i j di dj name _ Hi. by rewrite lookup_nil in Hi.
  - intros H. apply bind_ok_inv in H as (j0 & Hj & H).
    apply join_outer_ok in Hj as (_ & Hcols & Hdisj).
    destruct (IH _ H) as (IHcols & IHfirst & IHrest).
    assert (Hnames : column_names j0 = column_names first ++ column_names df).
    { unfold column_names. by rewrite Hcols, fmap_app. }
    split; [|split].
    + rewrite IHcols, Hcols. cbn. by rewrite app_assoc.
    + intros d name Hd Hn Hf. apply elem_of_cons in Hd as [->|Hd].
      * by apply (Hdisj name).
      * apply (IHfirst d name Hd Hn). rewrite Hnames, elem_of_app. by left.
    + intros i j di dj name Hij Hi Hj Hn Hn'.
      destruct j as [|j]; [lia|]. cbn in Hj.
      destruct i as [|i].
      * injection Hi as <-.
        apply (IHfirst dj name); [by eapply list_elem_of_lookup_2|done|].
        rewrite Hnames, elem_of_app. by right.
      * cbn in Hi. apply (IHrest i j di dj name); [lia|done..].
Qed.

(** The columns of the table [load_database] returns are the columns of
    the merged sources in the order of the providers (fahrten, weather,
    ferien, sales), and no column name occurs in two sources: the join
    refuses overlapping names. *)
Theorem load_database_columns (self : DataProvider) (fs : gmap string DataFrame)
    (table : DataFrame) :
  load_database self fs = Ok table ->
  exists data,
    load_sources self fs (providers self) = Ok data
    /\ length data = length (providers self)
    /\ column_names table = data ≫= column_names
    /\ forall i j di dj name,
         i < j -> data !! i = Some di -> data !! j = Some dj ->
         name ∈ column_names di -> name ∉ column_names dj.
Proof.
  unfold load_database. intros H.
  apply bind_ok_inv in H as (data & Hdata & H).
  destruct data as [|first rest]; [discriminate|].
  apply bind_ok_inv in H as (joined & Hjoin & [= <-]).
  exists (first :: rest). split; [done|].
  destruct (join_all_columns _ _ _ Hjoin) as (Hcols & Hfirst & Hrest).
  split; [|split].
  - clear -Hdata. revert Hdata. generalize (first :: rest). generalize (providers self).
    intros keys. induction keys as [|k keys IH]; intros data H.
    + by injection H as <-.
    + cbn [load_sources] in H. apply bind_ok_inv in H as (d0 & _ & H).
      apply bind_ok_inv in H as (r & Hr & [= <-]). cbn. f_equal. by apply IH.
  - unfold column_names, fillna, filter_time_and_date, restrict_rows. cbn [columns].
    rewrite !column_names_map_series, Hcols, fmap_app. cbn. f_equal.
    clear. induction rest as [|d rest IH]; [done|]. cbn. by rewrite fmap_app, IH.
  - intros i j di dj name Hij Hi Hj Hn Hn'.
    destruct j as [|j]; [lia|]. cbn in Hj. destruct i as [|i].
    + injection Hi as <-. apply (Hfirst dj name); [by eapply list_elem_of_lookup_2|done..].
    + cbn in Hi. apply (Hrest i j di dj name); [lia|done..].
Qed.

Lemma load_database_columns_witness :
  column_names example_merged = ["SP1_an"; "temperature"; "BW"; "10"].
Proof.
  destruct (load_database_columns example_provider example_fs example_merged
              example_merged_ok) as (data & Hdata & _ & Hnames & _).
  rewrite Hnames.
  assert (Hd : load_sources example_provider example_fs (providers example_provider)
               = Ok (result_value (load_sources example_provider example_fs
                                     (providers example_provider)) [])).
  { apply ok_result_value1. reflexivity. }
  rewrite Hd in Hdata. injection Hdata as <-. reflexivity.
Defined.

(** * The fetcher's update *)




(** * The sales provider *)

(** [_filter_range] is the set of the numbers lying in one of the item
    intervals, ends included. *)
Theorem filter_range_spec (self : SalesDataProvider) (z : Z) :
  z ∈ _filter_range self
  <-> exists interval, interval ∈ item_intervals self
                       /\ (interval.1 <= z <= interval.2)%Z.
Proof.
  unfold _filter_range. rewrite elem_of_union_list. split.
  - intros (X & HX & Hz). apply list_elem_of_fmap in HX as (interval & -> & Hin).
    exists interval. split; [done|].
    apply elem_of_list_to_set, list_elem_of_filter in Hz as [Hz _]. exact Hz.
  - intros (interval & Hin & Hz). eexists. split.
    + apply list_elem_of_fmap. exists interval. split; [reflexivity|done].
    + apply elem_of_list_to_set, list_elem_of_filter. split; [done|].
      apply elem_of_seqZ. lia.
Qed.



